(** * EffortlessSmartRewards: enrichment, reward matching, savings, notification

    A shallow embedding of [backend/app/services.py],
    [backend/app/ai_service.py] (notification decision) and the per-transaction
    step of [backend/seed_data.py], with the properties of the specification
    proved or refuted on it.

    Conventions of the embedding.
    - Python [str] is [string]; the text is ASCII, so [lower], [capitalize],
      [title] and [split] act on the ASCII letters and the ASCII white space.
    - [Optional[...]] is [option]; Python truthiness is written out
      ([Py.truthy_str], [Dec.truthy], [AiInsightsService.truthy]).
    - [decimal.Decimal] is its triple (sign, coefficient, exponent) of a
      finite number; arithmetic rounds to the 28 significant digits of the
      default context with ROUND_HALF_EVEN.  NaN, the infinities and the
      exponent limits Emin/Emax of the context are outside the model.
    - [datetime] values are integers on one time line (all naive or all
      aware of the same zone).
    - The database is the list of its [Reward] rows, in storage order; a
      query is that list under successive [WHERE] filters with SQL's
      three-valued logic, and [query.all()] keeps the order.
    - A call that can raise returns an [Exn.result]: the value, or the
      exception.  A SQLAlchemy column expression is a [Sql.clause]: the
      operator it was built with, which decides what Python's truth test
      of the object gives, and its meaning on a row.
    - Objects mutated in place ([Transaction]) are passed and returned. *)

From Stdlib Require Import ZArith NArith QArith Qpower Qabs Qminmax Lia List Bool Ascii String.
From stdpp Require Import base gmap strings.
Import ListNotations.

Local Open Scope string_scope.
Local Open Scope bool_scope.

(* ===================================================================== *)
(** ** Python string builtins used by the services *)
(* ===================================================================== *)

Module Py.

Definition is_upper (c : ascii) : bool :=
  let n := nat_of_ascii c in (65 <=? n)%nat && (n <=? 90)%nat.

Definition is_lower (c : ascii) : bool :=
  let n := nat_of_ascii c in (97 <=? n)%nat && (n <=? 122)%nat.

Definition is_alpha (c : ascii) : bool := is_upper c || is_lower c.

(** [str.isspace] on ASCII: TAB, LF, VT, FF, CR, FS, GS, RS, US, SPACE. *)
Definition is_space (c : ascii) : bool :=
  let n := nat_of_ascii c in
  ((9 <=? n)%nat && (n <=? 13)%nat) || ((28 <=? n)%nat && (n <=? 32)%nat).

Definition lower_char (c : ascii) : ascii :=
  if is_upper c then ascii_of_nat (nat_of_ascii c + 32) else c.

Definition upper_char (c : ascii) : ascii :=
  if is_lower c then ascii_of_nat (nat_of_ascii c - 32) else c.

(** [s.lower()] *)
Fixpoint lower (s : string) : string :=
  match s with
  | EmptyString => EmptyString
  | String c s' => String (lower_char c) (lower s')
  end.

(** [s.capitalize()]: first character upper case, the rest lower case. *)
Definition capitalize (s : string) : string :=
  match s with
  | EmptyString => EmptyString
  | String c s' => String (upper_char c) (lower s')
  end.

(** [s.title()]: a letter is upper-cased when the previous character is not
    a letter and lower-cased when it is. *)
Fixpoint title_from (previous_is_cased : bool) (s : string) : string :=
  match s with
  | EmptyString => EmptyString
  | String c s' =>
      String (if previous_is_cased then lower_char c else upper_char c)
             (title_from (is_alpha c) s')
  end.

Definition title (s : string) : string := title_from false s.

(** [s.startswith(p)] *)
Fixpoint startswith (p s : string) : bool :=
  match p, s with
  | EmptyString, _ => true
  | String _ _, EmptyString => false
  | String a p', String b s' => Ascii.eqb a b && startswith p' s'
  end.

(** [p in s] *)
Fixpoint contains (p s : string) : bool :=
  startswith p s ||
  match s with
  | EmptyString => false
  | String _ s' => contains p s'
  end.

(** [s.split()]: maximal runs of non-space characters, left to right.
    [word] is the run being read, if any. *)
Fixpoint split_from (word : option string) (s : string) : list string :=
  match s with
  | EmptyString =>
      match word with Some w => [w] | None => [] end
  | String c s' =>
      if is_space c then
        match word with
        | Some w => w :: split_from None s'
        | None => split_from None s'
        end
      else
        split_from
          (Some (match word with
                 | Some w => w ++ String c EmptyString
                 | None => String c EmptyString
                 end)) s'
  end.

Definition split (s : string) : list string := split_from None s.

(** Truth value of an [Optional[str]]: [None] and [""] are false. *)
Definition truthy_str (o : option string) : bool :=
  match o with
  | Some (String _ _) => true
  | _ => false
  end.

(** [o or ''] *)
Definition or_empty (o : option string) : string :=
  match o with
  | Some s => s
  | None => ""
  end.

End Py.

(* ===================================================================== *)
(** ** decimal.Decimal *)
(* ===================================================================== *)

Record Decimal : Type := mkDecimal {
  d_sign : bool;   (* true: negative *)
  d_int : N;       (* coefficient *)
  d_exp : Z        (* power of ten *)
}.

Module Dec.

(** Precision of the default context. *)
Definition prec : Z := 28.

Fixpoint digits_from (fuel : nat) (n : N) : Z :=
  match fuel with
  | O => 1
  | S fuel' => if (n <? 10)%N then 1 else (1 + digits_from fuel' (n / 10)%N)%Z
  end.

(** [len(self._int)]: number of decimal digits of the coefficient (1 for 0). *)
Definition num_digits (n : N) : Z := digits_from (N.to_nat (N.log2 n)) n.

(** [bool(d)] *)
Definition truthy (d : Decimal) : bool := negb (d_int d =? 0)%N.

(** The test [if o:] on an [Optional[Decimal]]: the decimal when it is set
    and not zero. *)
Definition when_truthy (o : option Decimal) : option Decimal :=
  match o with
  | Some d => if truthy d then Some d else None
  | None => None
  end.

(** The coefficient with its sign. *)
Definition signed (d : Decimal) : Z :=
  if d_sign d then (- Z.of_N (d_int d))%Z else Z.of_N (d_int d).

(** Numerical value, for stating properties. *)
Definition value (d : Decimal) : Q :=
  (inject_Z (signed d) * (10 # 1) ^ d_exp d)%Q.

(** Comparison of two finite decimals: both coefficients are brought to
    the smaller exponent and compared as integers. *)
Definition cmp (x y : Decimal) : comparison :=
  let e := Z.min (d_exp x) (d_exp y) in
  (signed x * 10 ^ (d_exp x - e) ?= signed y * 10 ^ (d_exp y - e))%Z.

(** [x < y] *)
Definition lt (x y : Decimal) : bool :=
  match cmp x y with Lt => true | _ => false end.

(** The builtin [min(a, b)] on two arguments: [b] only when [b < a]. *)
Definition min (a b : Decimal) : Decimal := if lt b a then b else a.

(** [Decimal._fix]: round to [prec] significant digits, ROUND_HALF_EVEN.
    A coefficient that grows to [prec + 1] digits by the round-up loses its
    last (zero) digit. *)
Definition fix_ (d : Decimal) : Decimal :=
  let len := num_digits (d_int d) in
  if (len <=? prec)%Z then d
  else
    let k := (len - prec)%Z in
    let unit := (10 ^ Z.to_N k)%N in
    let q := (d_int d / unit)%N in
    let r := (d_int d mod unit)%N in
    let half := (5 * 10 ^ Z.to_N (k - 1))%N in
    let q' := if (half <? r)%N || ((r =? half)%N && N.odd q) then (q + 1)%N else q in
    if (q' =? 10 ^ Z.to_N prec)%N
    then mkDecimal (d_sign d) (10 ^ Z.to_N (prec - 1))%N (d_exp d + k + 1)
    else mkDecimal (d_sign d) q' (d_exp d + k).

(** [abs(d)] *)
Definition abs (d : Decimal) : Decimal :=
  fix_ (mkDecimal false (d_int d) (d_exp d)).

(** [x * y] *)
Definition mul (x y : Decimal) : Decimal :=
  fix_ (mkDecimal (xorb (d_sign x) (d_sign y)) (d_int x * d_int y) (d_exp x + d_exp y)).

(** The loop of an exact division: drop trailing zeros of the quotient
    while its exponent is below the ideal one ([room] steps at most). *)
Fixpoint strip_zeros (room : nat) (coeff : N) (exp : Z) : N * Z :=
  match room with
  | O => (coeff, exp)
  | S room' =>
      if (coeff mod 10 =? 0)%N
      then strip_zeros room' (coeff / 10)%N (exp + 1)%Z
      else (coeff, exp)
  end.

(** [x / y]; [None] stands for the exception raised on a zero divisor. *)
Definition truediv (x y : Decimal) : option Decimal :=
  let sign := xorb (d_sign x) (d_sign y) in
  if (d_int y =? 0)%N then None
  else if (d_int x =? 0)%N then
    Some (fix_ (mkDecimal sign 0 (d_exp x - d_exp y)))
  else
    let shift := (num_digits (d_int y) - num_digits (d_int x) + prec + 1)%Z in
    let exp := (d_exp x - d_exp y - shift)%Z in
    let num := if (0 <=? shift)%Z then (d_int x * 10 ^ Z.to_N shift)%N else d_int x in
    let den := if (0 <=? shift)%Z then d_int y else (d_int y * 10 ^ Z.to_N (- shift))%N in
    let coeff := (num / den)%N in
    let remainder := (num mod den)%N in
    if (remainder =? 0)%N then
      let '(coeff', exp') := strip_zeros (Z.to_nat shift) coeff exp in
      Some (fix_ (mkDecimal sign coeff' exp'))
    else
      let coeff' := if (coeff mod 5 =? 0)%N then (coeff + 1)%N else coeff in
      Some (fix_ (mkDecimal sign coeff' exp)).

(** [Decimal(n)] for a non-negative [int]. *)
Definition of_nonneg_int (n : N) : Decimal := mkDecimal false n 0.

(** [Decimal(str(d))]: the string form of a finite decimal spells its
    sign, digits and exponent, and parsing it gives the same triple. *)
Definition of_str_of (d : Decimal) : Decimal := d.

End Dec.

(* ===================================================================== *)
(** ** Data model (app.models, as used by the services) *)
(* ===================================================================== *)

(** A [datetime] is a point on an integer time line. *)
Abbreviation datetime := Z (only parsing).

Record Transaction : Type := mkTransaction {
  customer_id : Z;
  account_id : Z;
  posted_at : datetime;
  transaction_at : option datetime;
  description : string;
  memo : option string;
  value_amount_usd : Decimal;
  merchant_normalized : option string;
  category : option string;
  location_inferred : option string;
  matched_reward_id : option Z;
  reward_applied : bool;
  reward_savings_amount : option Decimal;
  notification_triggered : bool
}.

Record Reward : Type := mkReward {
  reward_id : Z;
  merchant_name : string;
  reward_type : string;
  reward_category : option string;
  start_date : datetime;
  end_date : option datetime;
  max_savings_amount : option Decimal;
  geo_scope : string;
  geo_city : option string;
  geo_country : option string;
  is_auto_applicable : bool;
  requires_user_opt_in : bool;
  percentage_value : option Decimal;
  fixed_amount_value : option Decimal
}.

Record User : Type := mkUser {
  primary_geo_location : option string
}.

Record UserPreference : Type := mkUserPreference {
  notifications_enabled : bool;
  priceless_geo_location : option string;
  priceless_notifications_enabled : bool;
  auto_apply_rewards_enabled : bool
}.

(** Modelled from the spec: the column defaults of [app.models.Transaction]
    (the module is not part of the sources).  A transaction built from its
    identity fields has no derived field, no matched reward, and both flags
    false. *)
Definition new_transaction (customer account : Z) (posted : datetime)
    (at_ : option datetime) (desc : string) (memo_ : option string)
    (amount : Decimal) : Transaction :=
  {| customer_id := customer; account_id := account; posted_at := posted;
     transaction_at := at_; description := desc; memo := memo_;
     value_amount_usd := amount;
     merchant_normalized := None; category := None; location_inferred := None;
     matched_reward_id := None; reward_applied := false;
     reward_savings_amount := None; notification_triggered := false |}.

(** Attribute assignments on a transaction. *)
Definition set_merchant_normalized (v : option string) (t : Transaction) : Transaction :=
  {| customer_id := customer_id t; account_id := account_id t; posted_at := posted_at t;
     transaction_at := transaction_at t; description := description t; memo := memo t;
     value_amount_usd := value_amount_usd t;
     merchant_normalized := v; category := category t;
     location_inferred := location_inferred t;
     matched_reward_id := matched_reward_id t; reward_applied := reward_applied t;
     reward_savings_amount := reward_savings_amount t;
     notification_triggered := notification_triggered t |}.

Definition set_category (v : option string) (t : Transaction) : Transaction :=
  {| customer_id := customer_id t; account_id := account_id t; posted_at := posted_at t;
     transaction_at := transaction_at t; description := description t; memo := memo t;
     value_amount_usd := value_amount_usd t;
     merchant_normalized := merchant_normalized t; category := v;
     location_inferred := location_inferred t;
     matched_reward_id := matched_reward_id t; reward_applied := reward_applied t;
     reward_savings_amount := reward_savings_amount t;
     notification_triggered := notification_triggered t |}.

Definition set_location_inferred (v : option string) (t : Transaction) : Transaction :=
  {| customer_id := customer_id t; account_id := account_id t; posted_at := posted_at t;
     transaction_at := transaction_at t; description := description t; memo := memo t;
     value_amount_usd := value_amount_usd t;
     merchant_normalized := merchant_normalized t; category := category t;
     location_inferred := v;
     matched_reward_id := matched_reward_id t; reward_applied := reward_applied t;
     reward_savings_amount := reward_savings_amount t;
     notification_triggered := notification_triggered t |}.

Definition set_matched_reward_id (v : option Z) (t : Transaction) : Transaction :=
  {| customer_id := customer_id t; account_id := account_id t; posted_at := posted_at t;
     transaction_at := transaction_at t; description := description t; memo := memo t;
     value_amount_usd := value_amount_usd t;
     merchant_normalized := merchant_normalized t; category := category t;
     location_inferred := location_inferred t;
     matched_reward_id := v; reward_applied := reward_applied t;
     reward_savings_amount := reward_savings_amount t;
     notification_triggered := notification_triggered t |}.

Definition set_reward_applied (v : bool) (t : Transaction) : Transaction :=
  {| customer_id := customer_id t; account_id := account_id t; posted_at := posted_at t;
     transaction_at := transaction_at t; description := description t; memo := memo t;
     value_amount_usd := value_amount_usd t;
     merchant_normalized := merchant_normalized t; category := category t;
     location_inferred := location_inferred t;
     matched_reward_id := matched_reward_id t; reward_applied := v;
     reward_savings_amount := reward_savings_amount t;
     notification_triggered := notification_triggered t |}.

Definition set_reward_savings_amount (v : option Decimal) (t : Transaction) : Transaction :=
  {| customer_id := customer_id t; account_id := account_id t; posted_at := posted_at t;
     transaction_at := transaction_at t; description := description t; memo := memo t;
     value_amount_usd := value_amount_usd t;
     merchant_normalized := merchant_normalized t; category := category t;
     location_inferred := location_inferred t;
     matched_reward_id := matched_reward_id t; reward_applied := reward_applied t;
     reward_savings_amount := v;
     notification_triggered := notification_triggered t |}.

Definition set_notification_triggered (v : bool) (t : Transaction) : Transaction :=
  {| customer_id := customer_id t; account_id := account_id t; posted_at := posted_at t;
     transaction_at := transaction_at t; description := description t; memo := memo t;
     value_amount_usd := value_amount_usd t;
     merchant_normalized := merchant_normalized t; category := category t;
     location_inferred := location_inferred t;
     matched_reward_id := matched_reward_id t; reward_applied := reward_applied t;
     reward_savings_amount := reward_savings_amount t;
     notification_triggered := v |}.

(* ===================================================================== *)
(** ** TransactionEnrichmentService *)
(* ===================================================================== *)

Module TransactionEnrichmentService.

(** The dict literal, in insertion order (the order [.items()] iterates). *)
Definition MERCHANT_PATTERNS : list (string * string) :=
  [ ("starbucks", "Starbucks");
    ("sbux", "Starbucks");
    ("coffee", "Coffee Shop");
    ("mcdonald", "McDonald's");
    ("mcd", "McDonald's");
    ("uber", "Uber");
    ("lyft", "Lyft");
    ("amazon", "Amazon");
    ("whole foods", "Whole Foods");
    ("target", "Target");
    ("walmart", "Walmart");
    ("restaurant", "Restaurant");
    ("dining", "Restaurant");
    ("hotel", "Hotel");
    ("airline", "Airline");
    ("gas", "Gas Station");
    ("shell", "Shell");
    ("exxon", "Exxon");
    ("grocery", "Grocery Store") ].

Definition CATEGORY_PATTERNS : list (string * list string) :=
  [ ("dining", ["restaurant"; "cafe"; "coffee"; "starbucks"; "mcdonald";
                "dining"; "food"; "pizza"; "burger"]);
    ("travel", ["hotel"; "airline"; "uber"; "lyft"; "taxi"; "airport";
                "travel"; "booking"]);
    ("groceries", ["grocery"; "whole foods"; "safeway"; "kroger"; "walmart";
                   "target"; "supermarket"]);
    ("entertainment", ["movie"; "theater"; "cinema"; "netflix"; "spotify";
                       "entertainment"; "concert"]);
    ("shopping", ["amazon"; "retail"; "store"; "shopping"; "mall"]);
    ("gas", ["gas"; "shell"; "exxon"; "chevron"; "bp"; "fuel"]);
    ("utilities", ["electric"; "water"; "gas bill"; "utility"; "internet";
                   "phone"]) ].

Definition cities : list string :=
  ["new york"; "nyc"; "san francisco"; "sf"; "los angeles"; "la";
   "chicago"; "boston"; "miami"].

(** [for pattern, normalized in table.items(): if pattern in combined:
    return normalized] *)
Fixpoint first_pattern (table : list (string * string)) (combined : string)
  : option string :=
  match table with
  | [] => None
  | (pattern, normalized) :: rest =>
      if Py.contains pattern combined then Some normalized
      else first_pattern rest combined
  end.

(** [f"{description} {memo or ''}".lower()] *)
Definition combined_text (description : string) (memo : option string) : string :=
  Py.lower (description ++ " " ++ Py.or_empty memo).

Definition normalize_merchant (description : string) (memo : option string)
  : option string :=
  let combined := combined_text description memo in
  match first_pattern MERCHANT_PATTERNS combined with
  | Some normalized => Some normalized
  | None =>
      let words := Py.split combined in
      match words with
      | w :: _ => Some (Py.capitalize w)
      | [] => None
      end
  end.

(** The inner loop over one category's patterns. *)
Fixpoint any_pattern (patterns : list string) (combined : string) : bool :=
  match patterns with
  | [] => false
  | pattern :: rest =>
      if Py.contains pattern combined then true else any_pattern rest combined
  end.

Fixpoint first_category (table : list (string * list string)) (combined : string)
  : option string :=
  match table with
  | [] => None
  | (cat, patterns) :: rest =>
      if any_pattern patterns combined then Some cat
      else first_category rest combined
  end.

Definition infer_category (description : string) (memo merchant : option string)
  : option string :=
  let combined :=
    Py.lower (description ++ " " ++ Py.or_empty memo ++ " " ++ Py.or_empty merchant) in
  first_category CATEGORY_PATTERNS combined.

Fixpoint first_city (l : list string) (combined : string) : option string :=
  match l with
  | [] => None
  | city :: rest =>
      if Py.contains city combined then Some (Py.title city)
      else first_city rest combined
  end.

Definition infer_location (description : string) (memo : option string)
  : option string :=
  first_city cities (combined_text description memo).

Definition enrich_transaction (transaction : Transaction) : Transaction :=
  let transaction :=
    if negb (Py.truthy_str (merchant_normalized transaction)) then
      set_merchant_normalized
        (normalize_merchant (description transaction) (memo transaction))
        transaction
    else transaction in
  let transaction :=
    if negb (Py.truthy_str (category transaction)) then
      set_category
        (infer_category (description transaction) (memo transaction)
           (merchant_normalized transaction))
        transaction
    else transaction in
  let transaction :=
    if negb (Py.truthy_str (location_inferred transaction)) then
      set_location_inferred
        (infer_location (description transaction) (memo transaction))
        transaction
    else transaction in
  transaction.

End TransactionEnrichmentService.

(* ===================================================================== *)
(** ** Exceptions *)
(* ===================================================================== *)

Module Exn.

(** The exceptions the reward matching can end with: [TypeError] and
    [ArgumentError] are raised by SQLAlchemy while an expression is built
    or tested, [DecimalException] by the decimal module. *)
Inductive exception : Type :=
| TypeError
| ArgumentError
| DecimalException.

(** A call returns a value or raises. *)
Inductive result (A : Type) : Type :=
| Returns (a : A)
| Raises (e : exception).

Arguments Returns {A} a.
Arguments Raises {A} e.

(** Sequencing: the first exception ends the computation. *)
Definition bind {A B : Type} (r : result A) (f : A -> result B) : result B :=
  match r with
  | Returns a => f a
  | Raises e => Raises e
  end.

End Exn.

(* ===================================================================== *)
(** ** SQL expressions of the reward query *)
(* ===================================================================== *)

Module Sql.

(** A boolean SQL expression evaluated on a row: [None] is NULL. *)
Definition sql_bool := option bool.

Definition or2 (a b : sql_bool) : sql_bool :=
  match a, b with
  | Some true, _ | _, Some true => Some true
  | Some false, Some false => Some false
  | _, _ => None
  end.

(** [col <= v] and [col >= v] on nullable operands. *)
Definition le (a b : option Z) : sql_bool :=
  match a, b with
  | Some x, Some y => Some (x <=? y)%Z
  | _, _ => None
  end.

Definition ge (a b : option Z) : sql_bool := le b a.

(** [col == v] on nullable strings. *)
Definition eq_str (a b : option string) : sql_bool :=
  match a, b with
  | Some x, Some y => Some (String.eqb x y)
  | _, _ => None
  end.

(** [col.is_(None)] *)
Definition is_null {A : Type} (a : option A) : sql_bool :=
  match a with None => Some true | Some _ => Some false end.

(** [s LIKE p]: [%] stands for any run of characters, [_] for any one. *)
Fixpoint like (p s : string) : bool :=
  match p with
  | EmptyString => match s with EmptyString => true | String _ _ => false end
  | String c p' =>
      if Ascii.eqb c "%" then
        (fix any_run (s : string) : bool :=
           like p' s ||
           match s with
           | EmptyString => false
           | String _ s' => any_run s'
           end) s
      else
        match s with
        | EmptyString => false
        | String d s' => (Ascii.eqb c "_" || Ascii.eqb c d) && like p' s'
        end
  end.

(** [col.ilike(p)], that is [lower(col) LIKE lower(p)]. *)
Definition ilike (col : option string) (p : string) : sql_bool :=
  match col with
  | Some s => Some (like (Py.lower p) (Py.lower s))
  | None => None
  end.

(** [query.filter(cond)]: the rows on which [cond] is TRUE. *)
Definition where_ {Row : Type} (cond : Row -> sql_bool) (rows : list Row) : list Row :=
  List.filter (fun r => match cond r with Some true => true | _ => false end) rows.

(** The operator of a binary column expression. *)
Inductive operator : Type := eq_op | le_op | ilike_op.

(** A binary expression [column <op> value] over the rows of a table: the
    operator it was built with, and the SQL boolean it evaluates to on a
    row once a query runs it. *)
Record clause (Row : Type) : Type := mkClause {
  operator_of : operator;
  on_row : Row -> sql_bool
}.

Arguments mkClause {Row} _ _.
Arguments operator_of {Row} _.
Arguments on_row {Row} _ _.

(** [column <= v].  SQLAlchemy builds an ordering comparison against a
    value only; against [None] it raises ArgumentError (only [==], [!=],
    [is_] and [is_not] take None). *)
Definition le_clause {Row : Type} (column : Row -> option Z) (v : option Z)
  : Exn.result (clause Row) :=
  match v with
  | Some _ => Exn.Returns (mkClause le_op (fun r => le (column r) v))
  | None => Exn.Raises Exn.ArgumentError
  end.

(** [column.ilike(p)] *)
Definition ilike_clause {Row : Type} (column : Row -> option string) (p : string)
  : clause Row :=
  mkClause ilike_op (fun r => ilike (column r) p).

(** [column == v] for a string [v]. *)
Definition eq_clause {Row : Type} (column : Row -> option string) (v : option string)
  : clause Row :=
  mkClause eq_op (fun r => eq_str (column r) v).

(** [bool(clause)], that is [BinaryExpression.__bool__]: for [==] it
    compares the hashes of the two operands, here a column and a bound
    value, which are two objects, so the answer is False; an expression of
    any other operator has no truth value and raises TypeError. *)
Definition bool_ {Row : Type} (c : clause Row) : Exn.result bool :=
  match operator_of c with
  | eq_op => Exn.Returns false
  | le_op | ilike_op => Exn.Raises Exn.TypeError
  end.

(** The truth value of a Python value that is [False] ([None] here) or a
    clause. *)
Definition truth {Row : Type} (v : option (clause Row)) : Exn.result bool :=
  match v with
  | Some c => bool_ c
  | None => Exn.Returns false
  end.

(** The test [if a or b:]: [b] is tested only when [a] is false. *)
Definition or_truth {Row : Type} (a b : option (clause Row)) : Exn.result bool :=
  Exn.bind (truth a) (fun x => if x then Exn.Returns true else truth b).

End Sql.

(* ===================================================================== *)
(** ** RewardMatchingService *)
(* ===================================================================== *)

Module RewardMatchingService.

Import TransactionEnrichmentService.

(** Lines 150-162: the start-date filter, and the end-date filter when the
    transaction has a timestamp.  The comparison of line 152 is built
    first: without a timestamp it raises. *)
Definition temporal_query (transaction : Transaction) (db : list Reward)
  : Exn.result (list Reward) :=
  Exn.bind
    (Sql.le_clause (fun r => Some (start_date r)) (transaction_at transaction))
    (fun started =>
       let query := Sql.where_ (Sql.on_row started) db in
       Exn.Returns
         match transaction_at transaction with
         | Some _ =>
             Sql.where_
               (fun r => Sql.or2 (Sql.is_null (end_date r))
                                 (Sql.ge (end_date r) (transaction_at transaction)))
               query
         | None => query
         end).

(** Lines 165-172.  [None] is the Python [False] the variable starts
    with. *)
Definition merchant_match (transaction : Transaction)
  : option (Sql.clause Reward) :=
  if Py.truthy_str (merchant_normalized transaction) then
    Some (Sql.ilike_clause
            (fun r => Some (merchant_name r))
            ("%" ++ Py.or_empty (merchant_normalized transaction) ++ "%"))
  else None.

Definition category_match (transaction : Transaction)
  : option (Sql.clause Reward) :=
  if Py.truthy_str (category transaction) then
    Some (Sql.eq_clause reward_category (category transaction))
  else None.

(** [or_(merchant_match, category_match)] on a row; the Python [False] is
    the constant false. *)
Definition or_clause (a b : option (Sql.clause Reward)) (r : Reward)
  : Sql.sql_bool :=
  Sql.or2 (match a with Some c => Sql.on_row c r | None => Some false end)
          (match b with Some c => Sql.on_row c r | None => Some false end).

(** Lines 179-183. *)
Definition resolve_user_geo (user : User) (user_preferences : option UserPreference)
  : option string :=
  match user_preferences with
  | Some p =>
      if Py.truthy_str (priceless_geo_location p) then priceless_geo_location p
      else if Py.truthy_str (primary_geo_location user) then primary_geo_location user
      else None
  | None =>
      if Py.truthy_str (primary_geo_location user) then primary_geo_location user
      else None
  end.

(** Lines 185-192. *)
Definition geo_query (user_geo : option string) (query : list Reward) : list Reward :=
  match user_geo with
  | Some g =>
      Sql.where_
        (fun r =>
           Sql.or2 (Sql.or2 (Sql.eq_str (Some (geo_scope r)) (Some "global"))
                            (Sql.ilike (geo_city r) ("%" ++ g ++ "%")))
                   (Sql.ilike (geo_country r) ("%" ++ g ++ "%")))
        query
  | None => query
  end.

(** Lines 150-194 on an enriched transaction: the rows of [query.all()],
    [None] at the early [return []] of line 176, or the exception raised on
    the way.  The test of line 173 takes the truth value of the clause
    objects themselves. *)
Definition query_all (transaction : Transaction) (user : User)
    (user_preferences : option UserPreference) (db : list Reward)
  : Exn.result (option (list Reward)) :=
  Exn.bind (temporal_query transaction db) (fun query =>
  let merchant_match := merchant_match transaction in
  let category_match := category_match transaction in
  Exn.bind (Sql.or_truth merchant_match category_match) (fun test =>
  if test then
    let query := Sql.where_ (or_clause merchant_match category_match) query in
    let user_geo := resolve_user_geo user user_preferences in
    Exn.Returns (Some (geo_query user_geo query))
  else Exn.Returns None)).

Definition auto_apply_enabled (user_preferences : option UserPreference) : bool :=
  match user_preferences with
  | Some p => auto_apply_rewards_enabled p
  | None => false
  end.

(** The transaction is enriched in place, so the enriched object is there
    whether the call returns or raises; it is paired with the outcome. *)
Definition find_matching_rewards (transaction : Transaction) (user : User)
    (user_preferences : option UserPreference) (db : list Reward)
  : Transaction * Exn.result (list Reward) :=
  let transaction := enrich_transaction transaction in
  (transaction,
   Exn.bind (query_all transaction user user_preferences db) (fun rows =>
   match rows with
   | None => Exn.Returns []
   | Some matching_rewards =>
       if auto_apply_enabled user_preferences then
         let auto_applicable :=
           List.filter
             (fun r => is_auto_applicable r && negb (requires_user_opt_in r))
             matching_rewards in
         match auto_applicable with
         | _ :: _ => Exn.Returns (firstn 1 auto_applicable)
         | [] => Exn.Returns matching_rewards
         end
       else Exn.Returns matching_rewards
   end)).

(** [reward.reward_type == name and value]: the value when the test passes. *)
Definition type_and_value (reward : Reward) (name : string) (value : option Decimal)
  : option Decimal :=
  if String.eqb (reward_type reward) name then Dec.when_truthy value else None.

(** [None] stands for an exception of the decimal module. *)
Definition calculate_reward_savings (transaction : Transaction) (reward : Reward)
  : option Decimal :=
  let transaction_amount := Dec.abs (value_amount_usd transaction) in
  match type_and_value reward "percentage_cashback" (percentage_value reward) with
  | Some pv =>
      match Dec.truediv pv (Dec.of_nonneg_int 100) with
      | Some rate =>
          let savings := Dec.mul transaction_amount rate in
          let savings :=
            match Dec.when_truthy (max_savings_amount reward) with
            | Some cap => Dec.min savings cap
            | None => savings
            end in
          Some (Dec.of_str_of savings)
      | None => None
      end
  | None =>
      match type_and_value reward "fixed_amount" (fixed_amount_value reward) with
      | Some fv => Some fv
      | None => Some (mkDecimal false 0 (-2))     (* Decimal("0.00") *)
      end
  end.

End RewardMatchingService.

(* ===================================================================== *)
(** ** AiInsightsService.should_send_notification *)
(* ===================================================================== *)

Module AiInsightsService.

(** The values a preferences dict holds. *)
Inductive PyVal : Type :=
| VNone
| VBool (b : bool)
| VStr (s : string).

Definition truthy (v : PyVal) : bool :=
  match v with
  | VNone => false
  | VBool b => b
  | VStr s => Py.truthy_str (Some s)
  end.

Definition of_opt_str (o : option string) : PyVal :=
  match o with Some s => VStr s | None => VNone end.

(** [d.get(key, default)] *)
Definition get (d : gmap string PyVal) (key : string) (default : PyVal) : PyVal :=
  match d !! key with
  | Some v => v
  | None => default
  end.

(** [a or b] *)
Definition or_ (a b : PyVal) : PyVal := if truthy a then a else b.

Inductive outcome : Type :=
| Returns (b : bool)
| Raises.                     (* AttributeError: [.lower()] on a non-string *)

(** [now] is the clock reading [datetime.now(...)] takes. *)
Definition should_send_notification (now : datetime) (user : User)
    (user_preferences : gmap string PyVal) (experience : Reward) : outcome :=
  if negb (truthy (get user_preferences "priceless_notifications_enabled" (VBool true)))
  then Returns false
  else if negb (truthy (get user_preferences "notifications_enabled" (VBool true)))
  then Returns false
  else
    let user_geo :=
      or_ (get user_preferences "priceless_geo_location" VNone)
          (of_opt_str (primary_geo_location user)) in
    let valid :=
      if (now <? start_date experience)%Z
         || match end_date experience with
            | Some e => (e <? now)%Z
            | None => false
            end
      then Returns false
      else Returns true in
    if negb (String.eqb (geo_scope experience) "global") then
      if negb (truthy user_geo) then Returns false
      else if Py.truthy_str (geo_city experience) then
        match user_geo with
        | VStr g =>
            if negb (Py.contains (Py.lower g)
                       (Py.lower (Py.or_empty (geo_city experience))))
            then Returns false
            else valid
        | _ => Raises
        end
      else valid
    else valid.

End AiInsightsService.

(* ===================================================================== *)
(** ** seed_data: the step applied to each created transaction *)
(* ===================================================================== *)

Module Seed.

Import TransactionEnrichmentService RewardMatchingService.

(** The body of the loop of [create_sample_transactions] from "Enrich
    transaction" to [db.add].  [acted] is the draw [random.random() < 0.3].
    Nothing in the loop catches an exception: one raised by
    [find_matching_rewards] or by the savings calculation ends the step
    (and the seeding). *)
Definition match_transaction (transaction : Transaction) (user : User)
    (preferences : option UserPreference) (db : list Reward) (acted : bool)
  : Exn.result Transaction :=
  let transaction := enrich_transaction transaction in
  let '(transaction, outcome) :=
    find_matching_rewards transaction user preferences db in
  Exn.bind outcome (fun matching_rewards =>
  match matching_rewards with
  | reward :: _ =>
      let transaction := set_matched_reward_id (Some (reward_id reward)) transaction in
      match calculate_reward_savings transaction reward with
      | Some savings =>
          let transaction := set_reward_savings_amount (Some savings) transaction in
          if auto_apply_enabled preferences then
            if is_auto_applicable reward && negb (requires_user_opt_in reward) then
              Exn.Returns (set_reward_applied true transaction)
            else if acted then
              Exn.Returns (set_reward_applied true
                             (set_notification_triggered true transaction))
            else Exn.Returns transaction
          else Exn.Returns transaction
      | None => Exn.Raises Exn.DecimalException
      end
  | [] => Exn.Returns transaction
  end).

End Seed.

(* ===================================================================== *)
(** ** Concrete catalog rows, users and transactions *)
(* ===================================================================== *)

Module Examples.

Local Open Scope Z_scope.

(** Decimal("-2000.00"), Decimal("5.00"), Decimal("50.00"), Decimal("0.00"),
    Decimal("100.00"). *)
Definition minus_2000_00 : Decimal := mkDecimal true 200000 (-2).
Definition five_00 : Decimal := mkDecimal false 500 (-2).
Definition fifty_00 : Decimal := mkDecimal false 5000 (-2).
Definition zero_00 : Decimal := mkDecimal false 0 (-2).
Definition hundred_00 : Decimal := mkDecimal false 10000 (-2).

(** The first seeded offer: 5% cashback at Starbucks, at most 50.00. *)
Definition starbucks_cashback : Reward :=
  {| reward_id := 1; merchant_name := "Starbucks";
     reward_type := "percentage_cashback"; reward_category := Some "dining";
     start_date := 0; end_date := Some 90;
     max_savings_amount := Some fifty_00; geo_scope := "global";
     geo_city := None; geo_country := None;
     is_auto_applicable := true; requires_user_opt_in := false;
     percentage_value := Some five_00; fixed_amount_value := None |}.

(** The same offer with a cap of zero. *)
Definition starbucks_zero_cap : Reward :=
  {| reward_id := 2; merchant_name := "Starbucks";
     reward_type := "percentage_cashback"; reward_category := Some "dining";
     start_date := 0; end_date := Some 90;
     max_savings_amount := Some zero_00; geo_scope := "global";
     geo_city := None; geo_country := None;
     is_auto_applicable := true; requires_user_opt_in := false;
     percentage_value := Some five_00; fixed_amount_value := None |}.

(** A 100% cashback without cap. *)
Definition full_cashback : Reward :=
  {| reward_id := 9; merchant_name := "Starbucks";
     reward_type := "percentage_cashback"; reward_category := Some "dining";
     start_date := 0; end_date := Some 90;
     max_savings_amount := None; geo_scope := "global";
     geo_city := None; geo_country := None;
     is_auto_applicable := true; requires_user_opt_in := false;
     percentage_value := Some hundred_00; fixed_amount_value := None |}.

(** A percentage offer whose percentage was never filled in. *)
Definition cashback_without_percentage : Reward :=
  {| reward_id := 3; merchant_name := "Starbucks";
     reward_type := "percentage_cashback"; reward_category := Some "dining";
     start_date := 0; end_date := Some 90;
     max_savings_amount := None; geo_scope := "global";
     geo_city := None; geo_country := None;
     is_auto_applicable := true; requires_user_opt_in := false;
     percentage_value := None; fixed_amount_value := None |}.

(** A flat offer of 100.00 that also carries a cap of 50.00. *)
Definition flat_100_cap_50 : Reward :=
  {| reward_id := 4; merchant_name := "Starbucks";
     reward_type := "fixed_amount"; reward_category := Some "dining";
     start_date := 0; end_date := Some 90;
     max_savings_amount := Some fifty_00; geo_scope := "global";
     geo_city := None; geo_country := None;
     is_auto_applicable := true; requires_user_opt_in := false;
     percentage_value := None; fixed_amount_value := Some hundred_00 |}.

(** A flat offer worth 0.00. *)
Definition flat_zero : Reward :=
  {| reward_id := 5; merchant_name := "Starbucks";
     reward_type := "fixed_amount"; reward_category := Some "dining";
     start_date := 0; end_date := Some 90;
     max_savings_amount := None; geo_scope := "global";
     geo_city := None; geo_country := None;
     is_auto_applicable := true; requires_user_opt_in := false;
     percentage_value := None; fixed_amount_value := Some zero_00 |}.

(** The seeded city-scoped experience. *)
Definition wine_tasting : Reward :=
  {| reward_id := 6; merchant_name := "Exclusive Wine Tasting";
     reward_type := "experience"; reward_category := Some "entertainment";
     start_date := 25; end_date := Some 60;
     max_savings_amount := None; geo_scope := "city";
     geo_city := Some "San Francisco"; geo_country := None;
     is_auto_applicable := false; requires_user_opt_in := true;
     percentage_value := None;
     fixed_amount_value := Some (mkDecimal false 15000 (-2)) |}.

(** A city-scoped experience whose city was left out. *)
Definition experience_without_city : Reward :=
  {| reward_id := 7; merchant_name := "Broadway Show Tickets";
     reward_type := "experience"; reward_category := Some "entertainment";
     start_date := 25; end_date := Some 60;
     max_savings_amount := None; geo_scope := "city";
     geo_city := None; geo_country := None;
     is_auto_applicable := false; requires_user_opt_in := true;
     percentage_value := None;
     fixed_amount_value := Some (mkDecimal false 20000 (-2)) |}.

(** A second Starbucks offer that needs the user's opt-in. *)
Definition starbucks_opt_in : Reward :=
  {| reward_id := 8; merchant_name := "Starbucks";
     reward_type := "fixed_amount"; reward_category := Some "dining";
     start_date := 0; end_date := None;
     max_savings_amount := None; geo_scope := "global";
     geo_city := None; geo_country := None;
     is_auto_applicable := false; requires_user_opt_in := true;
     percentage_value := None;
     fixed_amount_value := Some (mkDecimal false 200 (-2)) |}.

Definition catalog : list Reward :=
  [starbucks_opt_in; starbucks_cashback; wine_tasting].

Definition starbucks_purchase : Transaction :=
  new_transaction 1001 2001 31 (Some 30) "STARBUCKS STORE #12345"
    (Some "Purchase at Starbucks Coffee") minus_2000_00.

Definition movie_night : Transaction :=
  new_transaction 1001 2001 31 (Some 30) "MOVIE THEATER"
    (Some "Cinema tickets") (mkDecimal true 2400 (-2)).

(** An amount of 29 significant digits:
    Decimal("-100000000000000000000000000.05"). *)
Definition long_amount : Decimal :=
  mkDecimal true 10000000000000000000000000005 (-2).

Definition long_purchase : Transaction :=
  new_transaction 1001 2001 31 (Some 30) "STARBUCKS STORE #12345" None long_amount.

(** A purchase whose merchant was already filled in upstream. *)
Definition labelled_purchase : Transaction :=
  set_merchant_normalized (Some "Corner Cafe") starbucks_purchase.

(** The same purchase after the wine tasting offer has ended. *)
Definition late_movie_night : Transaction :=
  new_transaction 1001 2001 71 (Some 70) "MOVIE THEATER"
    (Some "Cinema tickets") (mkDecimal true 2400 (-2)).

Definition user_without_geo : User := {| primary_geo_location := None |}.
Definition user_in_sf : User := {| primary_geo_location := Some "San Francisco, CA" |}.

Definition default_preferences : UserPreference :=
  {| notifications_enabled := true; priceless_geo_location := None;
     priceless_notifications_enabled := true;
     auto_apply_rewards_enabled := true |}.

(** The dict the insights endpoint builds: the notification toggle is on,
    the geo preference is a city. *)
Definition preferences_dict : gmap string AiInsightsService.PyVal :=
  <[ "priceless_geo_location" := AiInsightsService.VStr "New York" ]>
  (<[ "priceless_notifications_enabled" := AiInsightsService.VBool true ]>
  (<[ "auto_apply_rewards_enabled" := AiInsightsService.VBool true ]> ∅)).

End Examples.

(* ===================================================================== *)
(** ** Vocabulary of the specification *)
(* ===================================================================== *)

Module Spec.

Import TransactionEnrichmentService RewardMatchingService.

(** A reward that lacks the numeric field its type requires. *)
Definition missing_required_field (r : Reward) : Prop :=
  (reward_type r = "percentage_cashback" /\ percentage_value r = None)
  \/ (reward_type r = "fixed_amount" /\ fixed_amount_value r = None).

(** A valid flat reward worth zero. *)
Definition zero_fixed_amount (r : Reward) : Prop :=
  reward_type r = "fixed_amount"
  /\ exists v, fixed_amount_value r = Some v /\ d_int v = 0%N.

(** The reward can be applied without asking the user. *)
Definition auto_applicable (r : Reward) : bool :=
  is_auto_applicable r && negb (requires_user_opt_in r).

(** The pattern is a substring of the text. *)
Definition occurs (pattern text : string) : Prop :=
  exists pre post, text = pre ++ pattern ++ post.

(** No entry of the table has its pattern in the text. *)
Definition no_pattern (table : list (string * string)) (text : string) : Prop :=
  Forall (fun entry => ~ occurs (fst entry) text) table.

(** The text has a character that is not white space. *)
Fixpoint has_token (s : string) : bool :=
  match s with
  | EmptyString => false
  | String c s' => negb (Py.is_space c) || has_token s'
  end.

Fixpoint no_space (s : string) : bool :=
  match s with
  | EmptyString => true
  | String c s' => negb (Py.is_space c) && no_space s'
  end.

(** [w] is the first white-space-delimited token of [s]: [s] is white
    space, then [w], then nothing or white space and the rest. *)
Definition first_token (s w : string) : Prop :=
  exists lead rest,
    s = lead ++ w ++ rest
    /\ has_token lead = false
    /\ w <> "" /\ no_space w = true
    /\ (rest = "" \/ exists c rest', rest = String c rest' /\ Py.is_space c = true).

End Spec.

(* ===================================================================== *)
(** ** Decimal addition and the builtin [sum] *)
(* ===================================================================== *)

Module DecSum.

(** [Decimal._rescale(exp)] when [exp] is not above the exponent: the
    coefficient is padded with zeros (a zero stays a zero). *)
Definition pad_to (d : Decimal) (exp : Z) : Decimal :=
  mkDecimal (d_sign d) (d_int d * 10 ^ Z.to_N (d_exp d - exp)) exp.

(** [_normalize(op1, op2, prec)] on the operand [tmp] with the larger
    exponent and the [other] one: an [other] too small to matter after
    rounding is replaced by one unit of [10 ** exp], then [tmp] is brought to
    the exponent of [other].  The result is the pair of coefficients
    ([tmp], [other]) and their common exponent. *)
Definition normalize (tmp other : Decimal) : N * N * Z :=
  let tmp_len := Dec.num_digits (d_int tmp) in
  let other_len := Dec.num_digits (d_int other) in
  let exp := (d_exp tmp + Z.min (-1) (tmp_len - Dec.prec - 2))%Z in
  let '(other_int, other_exp) :=
    if (other_len + d_exp other - 1 <? exp)%Z then (1%N, exp)
    else (d_int other, d_exp other) in
  ((d_int tmp * 10 ^ Z.to_N (d_exp tmp - other_exp))%N, other_int, other_exp).

(** [x + y] *)
Definition add (x y : Decimal) : Decimal :=
  let exp := Z.min (d_exp x) (d_exp y) in
  if (d_int x =? 0)%N && (d_int y =? 0)%N then
    Dec.fix_ (mkDecimal (d_sign x && d_sign y) 0 exp)
  else if (d_int x =? 0)%N then
    Dec.fix_ (pad_to y (Z.max exp (d_exp y - Dec.prec - 1)))
  else if (d_int y =? 0)%N then
    Dec.fix_ (pad_to x (Z.max exp (d_exp x - Dec.prec - 1)))
  else
    let '(int1, int2, e) :=
      if (d_exp x <? d_exp y)%Z then
        let '(t, o, e) := normalize y x in (o, t, e)
      else normalize x y in
    if Bool.eqb (d_sign x) (d_sign y) then
      Dec.fix_ (mkDecimal (d_sign x) (int1 + int2) e)
    else if (int1 =? int2)%N then
      Dec.fix_ (mkDecimal false 0 exp)
    else if (int1 <? int2)%N then
      Dec.fix_ (mkDecimal (d_sign y) (int2 - int1) e)
    else
      Dec.fix_ (mkDecimal (d_sign x) (int1 - int2) e).

(** [sum(ds)]: the running total starts at the integer 0, so the first
    addition is [d + Decimal(0)]; [None] is the integer 0 of an empty sum. *)
Definition sum (ds : list Decimal) : option Decimal :=
  match ds with
  | [] => None
  | d :: rest => Some (fold_left add rest (add d (Dec.of_nonneg_int 0)))
  end.

(** [sum(ds) or Decimal("0.00")] *)
Definition sum_or_zero (ds : list Decimal) : Decimal :=
  match sum ds with
  | Some total => if Dec.truthy total then total else mkDecimal false 0 (-2)
  | None => mkDecimal false 0 (-2)
  end.

(** [d or Decimal("0.00")] *)
Definition or_zero (d : option Decimal) : Decimal :=
  match Dec.when_truthy d with
  | Some v => v
  | None => mkDecimal false 0 (-2)
  end.

End DecSum.

(* ===================================================================== *)
(** ** SavingsCalculationService *)
(* ===================================================================== *)

Module SavingsCalculationService.

(** A row of the transactions table: the owning user and the fields of the
    transaction. *)
Record TransactionRow : Type := mkTransactionRow {
  user_id : Z;
  fields : Transaction
}.

(** [timedelta(days=days)] on the time line, in microseconds. *)
Definition timedelta_days (days : Z) : Z := (days * 86400000000)%Z.

(** [and_(a, b)] in SQL's three-valued logic. *)
Definition and2 (a b : Sql.sql_bool) : Sql.sql_bool :=
  match a, b with
  | Some false, _ | _, Some false => Some false
  | Some true, Some true => Some true
  | _, _ => None
  end.

(** [col.isnot(None)] *)
Definition is_not_null {A : Type} (a : option A) : Sql.sql_bool :=
  match a with None => Some false | Some _ => Some true end.

(** [col == v] on integers and booleans that are not nullable. *)
Definition eq_int (a b : Z) : Sql.sql_bool := Some (a =? b)%Z.
Definition eq_flag (a b : bool) : Sql.sql_bool := Some (Bool.eqb a b).

(** Lines 240-248: the transactions with an auto-applied reward. *)
Definition auto_apply_transactions (uid : Z) (cutoff_date : Z)
    (db : list TransactionRow) : list TransactionRow :=
  Sql.where_
    (fun t =>
       and2 (eq_int (user_id t) uid)
      (and2 (eq_flag (reward_applied (fields t)) true)
      (and2 (eq_flag (notification_triggered (fields t)) false)
      (and2 (is_not_null (reward_savings_amount (fields t)))
            (Sql.ge (transaction_at (fields t)) (Some cutoff_date))))))
    db.

(** Lines 256-263: the transactions where a notification led to the reward. *)
Definition notification_transactions (uid : Z) (cutoff_date : Z)
    (db : list TransactionRow) : list TransactionRow :=
  Sql.where_
    (fun t =>
       and2 (eq_int (user_id t) uid)
      (and2 (eq_flag (notification_triggered (fields t)) true)
      (and2 (is_not_null (reward_savings_amount (fields t)))
            (Sql.ge (transaction_at (fields t)) (Some cutoff_date)))))
    db.

(** [t.reward_savings_amount for t in rows if t.reward_savings_amount] *)
Fixpoint truthy_savings (rows : list TransactionRow) : list Decimal :=
  match rows with
  | [] => []
  | t :: rest =>
      match Dec.when_truthy (reward_savings_amount (fields t)) with
      | Some amount => amount :: truthy_savings rest
      | None => truthy_savings rest
      end
  end.

(** The returned dict has exactly these two keys. *)
Record Savings : Type := mkSavings {
  saved_via_auto_apply : Decimal;
  saved_via_notifications : Decimal
}.

(** [now] is the clock reading [datetime.now()] takes. *)
Definition calculate_savings (now : Z) (uid : Z) (db : list TransactionRow)
    (days : Z) : Savings :=
  let cutoff_date := (now - timedelta_days days)%Z in
  {| saved_via_auto_apply :=
       DecSum.sum_or_zero (truthy_savings (auto_apply_transactions uid cutoff_date db));
     saved_via_notifications :=
       DecSum.sum_or_zero
         (truthy_savings (notification_transactions uid cutoff_date db)) |}.

(** Lines 286-293. *)
Definition rewarded_transactions (uid : Z) (cutoff_date : Z)
    (db : list TransactionRow) : list TransactionRow :=
  Sql.where_
    (fun t =>
       and2 (eq_int (user_id t) uid)
      (and2 (eq_flag (reward_applied (fields t)) true)
      (and2 (is_not_null (reward_savings_amount (fields t)))
            (Sql.ge (transaction_at (fields t)) (Some cutoff_date)))))
    db.

(** One entry of [category_totals]: the running total and the count. *)
Record CategoryTotal : Type := mkCategoryTotal {
  total_savings : Decimal;
  count : nat
}.

(** [t.category or "Other"] *)
Definition category_or_other (t : Transaction) : string :=
  if Py.truthy_str (category t) then Py.or_empty (category t) else "Other".

(** The body of the loop on the dict [category_totals], kept as the list of
    its items in insertion order: a new category is appended with a zero
    total, then the total and the count of the category are increased. *)
Fixpoint add_to_category (cat : string) (amount : Decimal)
    (totals : list (string * CategoryTotal)) : list (string * CategoryTotal) :=
  match totals with
  | [] =>
      [(cat, {| total_savings := DecSum.add (mkDecimal false 0 (-2)) amount;
                count := 1 |})]
  | (c, data) :: rest =>
      if String.eqb c cat then
        (c, {| total_savings := DecSum.add (total_savings data) amount;
               count := count data + 1 |}) :: rest
      else (c, data) :: add_to_category cat amount rest
  end.

Definition get_rewards_by_category (now : Z) (uid : Z) (db : list TransactionRow)
    (days : Z) : list (string * CategoryTotal) :=
  let cutoff_date := (now - timedelta_days days)%Z in
  let transactions := rewarded_transactions uid cutoff_date db in
  fold_left
    (fun category_totals t =>
       add_to_category (category_or_other (fields t))
         (DecSum.or_zero (reward_savings_amount (fields t)))
         category_totals)
    transactions [].

End SavingsCalculationService.

(* ===================================================================== *)
(** ** AiInsightsService.generate_reward_recommendations *)
(* ===================================================================== *)

Module Recommendations.

Import AiInsightsService.

(** [counts[key] = counts.get(key, 0) + 1] *)
Definition count_up (key : string) (counts : gmap string nat) : gmap string nat :=
  <[ key := (match counts !! key with Some n => n | None => 0 end + 1)%nat ]> counts.

(** Lines 156-164: one pass over the transactions fills both dicts. *)
Definition count_patterns (recent_transactions : list Transaction)
  : gmap string nat * gmap string nat :=
  fold_left
    (fun '(merchant_counts, category_counts) t =>
       let merchant_counts :=
         if Py.truthy_str (merchant_normalized t)
         then count_up (Py.or_empty (merchant_normalized t)) merchant_counts
         else merchant_counts in
       let category_counts :=
         if Py.truthy_str (category t)
         then count_up (Py.or_empty (category t)) category_counts
         else category_counts in
       (merchant_counts, category_counts))
    recent_transactions (∅, ∅).

(** [key in counts] for an optional key: [None] is never a key. *)
Definition key_in (key : option string) (counts : gmap string nat) : bool :=
  match key with
  | Some k => match counts !! k with Some _ => true | None => false end
  | None => false
  end.

(** Lines 184-190. *)
Definition match_auto_apply (merchant_counts category_counts : gmap string nat)
    (auto_apply_candidates : list Reward) : list Reward :=
  List.filter
    (fun reward =>
       key_in (reward_category reward) category_counts
       || key_in (Some (merchant_name reward)) merchant_counts)
    auto_apply_candidates.

(** Lines 193-197.  [user_preferences] is the optional dict; an empty dict is
    as false as [None]. *)
Definition resolve_geo (user : User) (user_preferences : option (gmap string PyVal))
  : PyVal :=
  let user_geo :=
    match user_preferences with
    | Some prefs =>
        if decide (prefs = ∅) then VNone
        else get prefs "priceless_geo_location" VNone
    | None => VNone
    end in
  if negb (truthy user_geo) then of_opt_str (primary_geo_location user)
  else user_geo.

(** The test of line 202; [None] stands for the AttributeError of
    [user_geo.lower()] on a value that is not a string. *)
Definition geo_accepts (user_geo : PyVal) (reward : Reward) : option bool :=
  if String.eqb (geo_scope reward) "global" then Some true
  else if negb (truthy user_geo) then Some false
  else if negb (Py.truthy_str (geo_city reward)) then Some false
  else
    match user_geo with
    | VStr g =>
        Some (Py.contains (Py.lower g) (Py.lower (Py.or_empty (geo_city reward))))
    | _ => None
    end.

(** Lines 199-203: the loop stops at the first exception. *)
Fixpoint match_priceless (user_geo : PyVal) (priceless_experiences : list Reward)
  : option (list Reward) :=
  match priceless_experiences with
  | [] => Some []
  | reward :: rest =>
      match geo_accepts user_geo reward with
      | Some accepted =>
          match match_priceless user_geo rest with
          | Some more => Some (if accepted then reward :: more else more)
          | None => None
          end
      | None => None
      end
  end.

Record Recommended : Type := mkRecommended {
  recommended_auto_apply : list Reward;
  recommended_priceless : list Reward
}.

(** The transactions and rewards are model objects.  [chat] is the outcome
    of the chat completion and of decoding its answer ([None]: an exception);
    the normal path and the handler return the same two lists.  [None] as a
    result stands for the AttributeError raised before the [try]. *)
Definition generate_reward_recommendations (user : User)
    (recent_transactions : list Transaction) (available_rewards : list Reward)
    (user_preferences : option (gmap string PyVal)) (chat : option string)
  : option Recommended :=
  let '(merchant_counts, category_counts) := count_patterns recent_transactions in
  let auto_apply_candidates :=
    List.filter (fun r => is_auto_applicable r && negb (requires_user_opt_in r))
      available_rewards in
  let priceless_experiences :=
    List.filter (fun r => String.eqb (reward_type r) "experience") available_rewards in
  let recommended_auto_apply :=
    match_auto_apply merchant_counts category_counts auto_apply_candidates in
  let user_geo := resolve_geo user user_preferences in
  match match_priceless user_geo priceless_experiences with
  | Some recommended_priceless =>
      match chat with
      | Some _ =>
          Some {| recommended_auto_apply := firstn 5 recommended_auto_apply;
                  recommended_priceless := firstn 5 recommended_priceless |}
      | None =>
          Some {| recommended_auto_apply := firstn 5 recommended_auto_apply;
                  recommended_priceless := firstn 5 recommended_priceless |}
      end
  | None => None
  end.

End Recommendations.

(* ===================================================================== *)
(** ** Further vocabulary for the properties *)
(* ===================================================================== *)

Module SpecX.

Import TransactionEnrichmentService RewardMatchingService.

(** No keyword of the categories of the table occurs in the text. *)
Definition no_keyword (table : list (string * list string)) (text : string) : Prop :=
  Forall (fun entry => Forall (fun p => ~ Spec.occurs p text) (snd entry)) table.

(** The text [infer_category] searches. *)
Definition category_text (description : string) (memo merchant : option string)
  : string :=
  Py.lower (description ++ " " ++ Py.or_empty memo ++ " " ++ Py.or_empty merchant).

(** No city of the list occurs in the text. *)
Definition no_city (l : list string) (text : string) : Prop :=
  Forall (fun city => ~ Spec.occurs city text) l.

(** A derived field holds no value or a non-empty one. *)
Definition absent_or_populated (o : option string) : Prop :=
  o = None \/ Py.truthy_str o = true.

(** The strings of a list, each once, in the order of their first
    occurrence. *)
Fixpoint first_occurrences (l : list string) : list string :=
  match l with
  | [] => []
  | s :: rest =>
      s :: List.filter (fun x => negb (String.eqb x s)) (first_occurrences rest)
  end.

(** How many of the transactions hold [key] (not empty) in the field. *)
Definition times_seen (field : Transaction -> option string) (key : string)
    (ts : list Transaction) : nat :=
  length (List.filter
            (fun t => Py.truthy_str (field t) && String.eqb (Py.or_empty (field t)) key)
            ts).

(** The entry of a counting dict for a key seen [n] times. *)
Definition count_entry (n : nat) : option nat :=
  match n with O => None | S _ => Some n end.

(** The entry of a category in the items of [category_totals]. *)
Fixpoint entry_of (cat : string)
    (totals : list (string * SavingsCalculationService.CategoryTotal))
  : option SavingsCalculationService.CategoryTotal :=
  match totals with
  | [] => None
  | (c, data) :: rest => if String.eqb c cat then Some data else entry_of cat rest
  end.

(** The rows whose category (or "Other") is [cat], in table order. *)
Definition rows_of (cat : string) (rows : list SavingsCalculationService.TransactionRow)
  : list SavingsCalculationService.TransactionRow :=
  List.filter
    (fun t =>
       String.eqb
         (SavingsCalculationService.category_or_other
            (SavingsCalculationService.fields t)) cat)
    rows.

(** The amount a row adds to its category. *)
Definition amount_of (t : SavingsCalculationService.TransactionRow) : Decimal :=
  DecSum.or_zero (reward_savings_amount (SavingsCalculationService.fields t)).

(** Every decimal of the list is of positive sign. *)
Definition all_positive_sign (ds : list Decimal) : Prop :=
  Forall (fun d => d_sign d = false) ds.

(** The coefficient of a decimal written at the exponent [e] (not above its
    own), and the sum of these over a list. *)
Definition scaled (e : Z) (d : Decimal) : N :=
  (d_int d * 10 ^ Z.to_N (d_exp d - e))%N.

Fixpoint scaled_sum (e : Z) (ds : list Decimal) : N :=
  match ds with
  | [] => 0%N
  | d :: rest => (scaled e d + scaled_sum e rest)%N
  end.

(** The exact sum of the values of a list of decimals. *)
Fixpoint value_sum (ds : list Decimal) : Q :=
  match ds with
  | [] => 0%Q
  | d :: rest => (Dec.value d + value_sum rest)%Q
  end.

End SpecX.

(* ===================================================================== *)
(** ** A small ledger *)
(* ===================================================================== *)

Module Ledger.

Import SavingsCalculationService.

Local Open Scope Z_scope.

(** The preferences dict of the insights endpoint for that user. *)
Definition preferences_dict_in_sf : gmap string AiInsightsService.PyVal :=
  <[ "priceless_geo_location" := AiInsightsService.VStr "San Francisco" ]>
  (<[ "priceless_notifications_enabled" := AiInsightsService.VBool true ]>
  (<[ "auto_apply_rewards_enabled" := AiInsightsService.VBool true ]> ∅)).

(** The Starbucks purchase after enrichment, with a saving of 50.00 applied
    automatically. *)
Definition coffee : Transaction :=
  {| customer_id := 1001; account_id := 2001; posted_at := 31;
     transaction_at := Some 30; description := "STARBUCKS STORE #12345";
     memo := Some "Purchase at Starbucks Coffee";
     value_amount_usd := Examples.minus_2000_00;
     merchant_normalized := Some "Starbucks"; category := Some "dining";
     location_inferred := None;
     matched_reward_id := Some 1; reward_applied := true;
     reward_savings_amount := Some Examples.fifty_00;
     notification_triggered := false |}.

(** A cinema evening whose reward came through a notification; the amount
    saved is Decimal("2.4"). *)
Definition cinema : Transaction :=
  {| customer_id := 1001; account_id := 2001; posted_at := 29;
     transaction_at := Some 28; description := "MOVIE THEATER";
     memo := Some "Cinema tickets";
     value_amount_usd := mkDecimal true 2400 (-2);
     merchant_normalized := Some "Movie"; category := Some "entertainment";
     location_inferred := None;
     matched_reward_id := Some 6; reward_applied := true;
     reward_savings_amount := Some (mkDecimal false 24 (-1));
     notification_triggered := true |}.

(** A second coffee, with a saving of Decimal("1.25"). *)
Definition second_coffee : Transaction :=
  {| customer_id := 1001; account_id := 2001; posted_at := 27;
     transaction_at := Some 26; description := "STARBUCKS STORE #777";
     memo := None;
     value_amount_usd := mkDecimal true 2500 (-2);
     merchant_normalized := Some "Starbucks"; category := Some "dining";
     location_inferred := None;
     matched_reward_id := Some 1; reward_applied := true;
     reward_savings_amount := Some (mkDecimal false 125 (-2));
     notification_triggered := false |}.

(** The rows of two users. *)
Definition rows : list TransactionRow :=
  [ {| user_id := 1; fields := coffee |};
    {| user_id := 2; fields := coffee |};
    {| user_id := 1; fields := cinema |};
    {| user_id := 1; fields := second_coffee |} ].

(** The transactions the insights endpoint passes on. *)
Definition recent : list Transaction := [coffee; cinema; second_coffee].

(** A purchase whose description is blank, made after the wine tasting has
    ended. *)
Definition blank_purchase : Transaction :=
  new_transaction 1001 2001 71 (Some 70) "   " None Examples.minus_2000_00.


End Ledger.

(* ===================================================================== *)
(** * Properties *)
(* ===================================================================== *)

Import TransactionEnrichmentService RewardMatchingService.

(** ** Enrichment *)

Section Enrichment.

Variable t : Transaction.

Lemma enrich_merchant_kept :
  Py.truthy_str (merchant_normalized t) = true ->
  merchant_normalized (enrich_transaction t) = merchant_normalized t.
Proof.
  intros H. unfold enrich_transaction. rewrite H. simpl.
  destruct (Py.truthy_str (category t)); simpl;
    destruct (Py.truthy_str (location_inferred t)); reflexivity.
Qed.

Lemma enrich_category_kept :
  Py.truthy_str (category t) = true ->
  category (enrich_transaction t) = category t.
Proof.
  intros H. unfold enrich_transaction.
  destruct (Py.truthy_str (merchant_normalized t)); simpl; rewrite H; simpl;
    destruct (Py.truthy_str (location_inferred t)); reflexivity.
Qed.

Lemma enrich_location_kept :
  Py.truthy_str (location_inferred t) = true ->
  location_inferred (enrich_transaction t) = location_inferred t.
Proof.
  intros H. unfold enrich_transaction.
  destruct (Py.truthy_str (merchant_normalized t)); simpl;
    destruct (Py.truthy_str (category t)); simpl; rewrite H; reflexivity.
Qed.

(** Enrichment never touches the fields the matching reads besides the
    derived ones. *)
Lemma enrich_transaction_at :
  transaction_at (enrich_transaction t) = transaction_at t.
Proof.
  unfold enrich_transaction.
  destruct (Py.truthy_str (merchant_normalized t)); simpl;
    destruct (Py.truthy_str (category _)); simpl;
    destruct (Py.truthy_str (location_inferred _)); reflexivity.
Qed.

Lemma enrich_value_amount_usd :
  value_amount_usd (enrich_transaction t) = value_amount_usd t.
Proof.
  unfold enrich_transaction.
  destruct (Py.truthy_str (merchant_normalized t)); simpl;
    destruct (Py.truthy_str (category _)); simpl;
    destruct (Py.truthy_str (location_inferred _)); reflexivity.
Qed.

Lemma enrich_flags :
  notification_triggered (enrich_transaction t) = notification_triggered t
  /\ reward_applied (enrich_transaction t) = reward_applied t.
Proof.
  unfold enrich_transaction.
  destruct (Py.truthy_str (merchant_normalized t)); simpl;
    destruct (Py.truthy_str (category _)); simpl;
    destruct (Py.truthy_str (location_inferred _)); split; reflexivity.
Qed.

End Enrichment.

(** [o] when it is populated, [v] otherwise: what one enrichment step
    leaves in a derived field. *)
Lemma keep_or_fill_twice (o v : option string) :
  let o' := if Py.truthy_str o then o else v in
  (if Py.truthy_str o' then o' else v) = o'.
Proof.
  simpl. destruct (Py.truthy_str o) eqn:Ho.
  - rewrite Ho. reflexivity.
  - destruct (Py.truthy_str v); reflexivity.
Qed.

Lemma enrich_transaction_fields (t : Transaction) :
  let m := if Py.truthy_str (merchant_normalized t) then merchant_normalized t
           else normalize_merchant (description t) (memo t) in
  enrich_transaction t =
  {| customer_id := customer_id t; account_id := account_id t;
     posted_at := posted_at t; transaction_at := transaction_at t;
     description := description t; memo := memo t;
     value_amount_usd := value_amount_usd t;
     merchant_normalized := m;
     category := if Py.truthy_str (category t) then category t
                 else infer_category (description t) (memo t) m;
     location_inferred := if Py.truthy_str (location_inferred t) then location_inferred t
                          else infer_location (description t) (memo t);
     matched_reward_id := matched_reward_id t; reward_applied := reward_applied t;
     reward_savings_amount := reward_savings_amount t;
     notification_triggered := notification_triggered t |}.
Proof.
  destruct t as [cu ac po ta de me va mn ca lo mr ra rs nt].
  unfold enrich_transaction; simpl.
  destruct (Py.truthy_str mn); simpl;
    destruct (Py.truthy_str ca); simpl;
    destruct (Py.truthy_str lo); reflexivity.
Qed.

Lemma enrich_twice (t : Transaction) :
  enrich_transaction (enrich_transaction t) = enrich_transaction t.
Proof.
  rewrite (enrich_transaction_fields (enrich_transaction t)).
  rewrite (enrich_transaction_fields t). cbv zeta. cbn [customer_id account_id
    posted_at transaction_at description memo value_amount_usd
    merchant_normalized category location_inferred matched_reward_id
    reward_applied reward_savings_amount notification_triggered].
  set (m := if Py.truthy_str (merchant_normalized t) then merchant_normalized t
            else normalize_merchant (description t) (memo t)).
  pose proof (keep_or_fill_twice (merchant_normalized t)
                (normalize_merchant (description t) (memo t))) as Hm.
  cbv zeta in Hm. fold m in Hm. rewrite Hm.
  pose proof (keep_or_fill_twice (category t)
                (infer_category (description t) (memo t) m)) as Hc.
  cbv zeta in Hc. rewrite Hc.
  pose proof (keep_or_fill_twice (location_inferred t)
                (infer_location (description t) (memo t))) as Hl.
  cbv zeta in Hl. rewrite Hl.
  reflexivity.
Qed.

(** C8. Enrichment is idempotent and write-once: a second pass changes no
    field of the transaction, and a derived field (merchant_normalized,
    category, location_inferred) that is populated (set and non-empty) before
    enrichment keeps its value. *)
Theorem enrich_transaction_idempotent_write_once (t : Transaction) :
  enrich_transaction (enrich_transaction t) = enrich_transaction t
  /\ (Py.truthy_str (merchant_normalized t) = true ->
      merchant_normalized (enrich_transaction t) = merchant_normalized t)
  /\ (Py.truthy_str (category t) = true ->
      category (enrich_transaction t) = category t)
  /\ (Py.truthy_str (location_inferred t) = true ->
      location_inferred (enrich_transaction t) = location_inferred t).
Proof.
  split; [apply enrich_twice |].
  split; [apply enrich_merchant_kept |].
  split; [apply enrich_category_kept | apply enrich_location_kept].
Qed.

Lemma enrich_transaction_idempotent_write_once_witness :
  enrich_transaction (enrich_transaction Examples.labelled_purchase)
  = enrich_transaction Examples.labelled_purchase
  /\ merchant_normalized (enrich_transaction Examples.labelled_purchase)
     = Some "Corner Cafe".
Proof.
  destruct (enrich_transaction_idempotent_write_once Examples.labelled_purchase)
    as (Hidem & Hmerchant & _).
  split; [exact Hidem |]. apply Hmerchant. reflexivity.
Defined.

(** ** Savings: the branches of [calculate_reward_savings] *)

Lemma type_and_value_Some (r : Reward) (name : string) (o : option Decimal) (v : Decimal) :
  type_and_value r name o = Some v <->
  reward_type r = name /\ o = Some v /\ d_int v <> 0%N.
Proof.
  unfold type_and_value, Dec.when_truthy, Dec.truthy.
  destruct (String.eqb_spec (reward_type r) name) as [He | He].
  - destruct o as [d |].
    + destruct (N.eqb_spec (d_int d) 0) as [Hz | Hz]; simpl.
      * split; [discriminate |]. intros (_ & Hd & Hv). congruence.
      * split.
        -- intros Hd. injection Hd as <-. auto.
        -- intros (_ & Hd & _). exact Hd.
    + split; [discriminate | intros (_ & Hd & _); discriminate].
  - split; [discriminate | intros (Hn & _); contradiction].
Qed.

Lemma type_and_value_None (r : Reward) (name : string) (o : option Decimal) :
  type_and_value r name o = None <->
  ~ (reward_type r = name /\ exists v, o = Some v /\ d_int v <> 0%N).
Proof.
  split.
  - intros H (Hn & v & Ho & Hv).
    assert (type_and_value r name o = Some v) as H'
      by (apply type_and_value_Some; auto).
    congruence.
  - intros H. destruct (type_and_value r name o) as [v |] eqn:E; [| reflexivity].
    apply type_and_value_Some in E. destruct E as (Hn & Ho & Hv).
    exfalso. apply H. eauto.
Qed.

(** Division raises only on a zero divisor. *)
Lemma truediv_nonzero_divisor (x y : Decimal) :
  d_int y <> 0%N -> exists q, Dec.truediv x y = Some q.
Proof.
  intros Hy. unfold Dec.truediv.
  destruct (N.eqb_spec (d_int y) 0) as [| _]; [contradiction |].
  destruct (d_int x =? 0)%N; [eauto |].
  match goal with
  | |- context [if ?c then _ else _] => destruct c
  end.
  - destruct (Dec.strip_zeros _ _ _). eauto.
  - eauto.
Qed.

(** The calculation never raises: the divisor is the constant 100. *)
Lemma calculate_reward_savings_total (t : Transaction) (r : Reward) :
  exists d, calculate_reward_savings t r = Some d.
Proof.
  unfold calculate_reward_savings.
  destruct (type_and_value r "percentage_cashback" (percentage_value r)) as [pv |].
  - destruct (truediv_nonzero_divisor pv (Dec.of_nonneg_int 100)) as (rate & ->);
      [discriminate | eauto].
  - destruct (type_and_value r "fixed_amount" (fixed_amount_value r)); eauto.
Qed.

(** The amount is the only field of the transaction the calculation reads. *)
Lemma calculate_reward_savings_amount_only (t t' : Transaction) (r : Reward) :
  value_amount_usd t = value_amount_usd t' ->
  calculate_reward_savings t r = calculate_reward_savings t' r.
Proof. intros H. unfold calculate_reward_savings. rewrite H. reflexivity. Qed.

Lemma calculate_reward_savings_default (t : Transaction) (r : Reward) :
  ~ (reward_type r = "percentage_cashback"
     /\ exists p, percentage_value r = Some p /\ d_int p <> 0%N) ->
  ~ (reward_type r = "fixed_amount"
     /\ exists f, fixed_amount_value r = Some f /\ d_int f <> 0%N) ->
  calculate_reward_savings t r = Some (mkDecimal false 0 (-2)).
Proof.
  intros Hp Hf. apply type_and_value_None in Hp, Hf.
  unfold calculate_reward_savings. rewrite Hp, Hf. reflexivity.
Qed.

(** C9. A reward that is neither a percentage_cashback with a non-null,
    non-zero percentage_value nor a fixed_amount with a non-null, non-zero
    fixed_amount_value gets a result (no exception) and the result is exactly
    Decimal("0.00"); every reward of type experience is such a reward. *)
Theorem calculate_reward_savings_falls_to_zero (t : Transaction) (r : Reward) :
  (~ (reward_type r = "percentage_cashback"
      /\ exists p, percentage_value r = Some p /\ d_int p <> 0%N) ->
   ~ (reward_type r = "fixed_amount"
      /\ exists f, fixed_amount_value r = Some f /\ d_int f <> 0%N) ->
   calculate_reward_savings t r = Some (mkDecimal false 0 (-2)))
  /\ (reward_type r = "experience" ->
      calculate_reward_savings t r = Some (mkDecimal false 0 (-2))).
Proof.
  split.
  - apply calculate_reward_savings_default.
  - intros He. apply calculate_reward_savings_default;
      intros (Hn & _); rewrite He in Hn; discriminate.
Qed.

Lemma calculate_reward_savings_falls_to_zero_witness :
  calculate_reward_savings Examples.movie_night Examples.cashback_without_percentage
  = Some (mkDecimal false 0 (-2))
  /\ calculate_reward_savings Examples.movie_night Examples.wine_tasting
     = Some (mkDecimal false 0 (-2)).
Proof.
  split.
  - apply (proj1 (calculate_reward_savings_falls_to_zero
                    Examples.movie_night Examples.cashback_without_percentage)).
    + intros (_ & p & Hp & _). discriminate Hp.
    + intros (Ht & _). discriminate Ht.
  - apply (proj2 (calculate_reward_savings_falls_to_zero
                    Examples.movie_night Examples.wine_tasting)).
    reflexivity.
Defined.


(** C4 as stated fails: a percentage reward without its percentage and a
    valid flat reward of 0.00 get the same outcome. *)
Lemma missing_field_same_as_zero_counterexample :
  Spec.missing_required_field Examples.cashback_without_percentage
  /\ Spec.zero_fixed_amount Examples.flat_zero
  /\ ~ (calculate_reward_savings Examples.starbucks_purchase
          Examples.cashback_without_percentage
        <> calculate_reward_savings Examples.starbucks_purchase Examples.flat_zero).
Proof.
  split; [left; split; reflexivity |].
  split; [split; [reflexivity | exists Examples.zero_00; split; reflexivity] |].
  intros H. apply H. reflexivity.
Qed.

(** C4, amended. A reward missing its type-required numeric field gets the
    plain result Decimal("0.00"), the same result a valid fixed_amount reward
    of zero gets: there is no separate indeterminate outcome. *)
Theorem missing_field_yields_plain_zero (t : Transaction) (r r0 : Reward) :
  Spec.missing_required_field r ->
  Spec.zero_fixed_amount r0 ->
  calculate_reward_savings t r = Some (mkDecimal false 0 (-2))
  /\ calculate_reward_savings t r0 = Some (mkDecimal false 0 (-2)).
Proof.
  intros Hm (Ht0 & v & Hv & Hz). split.
  - apply calculate_reward_savings_default.
    + intros (Ht & p & Hp & _). destruct Hm as [(_ & Hn) | (Hf & _)]; congruence.
    + intros (Ht & f & Hf & _). destruct Hm as [(Hp & _) | (_ & Hn)]; congruence.
  - apply calculate_reward_savings_default.
    + intros (Ht & _). congruence.
    + intros (_ & f & Hf & Hnz). congruence.
Qed.

Lemma missing_field_yields_plain_zero_witness :
  calculate_reward_savings Examples.starbucks_purchase
    Examples.cashback_without_percentage = Some (mkDecimal false 0 (-2))
  /\ calculate_reward_savings Examples.starbucks_purchase Examples.flat_zero
     = Some (mkDecimal false 0 (-2)).
Proof.
  apply (missing_field_yields_plain_zero Examples.starbucks_purchase
           Examples.cashback_without_percentage Examples.flat_zero).
  - left. split; reflexivity.
  - split; [reflexivity |]. exists Examples.zero_00. split; reflexivity.
Defined.

(** ** Notification decision *)

(** C10. For a reward that is not global and has no geo_city, with both
    notification toggles enabled, a known user geo and the current time
    inside the validity window, [should_send_notification] returns true: no
    city match is checked. *)
Theorem should_send_notification_without_city
    (now : Z) (user : User) (prefs : gmap string AiInsightsService.PyVal)
    (experience : Reward) :
  geo_scope experience <> "global" ->
  geo_city experience = None ->
  AiInsightsService.truthy
    (AiInsightsService.get prefs "priceless_notifications_enabled"
       (AiInsightsService.VBool true)) = true ->
  AiInsightsService.truthy
    (AiInsightsService.get prefs "notifications_enabled"
       (AiInsightsService.VBool true)) = true ->
  AiInsightsService.truthy
    (AiInsightsService.or_
       (AiInsightsService.get prefs "priceless_geo_location" AiInsightsService.VNone)
       (AiInsightsService.of_opt_str (primary_geo_location user))) = true ->
  (start_date experience <= now)%Z ->
  (forall e, end_date experience = Some e -> (now <= e)%Z) ->
  AiInsightsService.should_send_notification now user prefs experience
  = AiInsightsService.Returns true.
Proof.
  intros Hscope Hcity Hp Hn Hgeo Hstart Hend.
  unfold AiInsightsService.should_send_notification.
  rewrite Hp, Hn, Hgeo, Hcity. simpl.
  assert ((now <? start_date experience)%Z = false) as -> by lia.
  assert (match end_date experience with
          | Some e => (e <? now)%Z
          | None => false
          end = false) as ->.
  { destruct (end_date experience) as [e |]; [| reflexivity].
    specialize (Hend e eq_refl). lia. }
  simpl. destruct (String.eqb_spec (geo_scope experience) "global"); reflexivity.
Qed.

Lemma should_send_notification_without_city_witness :
  AiInsightsService.should_send_notification 30 Examples.user_without_geo
    Examples.preferences_dict Examples.experience_without_city
  = AiInsightsService.Returns true.
Proof.
  apply should_send_notification_without_city.
  - discriminate.
  - reflexivity.
  - reflexivity.
  - reflexivity.
  - reflexivity.
  - simpl; lia.
  - intros e He. injection He as <-. lia.
Defined.

(** ** The reward query *)

Lemma where_In {Row : Type} (cond : Row -> Sql.sql_bool) (rows : list Row) (r : Row) :
  In r (Sql.where_ cond rows) <-> In r rows /\ cond r = Some true.
Proof.
  unfold Sql.where_. rewrite filter_In.
  destruct (cond r) as [[|] |]; intuition congruence.
Qed.


(** The test of line 173: the merchant clause has no truth value, the
    category clause is false. *)
Lemma or_truth_outcome (t : Transaction) :
  Sql.or_truth (merchant_match t) (category_match t)
  = if Py.truthy_str (merchant_normalized t) then Exn.Raises Exn.TypeError
    else Exn.Returns false.
Proof.
  unfold merchant_match, category_match.
  destruct (Py.truthy_str (merchant_normalized t)); [reflexivity |].
  destruct (Py.truthy_str (category t)); reflexivity.
Qed.

Lemma query_all_outcome (t : Transaction) (user : User)
    (prefs : option UserPreference) (db : list Reward) :
  query_all t user prefs db
  = match transaction_at t with
    | None => Exn.Raises Exn.ArgumentError
    | Some _ =>
        if Py.truthy_str (merchant_normalized t) then Exn.Raises Exn.TypeError
        else Exn.Returns None
    end.
Proof.
  unfold query_all, temporal_query.
  destruct (transaction_at t) as [ts |]; [| reflexivity].
  cbn [Sql.le_clause Exn.bind]. rewrite or_truth_outcome.
  destruct (Py.truthy_str (merchant_normalized t)); reflexivity.
Qed.

(** What a call of [find_matching_rewards] ends with. *)
Lemma find_matching_rewards_outcome (t : Transaction) (user : User)
    (prefs : option UserPreference) (db : list Reward) :
  find_matching_rewards t user prefs db
  = (enrich_transaction t,
     match transaction_at t with
     | None => Exn.Raises Exn.ArgumentError
     | Some _ =>
         if Py.truthy_str (merchant_normalized (enrich_transaction t))
         then Exn.Raises Exn.TypeError
         else Exn.Returns []
     end).
Proof.
  unfold find_matching_rewards. rewrite query_all_outcome, enrich_transaction_at.
  destruct (transaction_at t) as [ts |]; [| reflexivity].
  destruct (Py.truthy_str (merchant_normalized (enrich_transaction t))); reflexivity.
Qed.

Lemma find_matching_rewards_returns_nil (t : Transaction) (user : User)
    (prefs : option UserPreference) (db rewards : list Reward) :
  snd (find_matching_rewards t user prefs db) = Exn.Returns rewards ->
  rewards = [].
Proof.
  rewrite find_matching_rewards_outcome. cbn [snd].
  destruct (transaction_at t) as [ts |]; [| discriminate].
  destruct (Py.truthy_str (merchant_normalized (enrich_transaction t)));
    [discriminate |].
  intros H. injection H as <-. reflexivity.
Qed.





(** ** Auto-apply selection and the seed step *)

Lemma match_transaction_outcome (t : Transaction) (user : User)
    (prefs : option UserPreference) (db : list Reward) (acted : bool) :
  Seed.match_transaction t user prefs db acted
  = match snd (find_matching_rewards t user prefs db) with
    | Exn.Raises e => Exn.Raises e
    | Exn.Returns _ => Exn.Returns (enrich_transaction t)
    end.
Proof.
  unfold Seed.match_transaction.
  rewrite !find_matching_rewards_outcome, enrich_twice, enrich_transaction_at.
  cbn [snd].
  destruct (transaction_at t) as [ts |]; [| reflexivity].
  destruct (Py.truthy_str (merchant_normalized (enrich_transaction t)));
    reflexivity.
Qed.

(** C3 fails on the code.  For a transaction with a timestamp whose merchant
    is known after enrichment, [find_matching_rewards] raises TypeError at
    the test of line 173, whatever the preferences and the rewards table:
    the auto-apply selection of lines 196-202 is not reached, no reward is
    selected, and the seed step ends with the same exception, so no
    matched_reward_id, reward_applied or reward_savings_amount is recorded. *)
Theorem auto_apply_selection_not_reached
    (t : Transaction) (user : User) (prefs : option UserPreference)
    (db : list Reward) (acted : bool) (ts : Z) :
  transaction_at t = Some ts ->
  Py.truthy_str (merchant_normalized (enrich_transaction t)) = true ->
  snd (find_matching_rewards t user prefs db) = Exn.Raises Exn.TypeError
  /\ Seed.match_transaction t user prefs db acted = Exn.Raises Exn.TypeError.
Proof.
  intros Hts Hm.
  assert (snd (find_matching_rewards t user prefs db)
          = Exn.Raises Exn.TypeError) as Hfind.
  { rewrite find_matching_rewards_outcome. cbn [snd]. rewrite Hts, Hm. reflexivity. }
  split; [exact Hfind |].
  rewrite match_transaction_outcome, Hfind. reflexivity.
Qed.

(** The failing input of C3: auto-apply is enabled, and the Starbucks
    cashback is in the table, active at the purchase, for the merchant of
    the purchase, global and auto-applicable without opt-in; the call raises
    all the same. *)
Lemma auto_apply_selection_not_reached_witness :
  (auto_apply_enabled (Some Examples.default_preferences) = true
   /\ In Examples.starbucks_cashback Examples.catalog
   /\ Spec.auto_applicable Examples.starbucks_cashback = true
   /\ geo_scope Examples.starbucks_cashback = "global"
   /\ merchant_normalized (enrich_transaction Examples.starbucks_purchase)
      = Some (merchant_name Examples.starbucks_cashback)
   /\ (start_date Examples.starbucks_cashback <= 30)%Z
   /\ end_date Examples.starbucks_cashback = Some 90%Z)
  /\ snd (find_matching_rewards Examples.starbucks_purchase
            Examples.user_without_geo (Some Examples.default_preferences)
            Examples.catalog) = Exn.Raises Exn.TypeError
  /\ Seed.match_transaction Examples.starbucks_purchase Examples.user_without_geo
       (Some Examples.default_preferences) Examples.catalog false
     = Exn.Raises Exn.TypeError.
Proof.
  split.
  - split; [reflexivity |]. split; [right; left; reflexivity |].
    repeat split; try reflexivity. vm_compute. discriminate.
  - apply (auto_apply_selection_not_reached Examples.starbucks_purchase
             Examples.user_without_geo (Some Examples.default_preferences)
             Examples.catalog false 30); reflexivity.
Defined.

(** ** Strings: substring search and the first token *)

Lemma app_cons (a : ascii) (s t : string) : String a s ++ t = String a (s ++ t).
Proof. reflexivity. Qed.

Lemma app_empty_r (s : string) : s ++ "" = s.
Proof. induction s as [| a s IH]; [reflexivity |]. rewrite app_cons, IH. reflexivity. Qed.

Lemma app_assoc_str (s t u : string) : (s ++ t) ++ u = s ++ (t ++ u).
Proof.
  induction s as [| a s IH]; [reflexivity |].
  rewrite !app_cons, IH. reflexivity.
Qed.

Lemma startswith_spec (p s : string) :
  Py.startswith p s = true <-> exists post, s = p ++ post.
Proof.
  revert s. induction p as [| a p IH]; intros s; simpl.
  - split; [intros _; exists s; reflexivity | reflexivity].
  - destruct s as [| b s].
    + split; [discriminate | intros (post & H); discriminate H].
    + rewrite andb_true_iff, IH. split.
      * intros (Hab & post & ->). apply Ascii.eqb_eq in Hab. subst b.
        exists post. reflexivity.
      * intros (post & H). rewrite app_cons in H. injection H as -> ->.
        split; [apply Ascii.eqb_refl | exists post; reflexivity].
Qed.

Lemma contains_spec (p s : string) :
  Py.contains p s = true <-> Spec.occurs p s.
Proof.
  unfold Spec.occurs. induction s as [| b s IH].
  - simpl. rewrite orb_false_r, startswith_spec. split.
    + intros (post & H). exists "", post. exact H.
    + intros (pre & post & H). destruct pre as [| a pre]; [| discriminate H].
      exists post. exact H.
  - cbn [Py.contains]. rewrite orb_true_iff, startswith_spec, IH. split.
    + intros [(post & H) | (pre & post & H)].
      * exists "", post. exact H.
      * exists (String b pre), post. rewrite app_cons, H. reflexivity.
    + intros (pre & post & H). destruct pre as [| a pre].
      * left. exists post. exact H.
      * right. rewrite app_cons in H. injection H as _ ->.
        exists pre, post. reflexivity.
Qed.

Lemma contains_false (p s : string) :
  Py.contains p s = false <-> ~ Spec.occurs p s.
Proof.
  rewrite <- contains_spec. destruct (Py.contains p s); split; congruence.
Qed.

(** The scan of the pattern table returns the name of the first entry whose
    pattern occurs. *)
Lemma first_pattern_first (table before after : list (string * string))
    (pattern name text : string) :
  table = (before ++ (pattern, name) :: after)%list ->
  Spec.no_pattern before text ->
  Spec.occurs pattern text ->
  first_pattern table text = Some name.
Proof.
  intros -> Hb Ho. induction Hb as [| [p n] before Hp _ IH]; simpl.
  - apply contains_spec in Ho. rewrite Ho. reflexivity.
  - apply contains_false in Hp. simpl in Hp. rewrite Hp. exact IH.
Qed.

Lemma first_pattern_none (table : list (string * string)) (text : string) :
  Spec.no_pattern table text -> first_pattern table text = None.
Proof.
  induction 1 as [| [p n] table Hp _ IH]; simpl; [reflexivity |].
  apply contains_false in Hp. simpl in Hp. rewrite Hp. exact IH.
Qed.

Lemma split_from_word (s acc : string) :
  exists w rest ws,
    Py.split_from (Some acc) s = (acc ++ w) :: ws
    /\ s = w ++ rest
    /\ Spec.no_space w = true
    /\ (rest = "" \/ exists c rest', rest = String c rest' /\ Py.is_space c = true).
Proof.
  revert acc. induction s as [| c s IH]; intros acc.
  - exists "", "", []. rewrite app_empty_r. simpl. auto.
  - cbn [Py.split_from]. destruct (Py.is_space c) eqn:Hc.
    + exists "", (String c s), (Py.split_from None s).
      rewrite app_empty_r. repeat split; eauto.
    + destruct (IH (acc ++ String c "")) as (w & rest & ws & Hs & -> & Hw & Hrest).
      exists (String c w), rest, ws.
      rewrite Hs, app_assoc_str. cbn [Spec.no_space]. rewrite Hc, Hw.
      repeat split; auto.
Qed.

Lemma split_first_token (s : string) :
  Spec.has_token s = true ->
  exists w ws, Py.split_from None s = w :: ws /\ Spec.first_token s w.
Proof.
  induction s as [| c s IH]; [discriminate |].
  cbn [Spec.has_token Py.split_from]. destruct (Py.is_space c) eqn:Hc; simpl.
  - intros Ht. destruct (IH Ht) as (w & ws & Hs & lead & rest & -> & Hl & Hne & Hw & Hr).
    exists w, ws. split; [exact Hs |].
    exists (String c lead), rest. cbn [Spec.has_token]. rewrite Hc, Hl.
    repeat split; auto.
  - intros _.
    destruct (split_from_word s (String c "")) as (w & rest & ws & Hs & -> & Hw & Hr).
    exists (String c w), ws. split; [exact Hs |].
    exists "", rest. cbn [Spec.no_space]. rewrite Hc, Hw.
    repeat split; auto; discriminate.
Qed.

Lemma split_blank (s : string) :
  Spec.has_token s = false -> Py.split_from None s = [].
Proof.
  induction s as [| c s IH]; [reflexivity |].
  cbn [Spec.has_token Py.split_from]. destruct (Py.is_space c); simpl;
    [exact IH | discriminate].
Qed.

(** C7 as stated fails: a description of three spaces without memo gives a
    combined text that is not empty and holds no pattern, yet there is no
    token to capitalize and nothing is returned. *)
Lemma normalize_merchant_blank_counterexample :
  combined_text "   " None <> ""
  /\ Spec.no_pattern MERCHANT_PATTERNS (combined_text "   " None)
  /\ normalize_merchant "   " None = None.
Proof.
  split; [discriminate |]. split; [| reflexivity].
  unfold Spec.no_pattern, MERCHANT_PATTERNS.
  repeat constructor; apply contains_false; reflexivity.
Qed.

(** C7, amended. With combined the lower-cased text "description memo":
    if a declared pattern occurs in it, the result is the canonical name of
    the first such pattern in table order; if none occurs and the text has a
    token (a character that is not white space), the result is its first
    white-space-delimited token, capitalized; if none occurs and the text is
    blank (it is never empty: the joining space is always there), the result
    is nothing. *)
Theorem normalize_merchant_first_pattern_or_token
    (description : string) (memo : option string) :
  let combined := combined_text description memo in
  (forall before after pattern name,
      MERCHANT_PATTERNS = (before ++ (pattern, name) :: after)%list ->
      Spec.no_pattern before combined ->
      Spec.occurs pattern combined ->
      normalize_merchant description memo = Some name)
  /\ (Spec.no_pattern MERCHANT_PATTERNS combined ->
      Spec.has_token combined = true ->
      exists w, Spec.first_token combined w
                /\ normalize_merchant description memo = Some (Py.capitalize w))
  /\ (Spec.no_pattern MERCHANT_PATTERNS combined ->
      Spec.has_token combined = false ->
      normalize_merchant description memo = None)
  /\ combined <> "".
Proof.
  intros combined. unfold normalize_merchant. fold combined.
  split; [| split; [| split]].
  - intros before after pattern name Ht Hb Ho.
    rewrite (first_pattern_first _ before after pattern name combined Ht Hb Ho).
    reflexivity.
  - intros Hn Ht. rewrite (first_pattern_none _ _ Hn).
    destruct (split_first_token combined Ht) as (w & ws & Hs & Hw).
    exists w. split; [exact Hw |]. unfold Py.split. rewrite Hs. reflexivity.
  - intros Hn Ht. rewrite (first_pattern_none _ _ Hn).
    unfold Py.split. rewrite (split_blank combined Ht). reflexivity.
  - unfold combined, combined_text.
    destruct description as [| c d]; [discriminate |].
    rewrite app_cons. discriminate.
Qed.

Lemma normalize_merchant_first_pattern_or_token_witness :
  normalize_merchant "SBUX COFFEE #67890" (Some "Coffee purchase") = Some "Starbucks"
  /\ (exists w, Spec.first_token (combined_text "  PAYROLL deposit" None) w
                /\ normalize_merchant "  PAYROLL deposit" None
                   = Some (Py.capitalize w))
  /\ normalize_merchant "   " None = None.
Proof.
  split; [| split].
  - apply (proj1 (normalize_merchant_first_pattern_or_token
                    "SBUX COFFEE #67890" (Some "Coffee purchase"))
             [("starbucks", "Starbucks")]
             (skipn 2 MERCHANT_PATTERNS) "sbux" "Starbucks").
    + reflexivity.
    + repeat constructor. apply contains_false. reflexivity.
    + apply contains_spec. reflexivity.
  - apply (proj1 (proj2 (normalize_merchant_first_pattern_or_token
                           "  PAYROLL deposit" None))).
    + unfold Spec.no_pattern, MERCHANT_PATTERNS.
      repeat constructor; apply contains_false; reflexivity.
    + reflexivity.
  - apply (proj1 (proj2 (proj2 (normalize_merchant_first_pattern_or_token
                                  "   " None)))).
    + unfold Spec.no_pattern, MERCHANT_PATTERNS.
      repeat constructor; apply contains_false; reflexivity.
    + reflexivity.
Defined.

(** ** Decimal arithmetic *)

Lemma digits_from_pos (fuel : nat) (n : N) : (1 <= Dec.digits_from fuel n)%Z.
Proof.
  revert n. induction fuel as [| fuel IH]; intros n; simpl; [lia |].
  destruct (n <? 10)%N; [lia |]. specialize (IH (n / 10)%N). lia.
Qed.

Lemma digits_from_le (fuel : nat) (n : N) (k : Z) :
  (1 <= k)%Z -> (n < 10 ^ Z.to_N k)%N -> (Dec.digits_from fuel n <= k)%Z.
Proof.
  revert n k. induction fuel as [| fuel IH]; intros n k Hk Hn; simpl; [lia |].
  destruct (N.ltb_spec n 10) as [Hlt | Hge]; [lia |].
  assert (2 <= k)%Z as Hk2.
  { destruct (Z.eq_dec k 1%Z) as [-> |]; [| lia].
    change (10 ^ Z.to_N 1)%N with 10%N in Hn. lia. }
  assert (Dec.digits_from fuel (n / 10) <= k - 1)%Z; [| lia].
  apply IH; [lia |].
  apply N.Div0.div_lt_upper_bound.
  replace (Z.to_N k) with (N.succ (Z.to_N (k - 1))) in Hn by lia.
  rewrite N.pow_succ_r' in Hn. exact Hn.
Qed.

Lemma num_digits_bounds (n : N) :
  (n < 10 ^ Z.to_N Dec.prec)%N ->
  (1 <= Dec.num_digits n <= Dec.prec)%Z.
Proof.
  intros Hn. unfold Dec.num_digits. split; [apply digits_from_pos |].
  apply digits_from_le; [unfold Dec.prec; lia | exact Hn].
Qed.

(** A coefficient within the precision is not rounded. *)
Lemma fix_within_prec (d : Decimal) :
  (d_int d < 10 ^ Z.to_N Dec.prec)%N -> Dec.fix_ d = d.
Proof.
  intros Hn. unfold Dec.fix_.
  destruct (num_digits_bounds _ Hn) as [_ Hle].
  apply Z.leb_le in Hle. rewrite Hle. reflexivity.
Qed.

Lemma strip_zeros_spec (room : nat) (coeff : N) (exp : Z) (c' : N) (e' : Z) :
  Dec.strip_zeros room coeff exp = (c', e') ->
  exists j : N,
    (j <= N.of_nat room)%N /\ e' = (exp + Z.of_N j)%Z /\ coeff = (c' * 10 ^ j)%N
    /\ (j = N.of_nat room \/ (c' mod 10)%N <> 0%N).
Proof.
  revert coeff exp. induction room as [| room IH]; intros coeff exp; simpl.
  - intros H. injection H as <- <-. exists 0%N.
    repeat split; [lia | lia | rewrite N.pow_0_r; lia | left; reflexivity].
  - destruct (N.eqb_spec (coeff mod 10) 0) as [Hz | Hnz].
    + intros H. destruct (IH _ _ H) as (j & Hj & He & Hc & Hstop).
      exists (N.succ j). repeat split.
      * lia.
      * lia.
      * rewrite N.pow_succ_r', (N.div_mod coeff 10), Hz by lia.
        rewrite Hc. lia.
      * destruct Hstop as [-> | Hm]; [left; lia | right; exact Hm].
    + intros H. injection H as <- <-. exists 0%N.
      repeat split; [lia | lia | rewrite N.pow_0_r; lia | right; exact Hnz].
Qed.

(** Dividing by the integer 100 is exact and does not lengthen the
    coefficient. *)
Lemma truediv_hundred_exact (x : Decimal) :
  d_int x <> 0%N ->
  (d_int x < 10 ^ Z.to_N Dec.prec)%N ->
  exists (c : N) (i : N),
    Dec.truediv x (Dec.of_nonneg_int 100)
    = Some (mkDecimal (d_sign x) c (d_exp x - 2 + Z.of_N i))
    /\ d_int x = (c * 10 ^ i)%N.
Proof.
  intros Hnz Hlt. unfold Dec.truediv.
  cbn [Dec.of_nonneg_int d_int d_exp d_sign].
  change (100 =? 0)%N with false. cbv iota.
  destruct (N.eqb_spec (d_int x) 0) as [| _]; [contradiction |].
  change (Dec.num_digits 100) with 3%Z.
  pose proof (num_digits_bounds _ Hlt) as HL.
  set (L := Dec.num_digits (d_int x)) in *. unfold Dec.prec in *.
  set (shift := (3 - L + 28 + 1)%Z).
  assert (4 <= shift <= 31)%Z as Hshift by (unfold shift; lia).
  assert ((0 <=? shift)%Z = true) as -> by (apply Z.leb_le; lia).
  set (s := Z.to_N shift).
  assert (d_int x * 10 ^ s = d_int x * 10 ^ (s - 2) * 100)%N as Hnum.
  { replace s with (s - 2 + 2)%N at 1 by (unfold s; lia).
    rewrite N.pow_add_r. change (10 ^ 2)%N with 100%N. lia. }
  rewrite Hnum, N.Div0.mod_mul, N.div_mul by lia.
  change (0 =? 0)%N with true. cbv iota.
  destruct (Dec.strip_zeros (Z.to_nat shift) (d_int x * 10 ^ (s - 2))
              (d_exp x - 0 - shift)) as [c' e'] eqn:Hstrip.
  apply strip_zeros_spec in Hstrip. destruct Hstrip as (j & Hj & He & Hc & Hstop).
  assert (s - 2 <= j)%N as Hjs.
  { destruct (N.le_gt_cases (s - 2) j) as [| Hgt]; [assumption | exfalso].
    destruct Hstop as [Hjeq | Hmod]; [unfold s in *; lia |].
    apply Hmod.
    replace (s - 2)%N with (N.succ (s - 2 - j - 1) + j)%N in Hc by lia.
    rewrite N.pow_add_r, N.mul_assoc in Hc.
    apply N.mul_cancel_r in Hc; [| apply N.pow_nonzero; lia].
    rewrite <- Hc, N.pow_succ_r', (N.mul_comm 10), N.mul_assoc.
    apply N.Div0.mod_mul. }
  exists c', (j - (s - 2))%N.
  assert (d_int x = c' * 10 ^ (j - (s - 2)))%N as Hx.
  { replace j with (j - (s - 2) + (s - 2))%N in Hc at 1 by lia.
    rewrite N.pow_add_r, N.mul_assoc in Hc.
    apply N.mul_cancel_r in Hc; [exact Hc | apply N.pow_nonzero; lia]. }
  split; [| exact Hx].
  assert (c' <= d_int x)%N as Hle.
  { rewrite Hx.
    assert (10 ^ (j - (s - 2)) <> 0)%N by (apply N.pow_nonzero; lia).
    nia. }
  rewrite fix_within_prec
    by (cbn [d_int]; apply (N.le_lt_trans _ _ _ Hle); exact Hlt).
  rewrite xorb_false_r. f_equal. f_equal. unfold s in *. lia.
Qed.

Local Open Scope Q_scope.

Lemma ten_pow_pos (e : Z) : 0 < (10 # 1) ^ e.
Proof. apply Qpower_0_lt. reflexivity. Qed.

Lemma ten_pow_plus (a b : Z) : (10 # 1) ^ (a + b) == (10 # 1) ^ a * (10 # 1) ^ b.
Proof. apply Qpower_plus. discriminate. Qed.

Lemma inject_ten_pow (n : Z) : (0 <= n)%Z -> inject_Z (10 ^ n) == (10 # 1) ^ n.
Proof. intros Hn. rewrite Zpower_Qpower by exact Hn. reflexivity. Qed.

(** The value, with the coefficient brought to a smaller exponent. *)
Lemma value_scaled (d : Decimal) (e : Z) :
  (e <= d_exp d)%Z ->
  Dec.value d == inject_Z (Dec.signed d * 10 ^ (d_exp d - e)) * (10 # 1) ^ e.
Proof.
  intros He. unfold Dec.value.
  rewrite inject_Z_mult, inject_ten_pow by lia.
  rewrite <- Qmult_assoc, <- ten_pow_plus.
  replace (d_exp d - e + e)%Z with (d_exp d) by lia. reflexivity.
Qed.

Lemma lt_value (x y : Decimal) :
  Dec.lt x y = true <-> Dec.value x < Dec.value y.
Proof.
  unfold Dec.lt, Dec.cmp.
  set (e := Z.min (d_exp x) (d_exp y)).
  rewrite (value_scaled x e), (value_scaled y e) by (unfold e; lia).
  set (a := (Dec.signed x * 10 ^ (d_exp x - e))%Z).
  set (b := (Dec.signed y * 10 ^ (d_exp y - e))%Z).
  pose proof (ten_pow_pos e) as Hpos.
  destruct (Z.compare_spec a b) as [Heq | Hlt | Hgt].
  - split; [discriminate |]. rewrite Heq. intros H. apply Qlt_irrefl in H. contradiction.
  - split; [intros _ | reflexivity].
    apply Qmult_lt_compat_r; [exact Hpos |]. rewrite <- Zlt_Qlt. exact Hlt.
  - split; [discriminate |]. intros H.
    apply Qmult_lt_r in H; [| exact Hpos]. rewrite <- Zlt_Qlt in H. lia.
Qed.

Lemma lt_false_value (x y : Decimal) :
  Dec.lt x y = false <-> Dec.value y <= Dec.value x.
Proof.
  split.
  - intros H. apply Qnot_lt_le. intros Hlt. apply lt_value in Hlt. congruence.
  - intros H. destruct (Dec.lt x y) eqn:E; [| reflexivity].
    apply lt_value in E. apply Qle_not_lt in H. contradiction.
Qed.

(** [min] returns an argument that the other one does not undercut. *)
Lemma min_value_le_r (a b : Decimal) : Dec.value (Dec.min a b) <= Dec.value b.
Proof.
  unfold Dec.min. destruct (Dec.lt b a) eqn:E.
  - apply Qle_refl.
  - apply lt_false_value in E. exact E.
Qed.

Lemma min_value (a b : Decimal) :
  Dec.value (Dec.min a b) == Qmin (Dec.value a) (Dec.value b).
Proof.
  unfold Dec.min. destruct (Dec.lt b a) eqn:E.
  - apply lt_value in E. symmetry. apply Q.min_r. apply Qlt_le_weak. exact E.
  - apply lt_false_value in E. symmetry. apply Q.min_l. exact E.
Qed.

Lemma value_abs (d : Decimal) :
  (d_int d < 10 ^ Z.to_N Dec.prec)%N ->
  Dec.abs d = mkDecimal false (d_int d) (d_exp d)
  /\ Dec.value (Dec.abs d) == Qabs (Dec.value d).
Proof.
  intros Hn. unfold Dec.abs. rewrite fix_within_prec by exact Hn.
  split; [reflexivity |].
  unfold Dec.value. rewrite Qabs_Qmult.
  rewrite (Qabs_pos ((10 # 1) ^ d_exp d)) by (apply Qlt_le_weak, ten_pow_pos).
  apply Qmult_comp; [| reflexivity].
  unfold Dec.signed; simpl. destruct (d_sign d); unfold Qabs, inject_Z; simpl.
  - rewrite Z.abs_opp, Z.abs_eq by lia. reflexivity.
  - rewrite Z.abs_eq by lia. reflexivity.
Qed.

Lemma signed_mul (sx sy : bool) (nx ny : N) (ex ey e : Z) :
  Dec.signed (mkDecimal (xorb sx sy) (nx * ny) e)
  = (Dec.signed (mkDecimal sx nx ex) * Dec.signed (mkDecimal sy ny ey))%Z.
Proof. unfold Dec.signed; simpl. destruct sx, sy; simpl; lia. Qed.

Lemma value_mul (x y : Decimal) :
  (d_int x * d_int y < 10 ^ Z.to_N Dec.prec)%N ->
  Dec.value (Dec.mul x y) == Dec.value x * Dec.value y.
Proof.
  intros Hn. unfold Dec.mul. rewrite fix_within_prec by exact Hn.
  destruct x as [sx nx ex], y as [sy ny ey]. unfold Dec.value.
  cbn [d_sign d_int d_exp].
  rewrite (signed_mul sx sy nx ny ex ey), inject_Z_mult, ten_pow_plus.
  ring.
Qed.

Lemma value_truediv_hundred (x : Decimal) :
  d_int x <> 0%N ->
  (d_int x < 10 ^ Z.to_N Dec.prec)%N ->
  exists q,
    Dec.truediv x (Dec.of_nonneg_int 100) = Some q
    /\ (d_int q <= d_int x)%N
    /\ Dec.value q == Dec.value x / 100.
Proof.
  intros Hnz Hlt.
  destruct (truediv_hundred_exact x Hnz Hlt) as (c & i & Hq & Hx).
  eexists. split; [exact Hq |]. cbn [d_int]. split.
  { rewrite Hx. assert (10 ^ i <> 0)%N by (apply N.pow_nonzero; lia). nia. }
  unfold Dec.value. cbn [d_exp].
  assert (Dec.signed x
          = (Dec.signed (mkDecimal (d_sign x) c (d_exp x - 2 + Z.of_N i))
             * 10 ^ Z.of_N i)%Z) as ->.
  { unfold Dec.signed. cbn [d_sign d_int]. rewrite Hx, N2Z.inj_mul, N2Z.inj_pow.
    destruct (d_sign x); simpl; lia. }
  rewrite inject_Z_mult, inject_ten_pow by lia.
  replace (d_exp x - 2 + Z.of_N i)%Z with (Z.of_N i + d_exp x + -2)%Z by lia.
  rewrite !ten_pow_plus.
  change ((10 # 1) ^ (-2)) with (/ 100).
  field.
Qed.

Lemma value_zero_coefficient (d : Decimal) : d_int d = 0%N -> Dec.value d == 0.
Proof.
  intros H. unfold Dec.value, Dec.signed. rewrite H.
  destruct (d_sign d); apply Qmult_0_l.
Qed.

(** The percentage branch, when the product is not rounded. *)
Lemma percentage_savings_exact (t : Transaction) (r : Reward) (p : Decimal) :
  reward_type r = "percentage_cashback" ->
  percentage_value r = Some p ->
  d_int p <> 0%N ->
  (d_int (value_amount_usd t) * d_int p < 10 ^ Z.to_N Dec.prec)%N ->
  exists raw,
    Dec.value raw == Qabs (Dec.value (value_amount_usd t)) * Dec.value p / 100
    /\ calculate_reward_savings t r
       = Some (match Dec.when_truthy (max_savings_amount r) with
               | Some cap => Dec.min raw cap
               | None => raw
               end).
Proof.
  intros Ht Hp Hnz Hprod.
  assert (d_int (value_amount_usd t) < 10 ^ Z.to_N Dec.prec)%N as Hal by nia.
  destruct (value_abs _ Hal) as (Habs & Hva).
  assert (type_and_value r "percentage_cashback" (percentage_value r) = Some p)
    as Htv by (apply type_and_value_Some; auto).
  destruct (N.eq_dec (d_int (value_amount_usd t)) 0%N) as [Hz | Hanz].
  - (* a zero amount: whatever the rate, the product is zero *)
    destruct (truediv_nonzero_divisor p (Dec.of_nonneg_int 100)) as (rate & Hrate);
      [discriminate |].
    exists (Dec.mul (Dec.abs (value_amount_usd t)) rate). split.
    + rewrite value_mul by (rewrite Habs; cbn [d_int]; rewrite Hz; reflexivity).
      rewrite Hva, (value_zero_coefficient _ Hz). change (Qabs 0) with 0. field.
    + unfold calculate_reward_savings. rewrite Htv, Hrate. reflexivity.
  - assert (d_int p < 10 ^ Z.to_N Dec.prec)%N as Hpl by nia.
    destruct (value_truediv_hundred p Hnz Hpl) as (rate & Hrate & Hle & Hv).
    exists (Dec.mul (Dec.abs (value_amount_usd t)) rate). split.
    + rewrite value_mul by (rewrite Habs; cbn [d_int]; nia).
      rewrite Hva, Hv. field.
    + unfold calculate_reward_savings. rewrite Htv, Hrate. reflexivity.
Qed.

Lemma when_truthy_Some (o : option Decimal) (d : Decimal) :
  o = Some d -> d_int d <> 0%N -> Dec.when_truthy o = Some d.
Proof.
  intros -> Hnz. unfold Dec.when_truthy, Dec.truthy.
  destruct (N.eqb_spec (d_int d) 0); [contradiction | reflexivity].
Qed.

(** C1 as stated fails: a flat reward of 100.00 that carries a cap of 50.00
    yields 100.00. *)
Lemma fixed_amount_exceeds_cap_counterexample :
  max_savings_amount Examples.flat_100_cap_50 = Some Examples.fifty_00
  /\ calculate_reward_savings Examples.starbucks_purchase Examples.flat_100_cap_50
     = Some Examples.hundred_00
  /\ ~ (Dec.value Examples.hundred_00 <= Dec.value Examples.fifty_00).
Proof.
  split; [reflexivity |]. split; [reflexivity |].
  vm_compute. intros H. apply H. reflexivity.
Qed.

(** C1, amended. For a percentage_cashback reward with a non-zero
    percentage_value whose max_savings_amount is set and not zero, and for
    every transaction amount, the result does not exceed max_savings_amount;
    a fixed_amount reward with a non-zero fixed_amount_value yields that
    value, whatever max_savings_amount is. *)
Theorem capped_percentage_savings_within_cap (t : Transaction) (r : Reward) :
  (forall p cap,
      reward_type r = "percentage_cashback" ->
      percentage_value r = Some p -> d_int p <> 0%N ->
      max_savings_amount r = Some cap -> d_int cap <> 0%N ->
      exists savings,
        calculate_reward_savings t r = Some savings
        /\ Dec.value savings <= Dec.value cap)
  /\ (forall f,
         reward_type r = "fixed_amount" ->
         fixed_amount_value r = Some f -> d_int f <> 0%N ->
         calculate_reward_savings t r = Some f).
Proof.
  split.
  - intros p cap Ht Hp Hnz Hcap Hcnz.
    destruct (calculate_reward_savings_total t r) as (savings & Hs).
    exists savings. split; [exact Hs |].
    unfold calculate_reward_savings in Hs.
    assert (type_and_value r "percentage_cashback" (percentage_value r) = Some p)
      as Htv by (apply type_and_value_Some; auto).
    rewrite Htv, (when_truthy_Some _ cap Hcap Hcnz) in Hs.
    destruct (Dec.truediv p (Dec.of_nonneg_int 100)) as [rate |]; [| discriminate].
    injection Hs as <-. apply min_value_le_r.
  - intros f Ht Hf Hnz. unfold calculate_reward_savings.
    assert (type_and_value r "percentage_cashback" (percentage_value r) = None)
      as -> by (apply type_and_value_None; intros (Hn & _); congruence).
    assert (type_and_value r "fixed_amount" (fixed_amount_value r) = Some f)
      as -> by (apply type_and_value_Some; auto).
    reflexivity.
Qed.

Lemma capped_percentage_savings_within_cap_witness :
  (exists savings,
      calculate_reward_savings Examples.starbucks_purchase
        Examples.starbucks_cashback = Some savings
      /\ Dec.value savings <= Dec.value Examples.fifty_00)
  /\ calculate_reward_savings Examples.starbucks_purchase Examples.flat_100_cap_50
     = Some Examples.hundred_00.
Proof.
  split.
  - apply (proj1 (capped_percentage_savings_within_cap
                    Examples.starbucks_purchase Examples.starbucks_cashback)
             Examples.five_00 Examples.fifty_00);
      try reflexivity; discriminate.
  - apply (proj2 (capped_percentage_savings_within_cap
                    Examples.starbucks_purchase Examples.flat_100_cap_50)
             Examples.hundred_00);
      try reflexivity; discriminate.
Defined.

(** C6 as stated fails twice.  With a cap that is present and zero, 5% of
    2000.00 is returned in full (100.0000), not the minimum with the cap.  And
    an amount of 29 digits is rounded to the 28 digits of the decimal context
    before it is multiplied: at 100% the savings are 1.000...E+26, not the
    amount itself. *)
Lemma percentage_savings_counterexample :
  (max_savings_amount Examples.starbucks_zero_cap = Some Examples.zero_00
   /\ calculate_reward_savings Examples.starbucks_purchase Examples.starbucks_zero_cap
      = Some (mkDecimal false 1000000 (-4))
   /\ ~ (Dec.value (mkDecimal false 1000000 (-4))
         == Qmin (Qabs (Dec.value Examples.minus_2000_00)
                  * Dec.value Examples.five_00 / 100)
                 (Dec.value Examples.zero_00)))
  /\ (max_savings_amount Examples.full_cashback = None
      /\ calculate_reward_savings Examples.long_purchase Examples.full_cashback
         = Some (mkDecimal false (10 ^ 27) (-1))
      /\ ~ (Dec.value (mkDecimal false (10 ^ 27) (-1))
            == Qabs (Dec.value Examples.long_amount)
               * Dec.value Examples.hundred_00 / 100)).
Proof.
  split.
  - split; [reflexivity |]. split; [reflexivity |].
    vm_compute. discriminate.
  - split; [reflexivity |]. split; [vm_compute; reflexivity |].
    vm_compute. discriminate.
Qed.

(** C6, amended. For a percentage_cashback reward with a non-zero
    percentage_value p and a transaction amount a, when the product of the
    coefficients of a and p has at most 28 digits (so that the decimal
    context does not round it), the savings equal
    |a| * p / 100, reduced to the minimum with max_savings_amount when that
    cap is present and not zero; for p = 5.00, a cap of 50.00 and
    a = -2000.00 the result is exactly Decimal("50.00"). *)
Theorem percentage_savings_formula (t : Transaction) (r : Reward) :
  (forall p,
      reward_type r = "percentage_cashback" ->
      percentage_value r = Some p -> d_int p <> 0%N ->
      (d_int (value_amount_usd t) * d_int p < 10 ^ Z.to_N Dec.prec)%N ->
      exists savings,
        calculate_reward_savings t r = Some savings
        /\ (max_savings_amount r = None ->
            Dec.value savings
            == Qabs (Dec.value (value_amount_usd t)) * Dec.value p / 100)
        /\ (forall cap,
               max_savings_amount r = Some cap -> d_int cap <> 0%N ->
               Dec.value savings
               == Qmin (Qabs (Dec.value (value_amount_usd t)) * Dec.value p / 100)
                       (Dec.value cap)))
  /\ (reward_type r = "percentage_cashback" ->
      percentage_value r = Some (mkDecimal false 500 (-2)) ->
      max_savings_amount r = Some (mkDecimal false 5000 (-2)) ->
      value_amount_usd t = mkDecimal true 200000 (-2) ->
      calculate_reward_savings t r = Some (mkDecimal false 5000 (-2))).
Proof.
  split.
  - intros p Ht Hp Hnz Hprod.
    destruct (percentage_savings_exact t r p Ht Hp Hnz Hprod)
      as (raw & Hraw & Hcalc).
    eexists. split; [exact Hcalc |]. split.
    + intros ->. simpl. exact Hraw.
    + intros cap Hcap Hcnz. rewrite (when_truthy_Some _ cap Hcap Hcnz).
      rewrite min_value, Hraw. reflexivity.
  - intros Ht Hp Hcap Ha. unfold calculate_reward_savings, type_and_value.
    rewrite Ht, Hp, Hcap, Ha. reflexivity.
Qed.

Lemma percentage_savings_formula_witness :
  (exists savings,
      calculate_reward_savings Examples.starbucks_purchase
        Examples.starbucks_cashback = Some savings
      /\ Dec.value savings
         == Qmin (Qabs (Dec.value Examples.minus_2000_00)
                  * Dec.value Examples.five_00 / 100)
                 (Dec.value Examples.fifty_00))
  /\ calculate_reward_savings Examples.starbucks_purchase
       Examples.starbucks_cashback = Some Examples.fifty_00.
Proof.
  split.
  - destruct (proj1 (percentage_savings_formula Examples.starbucks_purchase
                       Examples.starbucks_cashback)
                Examples.five_00 eq_refl eq_refl)
      as (savings & Hs & _ & Hcap).
    + discriminate.
    + reflexivity.
    + exists savings. split; [exact Hs |].
      apply (Hcap Examples.fifty_00 eq_refl). discriminate.
  - apply (proj2 (percentage_savings_formula Examples.starbucks_purchase
                    Examples.starbucks_cashback));
      reflexivity.
Defined.

(* ===================================================================== *)
(** * Further properties of the services *)
(* ===================================================================== *)

Local Close Scope Q_scope.

(** ** Category and location inference *)

Lemma any_pattern_true (patterns : list string) (text : string) :
  any_pattern patterns text = true <->
  exists p, In p patterns /\ Spec.occurs p text.
Proof.
  induction patterns as [| p patterns IH]; simpl.
  - split; [discriminate | intros (p & [] & _)].
  - destruct (Py.contains p text) eqn:E.
    + split; [intros _ | reflexivity].
      exists p. split; [left; reflexivity | apply contains_spec; exact E].
    + rewrite IH. split.
      * intros (q & Hq & Ho). exists q. auto.
      * intros (q & [<- | Hq] & Ho); [| eauto].
        apply contains_spec in Ho. congruence.
Qed.

Lemma any_pattern_false (patterns : list string) (text : string) :
  any_pattern patterns text = false <->
  Forall (fun p => ~ Spec.occurs p text) patterns.
Proof.
  rewrite List.Forall_forall. split.
  - intros H p Hp Ho.
    assert (any_pattern patterns text = true) by (apply any_pattern_true; eauto).
    congruence.
  - intros H. destruct (any_pattern patterns text) eqn:E; [| reflexivity].
    apply any_pattern_true in E. destruct E as (p & Hp & Ho).
    exfalso. exact (H p Hp Ho).
Qed.

Lemma first_category_first (before after : list (string * list string))
    (cat : string) (patterns : list string) (text : string) :
  SpecX.no_keyword before text ->
  (exists p, In p patterns /\ Spec.occurs p text) ->
  first_category (before ++ (cat, patterns) :: after)%list text = Some cat.
Proof.
  intros Hb Hp. induction Hb as [| [c ps] before Hc _ IH]; simpl.
  - apply any_pattern_true in Hp. rewrite Hp. reflexivity.
  - apply any_pattern_false in Hc. simpl in Hc. rewrite Hc. exact IH.
Qed.

Lemma first_category_none (table : list (string * list string)) (text : string) :
  first_category table text = None <-> SpecX.no_keyword table text.
Proof.
  unfold SpecX.no_keyword. induction table as [| [c ps] table IH]; simpl.
  - split; [constructor | reflexivity].
  - destruct (any_pattern ps text) eqn:E.
    + split; [discriminate |]. intros H. inversion H as [| ? ? Hc _]; subst.
      apply any_pattern_false in Hc. simpl in Hc. congruence.
    + rewrite IH. apply any_pattern_false in E. split.
      * intros H. constructor; assumption.
      * intros H. inversion H; assumption.
Qed.

Lemma first_category_some (table : list (string * list string)) (text cat : string) :
  first_category table text = Some cat ->
  exists before patterns after p,
    table = (before ++ (cat, patterns) :: after)%list
    /\ SpecX.no_keyword before text
    /\ In p patterns /\ Spec.occurs p text.
Proof.
  induction table as [| [c ps] table IH]; simpl; [discriminate |].
  destruct (any_pattern ps text) eqn:E.
  - intros H. injection H as <-. apply any_pattern_true in E.
    destruct E as (p & Hp & Ho).
    exists [], ps, table, p. repeat split; auto. constructor.
  - intros H. destruct (IH H) as (before & patterns & after & p & -> & Hb & Hp & Ho).
    exists ((c, ps) :: before), patterns, after, p. repeat split; auto.
    constructor; [apply any_pattern_false; exact E | exact Hb].
Qed.

(** X1. [infer_category] returns the first category, in table order, one of
    whose keywords occurs in the lower-cased text "description memo
    merchant", and nothing exactly when no keyword of any category occurs. *)
Theorem infer_category_first_in_table_order
    (description : string) (memo merchant : option string) :
  let text := SpecX.category_text description memo merchant in
  (forall cat,
      infer_category description memo merchant = Some cat <->
      exists before patterns after p,
        CATEGORY_PATTERNS = (before ++ (cat, patterns) :: after)%list
        /\ SpecX.no_keyword before text
        /\ In p patterns /\ Spec.occurs p text)
  /\ (infer_category description memo merchant = None <->
      SpecX.no_keyword CATEGORY_PATTERNS text).
Proof.
  intros text. unfold infer_category. fold (SpecX.category_text description memo merchant).
  fold text. split.
  - intros cat. split; [apply first_category_some |].
    intros (before & patterns & after & p & -> & Hb & Hp & Ho).
    apply first_category_first; eauto.
  - apply first_category_none.
Qed.

Lemma occurs_trans (a b c : string) :
  Spec.occurs a b -> Spec.occurs b c -> Spec.occurs a c.
Proof.
  intros (p1 & q1 & ->) (p2 & q2 & ->).
  exists (p2 ++ p1), (q1 ++ q2).
  rewrite !app_assoc_str. reflexivity.
Qed.

(** X2. The utilities keyword "gas bill" never decides: a text in which it
    occurs also holds the keyword "gas" of the earlier category gas, so the
    inferred category is one of the six categories before utilities. *)
Theorem infer_category_gas_bill_shadowed
    (description : string) (memo merchant : option string) :
  Spec.occurs "gas bill" (SpecX.category_text description memo merchant) ->
  exists cat,
    infer_category description memo merchant = Some cat
    /\ In cat ["dining"; "travel"; "groceries"; "entertainment"; "shopping"; "gas"].
Proof.
  intros Ho.
  assert (Spec.occurs "gas" (SpecX.category_text description memo merchant)) as Hgas.
  { apply (occurs_trans _ "gas bill"); [| exact Ho]. exists "", " bill". reflexivity. }
  unfold infer_category. fold (SpecX.category_text description memo merchant).
  set (text := SpecX.category_text description memo merchant) in *.
  apply contains_spec in Hgas.
  unfold CATEGORY_PATTERNS. cbn [first_category].
  repeat match goal with
         | |- context [any_pattern ?ps text] =>
             destruct (any_pattern ps text) eqn:?;
             [eexists; split; [reflexivity | simpl; tauto] |]
         end.
  exfalso.
  match goal with
  | H : any_pattern ("gas" :: _) text = false |- _ =>
      simpl in H; rewrite Hgas in H; discriminate H
  end.
Qed.

Lemma infer_category_gas_bill_shadowed_witness :
  exists cat,
    infer_category "PG&E GAS BILL" None None = Some cat
    /\ In cat ["dining"; "travel"; "groceries"; "entertainment"; "shopping"; "gas"].
Proof.
  apply infer_category_gas_bill_shadowed.
  apply contains_spec. reflexivity.
Defined.

Lemma first_city_some (l : list string) (text c : string) :
  first_city l text = Some c <->
  exists before city after,
    l = (before ++ city :: after)%list
    /\ SpecX.no_city before text
    /\ Spec.occurs city text /\ c = Py.title city.
Proof.
  unfold SpecX.no_city. induction l as [| x l IH]; simpl.
  - split; [discriminate |]. intros (before & city & after & H & _).
    destruct before; discriminate H.
  - destruct (Py.contains x text) eqn:E.
    + split.
      * intros H. injection H as <-. exists [], x, l.
        repeat split; [constructor | apply contains_spec; exact E].
      * intros (before & city & after & Hl & Hb & Ho & ->).
        destruct before as [| y before].
        -- injection Hl as -> ->. reflexivity.
        -- injection Hl as -> ->. inversion Hb as [| ? ? Hy _]; subst.
           apply contains_spec in E. contradiction.
    + rewrite IH. split.
      * intros (before & city & after & -> & Hb & Ho & ->).
        exists (x :: before), city, after. repeat split; auto.
        constructor; [apply contains_false; exact E | exact Hb].
      * intros (before & city & after & Hl & Hb & Ho & ->).
        destruct before as [| y before].
        -- injection Hl as -> ->. apply contains_spec in Ho. congruence.
        -- injection Hl as -> ->. inversion Hb; subst.
           exists before, city, after. repeat split; auto.
Qed.

Lemma first_city_none (l : list string) (text : string) :
  first_city l text = None <-> SpecX.no_city l text.
Proof.
  unfold SpecX.no_city. induction l as [| x l IH]; simpl.
  - split; [constructor | reflexivity].
  - destruct (Py.contains x text) eqn:E.
    + split; [discriminate |]. intros H. inversion H as [| ? ? Hx _]; subst.
      apply contains_spec in E. contradiction.
    + rewrite IH. split.
      * intros H. constructor; [apply contains_false; exact E | exact H].
      * intros H. inversion H; assumption.
Qed.

(** X3. [infer_location] returns the title-cased name of the first city of
    its list that occurs in the lower-cased text "description memo", nothing
    exactly when no listed city occurs, and so only ever one of nine names
    (the short codes come out as Nyc, Sf and La). *)
Theorem infer_location_first_city (description : string) (memo : option string) :
  let text := combined_text description memo in
  (forall c,
      infer_location description memo = Some c <->
      exists before city after,
        cities = (before ++ city :: after)%list
        /\ SpecX.no_city before text
        /\ Spec.occurs city text /\ c = Py.title city)
  /\ (infer_location description memo = None <-> SpecX.no_city cities text)
  /\ (forall c,
         infer_location description memo = Some c ->
         In c ["New York"; "Nyc"; "San Francisco"; "Sf"; "Los Angeles"; "La";
               "Chicago"; "Boston"; "Miami"]).
Proof.
  intros text. unfold infer_location. fold text.
  split; [intros c; apply first_city_some |].
  split; [apply first_city_none |].
  intros c H. apply first_city_some in H.
  destruct H as (before & city & after & Hl & _ & _ & ->).
  assert (In city cities) as Hin by (rewrite Hl; apply in_or_app; right; left; reflexivity).
  unfold cities in Hin. simpl in Hin.
  repeat (destruct Hin as [<- | Hin]; [simpl; tauto |]). contradiction.
Qed.

(** ** Blank texts *)

Lemma is_space_lower_char (c : ascii) :
  Py.is_space (Py.lower_char c) = Py.is_space c.
Proof. destruct c as [[] [] [] [] [] [] [] []]; reflexivity. Qed.

Lemma has_token_lower (s : string) : Spec.has_token (Py.lower s) = Spec.has_token s.
Proof.
  induction s as [| c s IH]; [reflexivity |].
  simpl. rewrite is_space_lower_char, IH. reflexivity.
Qed.

Lemma has_token_app (a b : string) :
  Spec.has_token (a ++ b) = Spec.has_token a || Spec.has_token b.
Proof.
  induction a as [| c a IH]; [reflexivity |].
  rewrite app_cons. simpl. rewrite IH, orb_assoc. reflexivity.
Qed.

(** A text that holds a string with a token has a token. *)
Lemma occurs_has_token (p s : string) :
  Spec.occurs p s -> Spec.has_token p = true -> Spec.has_token s = true.
Proof.
  intros (pre & post & ->) Hp. rewrite !has_token_app, Hp.
  rewrite orb_true_r. reflexivity.
Qed.

Lemma combined_text_has_token (description : string) (memo : option string) :
  Spec.has_token (combined_text description memo)
  = Spec.has_token description || Spec.has_token (Py.or_empty memo).
Proof.
  unfold combined_text. rewrite has_token_lower, !has_token_app. reflexivity.
Qed.

Lemma blank_no_pattern (table : list (string * string)) (text : string) :
  Forall (fun entry => Spec.has_token (fst entry) = true) table ->
  Spec.has_token text = false ->
  Spec.no_pattern table text.
Proof.
  intros Ht Hb. unfold Spec.no_pattern.
  induction Ht as [| e table He _ IH]; constructor; [| exact IH].
  intros Ho. rewrite (occurs_has_token _ _ Ho He) in Hb. discriminate.
Qed.

Lemma merchant_patterns_have_tokens :
  Forall (fun entry => Spec.has_token (fst entry) = true) MERCHANT_PATTERNS.
Proof. unfold MERCHANT_PATTERNS. repeat constructor. Qed.

Lemma first_pattern_in (table : list (string * string)) (text name : string) :
  first_pattern table text = Some name ->
  exists pattern, In (pattern, name) table /\ Spec.occurs pattern text.
Proof.
  induction table as [| [p n] table IH]; simpl; [discriminate |].
  destruct (Py.contains p text) eqn:E.
  - intros H. injection H as <-. exists p.
    split; [left; reflexivity | apply contains_spec; exact E].
  - intros H. destruct (IH H) as (q & Hq & Ho). exists q. auto.
Qed.

Lemma normalize_merchant_none (description : string) (memo : option string) :
  normalize_merchant description memo = None <->
  Spec.has_token (combined_text description memo) = false.
Proof.
  unfold normalize_merchant.
  set (text := combined_text description memo).
  destruct (Spec.has_token text) eqn:Ht.
  - split; [| discriminate].
    destruct (first_pattern MERCHANT_PATTERNS text); [discriminate |].
    destruct (split_first_token text Ht) as (w & ws & Hs & _).
    unfold Py.split. rewrite Hs. discriminate.
  - split; [reflexivity | intros _].
    rewrite (first_pattern_none _ _
               (blank_no_pattern _ _ merchant_patterns_have_tokens Ht)).
    unfold Py.split. rewrite (split_blank _ Ht). reflexivity.
Qed.

Lemma normalize_merchant_populated (description : string) (memo : option string) :
  SpecX.absent_or_populated (normalize_merchant description memo).
Proof.
  unfold SpecX.absent_or_populated, normalize_merchant.
  set (text := combined_text description memo).
  destruct (first_pattern MERCHANT_PATTERNS text) as [name |] eqn:E.
  - right. apply first_pattern_in in E. destruct E as (p & Hin & _).
    unfold MERCHANT_PATTERNS in Hin. simpl in Hin.
    repeat (destruct Hin as [Hin | Hin]; [injection Hin as <- <-; reflexivity |]).
    contradiction.
  - destruct (Spec.has_token text) eqn:Ht.
    + right. destruct (split_first_token text Ht)
        as (w & ws & Hs & lead & rest & _ & _ & Hne & _).
      unfold Py.split. rewrite Hs. destruct w; [contradiction | reflexivity].
    + left. unfold Py.split. rewrite (split_blank _ Ht). reflexivity.
Qed.

Lemma normalize_merchant_nothing_iff_blank_core
    (description : string) (memo : option string) :
  (normalize_merchant description memo = None <->
   Spec.has_token description = false /\ Spec.has_token (Py.or_empty memo) = false).
Proof.
  rewrite normalize_merchant_none, combined_text_has_token, orb_false_iff.
  reflexivity.
Qed.

(** X4. [normalize_merchant] returns nothing exactly when description and
    memo hold nothing but white space; whenever it returns a name, the name is
    not empty. *)
Theorem normalize_merchant_nothing_iff_blank
    (description : string) (memo : option string) :
  (normalize_merchant description memo = None <->
   Spec.has_token description = false /\ Spec.has_token (Py.or_empty memo) = false)
  /\ (forall name, normalize_merchant description memo = Some name -> name <> "").
Proof.
  split.
  - apply normalize_merchant_nothing_iff_blank_core.
  - intros name H.
    destruct (normalize_merchant_populated description memo) as [Hn | Hp];
      [congruence |].
    rewrite H in Hp. destruct name; [discriminate | discriminate].
Qed.

(** ** What enrichment leaves behind *)

Lemma first_category_in (table : list (string * list string)) (text cat : string) :
  first_category table text = Some cat -> In cat (List.map fst table).
Proof.
  intros H. apply first_category_some in H.
  destruct H as (before & patterns & after & _ & -> & _).
  rewrite List.map_app. apply in_or_app. right. left. reflexivity.
Qed.

Lemma infer_category_populated (description : string) (memo merchant : option string) :
  SpecX.absent_or_populated (infer_category description memo merchant).
Proof.
  unfold SpecX.absent_or_populated.
  destruct (infer_category description memo merchant) as [cat |] eqn:E;
    [right | left; reflexivity].
  apply first_category_in in E. unfold CATEGORY_PATTERNS in E. simpl in E.
  repeat (destruct E as [<- | E]; [reflexivity |]). contradiction.
Qed.

Lemma infer_location_populated (description : string) (memo : option string) :
  SpecX.absent_or_populated (infer_location description memo).
Proof.
  unfold SpecX.absent_or_populated.
  destruct (infer_location description memo) as [c |] eqn:E;
    [right | left; reflexivity].
  apply first_city_some in E. destruct E as (before & city & after & Hl & _ & _ & ->).
  assert (In city cities) as Hin by (rewrite Hl; apply in_or_app; right; left; reflexivity).
  unfold cities in Hin. simpl in Hin.
  repeat (destruct Hin as [<- | Hin]; [reflexivity |]). contradiction.
Qed.

Lemma keep_or_fill_populated (o v : option string) :
  SpecX.absent_or_populated v ->
  SpecX.absent_or_populated (if Py.truthy_str o then o else v).
Proof.
  intros Hv. destruct (Py.truthy_str o) eqn:Ho; [right; exact Ho | exact Hv].
Qed.

(** X5. After enrichment no derived field holds an empty string: each of
    merchant_normalized, category and location_inferred is absent or
    non-empty, whatever the transaction held before. *)
Theorem enrich_transaction_leaves_no_empty_field (t : Transaction) :
  SpecX.absent_or_populated (merchant_normalized (enrich_transaction t))
  /\ SpecX.absent_or_populated (category (enrich_transaction t))
  /\ SpecX.absent_or_populated (location_inferred (enrich_transaction t)).
Proof.
  rewrite (enrich_transaction_fields t). cbv zeta.
  cbn [merchant_normalized category location_inferred].
  split; [| split]; apply keep_or_fill_populated.
  - apply normalize_merchant_populated.
  - apply infer_category_populated.
  - apply infer_location_populated.
Qed.

(** X6. Enrichment writes the three derived fields only: the identity fields
    and the reward fields of the transaction are returned as they were. *)
Theorem enrich_transaction_frame (t : Transaction) :
  let t' := enrich_transaction t in
  customer_id t' = customer_id t /\ account_id t' = account_id t
  /\ posted_at t' = posted_at t /\ transaction_at t' = transaction_at t
  /\ description t' = description t /\ memo t' = memo t
  /\ value_amount_usd t' = value_amount_usd t
  /\ matched_reward_id t' = matched_reward_id t
  /\ reward_applied t' = reward_applied t
  /\ reward_savings_amount t' = reward_savings_amount t
  /\ notification_triggered t' = notification_triggered t.
Proof.
  cbv zeta. rewrite (enrich_transaction_fields t). cbv zeta. simpl.
  repeat split.
Qed.

(** A transaction without derived fields whose text has a token gets a
    merchant. *)
Lemma enrich_merchant_of_text (t : Transaction) :
  Py.truthy_str (merchant_normalized t) = false ->
  merchant_normalized (enrich_transaction t)
  = normalize_merchant (description t) (memo t).
Proof.
  intros H. rewrite (enrich_transaction_fields t). cbv zeta. simpl.
  rewrite H. reflexivity.
Qed.

Lemma truthy_str_false_populated (o : option string) :
  SpecX.absent_or_populated o -> Py.truthy_str o = false -> o = None.
Proof. intros [H | H] Hf; [exact H | congruence]. Qed.

(** ** The reward query: how a call ends *)

(** The merchant of the enriched transaction is known exactly when it was
    known before or the text has a token. *)
Lemma enriched_merchant_known (t : Transaction) :
  Py.truthy_str (merchant_normalized (enrich_transaction t)) = false <->
  Py.truthy_str (merchant_normalized t) = false
  /\ Spec.has_token (description t) = false
  /\ Spec.has_token (Py.or_empty (memo t)) = false.
Proof.
  destruct (Py.truthy_str (merchant_normalized t)) eqn:Hm.
  - rewrite (enrich_merchant_kept t Hm), Hm. split; [discriminate | intros (H & _); discriminate].
  - rewrite (enrich_merchant_of_text t Hm).
    pose proof (normalize_merchant_populated (description t) (memo t)) as Hpop.
    pose proof (normalize_merchant_nothing_iff_blank_core (description t) (memo t))
      as Hnone.
    split.
    + intros Hf. split; [reflexivity |]. apply Hnone.
      apply truthy_str_false_populated; assumption.
    + intros (_ & Hb). apply Hnone in Hb. rewrite Hb. reflexivity.
Qed.

(** X7. For a transaction with a timestamp that arrives without merchant,
    [find_matching_rewards] takes its early return, with the empty list,
    exactly when description and memo hold nothing but white space; on any
    other text it raises TypeError at the test of line 173. *)
Theorem find_matching_rewards_early_return_iff_blank
    (t : Transaction) (user : User) (prefs : option UserPreference)
    (db : list Reward) (ts : Z) :
  transaction_at t = Some ts ->
  Py.truthy_str (merchant_normalized t) = false ->
  (snd (find_matching_rewards t user prefs db) = Exn.Returns [] <->
   Spec.has_token (description t) = false
   /\ Spec.has_token (Py.or_empty (memo t)) = false)
  /\ (snd (find_matching_rewards t user prefs db) = Exn.Raises Exn.TypeError <->
      Spec.has_token (description t) = true
      \/ Spec.has_token (Py.or_empty (memo t)) = true).
Proof.
  intros Hts Hm. rewrite find_matching_rewards_outcome. cbn [snd]. rewrite Hts.
  pose proof (enriched_merchant_known t) as Hknown. rewrite Hm in Hknown.
  destruct (Py.truthy_str (merchant_normalized (enrich_transaction t))) eqn:E.
  - assert (~ (Spec.has_token (description t) = false
               /\ Spec.has_token (Py.or_empty (memo t)) = false)) as Hnb.
    { intros Hb. assert (true = false) by (apply Hknown; tauto). discriminate. }
    split; split.
    + discriminate.
    + intros Hb. contradiction.
    + intros _. destruct (Spec.has_token (description t)); [left; reflexivity |].
      destruct (Spec.has_token (Py.or_empty (memo t))); [right; reflexivity |].
      exfalso. apply Hnb. split; reflexivity.
    + reflexivity.
  - destruct (proj1 Hknown eq_refl) as (_ & Hd & Hmemo).
    split; split.
    + intros _. split; assumption.
    + reflexivity.
    + discriminate.
    + rewrite Hd, Hmemo. intros [H | H]; discriminate.
Qed.

Lemma find_matching_rewards_early_return_iff_blank_witness :
  snd (find_matching_rewards Ledger.blank_purchase Examples.user_without_geo None
         Examples.catalog) = Exn.Returns [].
Proof.
  apply (proj1 (find_matching_rewards_early_return_iff_blank Ledger.blank_purchase
                  Examples.user_without_geo None Examples.catalog 70
                  eq_refl eq_refl)).
  split; reflexivity.
Defined.

(** X8. [find_matching_rewards] never returns a reward: a list it returns is
    empty, whatever the rewards table, the user and the preferences; and it
    raises TypeError exactly when the transaction has a timestamp and its
    merchant is known after enrichment. *)
Theorem find_matching_rewards_returns_no_reward
    (t : Transaction) (user : User) (prefs : option UserPreference)
    (db : list Reward) :
  (forall rewards,
      snd (find_matching_rewards t user prefs db) = Exn.Returns rewards ->
      rewards = [])
  /\ (snd (find_matching_rewards t user prefs db) = Exn.Raises Exn.TypeError <->
      transaction_at t <> None
      /\ Py.truthy_str (merchant_normalized (enrich_transaction t)) = true).
Proof.
  split; [intros rewards; apply find_matching_rewards_returns_nil |].
  rewrite find_matching_rewards_outcome. cbn [snd].
  destruct (transaction_at t) as [ts |].
  - destruct (Py.truthy_str (merchant_normalized (enrich_transaction t))); split.
    + intros _. split; [discriminate | reflexivity].
    + reflexivity.
    + discriminate.
    + intros (_ & H). discriminate.
  - split; [discriminate | intros (H & _); contradiction].
Qed.

(** X9. For a transaction without a timestamp the call raises ArgumentError
    (the comparison of line 152 is against None), after the transaction has
    been enriched. *)
Theorem find_matching_rewards_without_timestamp
    (t : Transaction) (user : User) (prefs : option UserPreference)
    (db : list Reward) :
  transaction_at t = None ->
  find_matching_rewards t user prefs db
  = (enrich_transaction t, Exn.Raises Exn.ArgumentError).
Proof.
  intros Hts. rewrite find_matching_rewards_outcome, Hts. reflexivity.
Qed.

Lemma find_matching_rewards_without_timestamp_witness :
  find_matching_rewards
    (new_transaction 1001 2001 31 None "STARBUCKS STORE #12345" None
       Examples.minus_2000_00)
    Examples.user_without_geo None Examples.catalog
  = (enrich_transaction
       (new_transaction 1001 2001 31 None "STARBUCKS STORE #12345" None
          Examples.minus_2000_00),
     Exn.Raises Exn.ArgumentError).
Proof.
  apply find_matching_rewards_without_timestamp. reflexivity.
Defined.

(** ** Lists *)

Lemma List_filter_sublist {A : Type} (f : A -> bool) (l : list A) :
  sublist (List.filter f l) l.
Proof.
  induction l as [| x l IH]; simpl; [constructor |].
  destruct (f x); [apply sublist_skip | apply sublist_cons]; exact IH.
Qed.

Lemma firstn_sublist {A : Type} (n : nat) (l : list A) : sublist (firstn n l) l.
Proof.
  revert n. induction l as [| x l IH]; intros [| n]; simpl; try constructor.
  - apply sublist_nil_l.
  - apply IH.
Qed.

Lemma truthy_str_Some (o : option string) :
  Py.truthy_str o = true <-> exists s, o = Some s /\ s <> "".
Proof.
  destruct o as [[| c s] |]; simpl; split; try discriminate.
  - intros (s & H & Hne). injection H as <-. contradiction.
  - intros _. eexists. split; [reflexivity | discriminate].
  - reflexivity.
  - intros (s & H & _). discriminate.
Qed.

(** ** Savings are not negative *)

Lemma fix_sign (d : Decimal) : d_sign (Dec.fix_ d) = d_sign d.
Proof.
  unfold Dec.fix_. destruct (Dec.num_digits (d_int d) <=? Dec.prec)%Z; [reflexivity |].
  match goal with |- context [if ?c then _ else _] => destruct c end; reflexivity.
Qed.

Lemma truediv_sign (x y q : Decimal) :
  Dec.truediv x y = Some q -> d_sign q = xorb (d_sign x) (d_sign y).
Proof.
  unfold Dec.truediv.
  destruct (d_int y =? 0)%N; [discriminate |].
  destruct (d_int x =? 0)%N.
  - intros H. injection H as <-. apply fix_sign.
  - match goal with |- context [if ?c then _ else _] => destruct c end.
    + destruct (Dec.strip_zeros _ _ _). intros H. injection H as <-. apply fix_sign.
    + intros H. injection H as <-. apply fix_sign.
Qed.

Lemma value_nonneg_of_sign (d : Decimal) : d_sign d = false -> (0 <= Dec.value d)%Q.
Proof.
  intros H. unfold Dec.value, Dec.signed. rewrite H.
  apply Qmult_le_0_compat.
  - change 0%Q with (inject_Z 0). rewrite <- Zle_Qle. lia.
  - apply Qlt_le_weak, ten_pow_pos.
Qed.

Lemma when_truthy_inv (o : option Decimal) (d : Decimal) :
  Dec.when_truthy o = Some d -> o = Some d.
Proof.
  unfold Dec.when_truthy. destruct o as [x |]; [| discriminate].
  destruct (Dec.truthy x); [auto | discriminate].
Qed.

Lemma type_and_value_inv (r : Reward) (name : string) (o : option Decimal) (d : Decimal) :
  type_and_value r name o = Some d -> o = Some d.
Proof.
  unfold type_and_value. destruct (String.eqb _ _); [| discriminate].
  apply when_truthy_inv.
Qed.

(** X13. When the reward's percentage_value, max_savings_amount and
    fixed_amount_value are not negative (each absent or of positive sign),
    the savings are not negative, for every transaction amount, debit or
    credit. *)
Theorem calculate_reward_savings_not_negative (t : Transaction) (r : Reward) :
  (forall d, percentage_value r = Some d -> d_sign d = false) ->
  (forall d, max_savings_amount r = Some d -> d_sign d = false) ->
  (forall d, fixed_amount_value r = Some d -> d_sign d = false) ->
  exists savings,
    calculate_reward_savings t r = Some savings
    /\ d_sign savings = false
    /\ (0 <= Dec.value savings)%Q.
Proof.
  intros Hp Hc Hf.
  destruct (calculate_reward_savings_total t r) as (savings & Hs).
  exists savings. split; [exact Hs |].
  assert (d_sign savings = false) as Hsign;
    [| split; [exact Hsign | apply value_nonneg_of_sign; exact Hsign]].
  unfold calculate_reward_savings in Hs.
  destruct (type_and_value r "percentage_cashback" (percentage_value r))
    as [pv |] eqn:Epv.
  - apply type_and_value_inv in Epv.
    destruct (Dec.truediv pv (Dec.of_nonneg_int 100)) as [rate |] eqn:Er;
      [| discriminate].
    apply truediv_sign in Er. rewrite (Hp pv Epv) in Er. simpl in Er.
    assert (d_sign (Dec.mul (Dec.abs (value_amount_usd t)) rate) = false) as Hm.
    { unfold Dec.mul, Dec.abs. rewrite !fix_sign. simpl. exact Er. }
    destruct (Dec.when_truthy (max_savings_amount r)) as [cap |] eqn:Ec.
    + apply when_truthy_inv in Ec. injection Hs as <-.
      unfold Dec.of_str_of, Dec.min. destruct (Dec.lt _ _); [apply (Hc cap Ec) | exact Hm].
    + injection Hs as <-. exact Hm.
  - destruct (type_and_value r "fixed_amount" (fixed_amount_value r))
      as [fv |] eqn:Efv.
    + apply type_and_value_inv in Efv. injection Hs as <-. apply (Hf fv Efv).
    + injection Hs as <-. reflexivity.
Qed.

Lemma calculate_reward_savings_not_negative_witness :
  exists savings,
    calculate_reward_savings Examples.starbucks_purchase Examples.starbucks_cashback
    = Some savings
    /\ d_sign savings = false
    /\ (0 <= Dec.value savings)%Q.
Proof.
  apply calculate_reward_savings_not_negative.
  - intros d H. injection H as <-. reflexivity.
  - intros d H. injection H as <-. reflexivity.
  - intros d H. discriminate H.
Defined.

(** ** The seed step *)

(** X14. The seed step ends with an exception exactly when
    [find_matching_rewards] does, with that exception; when it completes, the
    transaction is enriched and nothing else: no reward is recorded and no
    flag is set. *)
Theorem match_transaction_only_enriches
    (t : Transaction) (user : User) (prefs : option UserPreference)
    (db : list Reward) (acted : bool) :
  (forall e,
      Seed.match_transaction t user prefs db acted = Exn.Raises e <->
      snd (find_matching_rewards t user prefs db) = Exn.Raises e)
  /\ (forall t',
         Seed.match_transaction t user prefs db acted = Exn.Returns t' ->
         t' = enrich_transaction t
         /\ matched_reward_id t' = matched_reward_id t
         /\ reward_savings_amount t' = reward_savings_amount t
         /\ reward_applied t' = reward_applied t
         /\ notification_triggered t' = notification_triggered t).
Proof.
  rewrite match_transaction_outcome.
  destruct (snd (find_matching_rewards t user prefs db)) as [rewards | e0]; split.
  - intros e. split; discriminate.
  - intros t' H. injection H as <-. split; [reflexivity |].
    rewrite (enrich_transaction_fields t). cbv zeta. repeat split; reflexivity.
  - intros e. split; intros H; injection H as <-; reflexivity.
  - intros t' H. discriminate.
Qed.

(** X15. For a transaction of the kind the seeding creates, with a timestamp
    and a description that is not blank, the seed step raises TypeError:
    enrichment gives the transaction a merchant, and the test of line 173
    of [find_matching_rewards] then has no truth value. *)
Theorem match_transaction_raises_on_text
    (t : Transaction) (user : User) (prefs : option UserPreference)
    (db : list Reward) (acted : bool) (ts : Z) :
  transaction_at t = Some ts ->
  Spec.has_token (description t) = true ->
  Seed.match_transaction t user prefs db acted = Exn.Raises Exn.TypeError.
Proof.
  intros Hts Hd.
  rewrite match_transaction_outcome, find_matching_rewards_outcome. cbn [snd].
  rewrite Hts.
  destruct (Py.truthy_str (merchant_normalized (enrich_transaction t))) eqn:E;
    [reflexivity |].
  apply enriched_merchant_known in E. destruct E as (_ & Hb & _). congruence.
Qed.

Lemma match_transaction_raises_on_text_witness :
  Seed.match_transaction Examples.movie_night Examples.user_without_geo
    (Some Examples.default_preferences) Examples.catalog true
  = Exn.Raises Exn.TypeError.
Proof.
  apply (match_transaction_raises_on_text Examples.movie_night
           Examples.user_without_geo (Some Examples.default_preferences)
           Examples.catalog true 30); reflexivity.
Defined.

(** ** Notification decision: when it says yes, and when it fails *)

Section Notification.

Import AiInsightsService.

Variables (now : Z) (user : User) (prefs : gmap string PyVal) (experience : Reward).

Let user_geo : PyVal :=
  or_ (get prefs "priceless_geo_location" VNone)
      (of_opt_str (primary_geo_location user)).

(** X16. [should_send_notification] returns true exactly when both toggles
    are truthy, the current time is inside the validity window, and the
    reward is global or the user geo is known and the reward has no city or a
    city in which the user geo (a string) occurs, ignoring case.  In
    particular it never says yes outside the window or, for a reward that is
    not global, to a user of unknown geo. *)
Theorem should_send_notification_true_iff :
  should_send_notification now user prefs experience = Returns true <->
  truthy (get prefs "priceless_notifications_enabled" (VBool true)) = true
  /\ truthy (get prefs "notifications_enabled" (VBool true)) = true
  /\ (start_date experience <= now)%Z
  /\ (forall e, end_date experience = Some e -> (now <= e)%Z)
  /\ (geo_scope experience = "global"
      \/ (truthy user_geo = true
          /\ (Py.truthy_str (geo_city experience) = false
              \/ exists g c,
                  user_geo = VStr g /\ geo_city experience = Some c
                  /\ Spec.occurs (Py.lower g) (Py.lower c)))).
Proof.
  unfold should_send_notification. fold user_geo.
  destruct (truthy (get prefs "priceless_notifications_enabled" (VBool true)));
    simpl; [| split; [discriminate | intros (H & _); discriminate]].
  destruct (truthy (get prefs "notifications_enabled" (VBool true)));
    simpl; [| split; [discriminate | intros (_ & H & _); discriminate]].
  assert ((if (now <? start_date experience)%Z
              || match end_date experience with
                 | Some e => (e <? now)%Z
                 | None => false
                 end
           then Returns false else Returns true) = Returns true
          <-> (start_date experience <= now)%Z
              /\ (forall e, end_date experience = Some e -> (now <= e)%Z)) as Hvalid.
  { destruct (Z.ltb_spec now (start_date experience)); simpl.
    - split; [discriminate | intros (H' & _); lia].
    - destruct (end_date experience) as [e |].
      + destruct (Z.ltb_spec e now); split; try discriminate.
        * intros (_ & H'). specialize (H' e eq_refl). lia.
        * intros _. split; [assumption |]. intros e' He'. injection He' as <-. lia.
        * reflexivity.
      + split; [| reflexivity]. intros _. split; [assumption | discriminate]. }
  destruct (String.eqb_spec (geo_scope experience) "global") as [Hg | Hg]; simpl.
  - rewrite Hvalid. tauto.
  - destruct (truthy user_geo) eqn:Hu; simpl.
    + destruct (Py.truthy_str (geo_city experience)) eqn:Hc.
      * destruct user_geo as [| b | g] eqn:Hug.
        -- discriminate Hu.
        -- split; [discriminate |].
           intros (_ & _ & _ & _ & [H' | (_ & [H' | (g & c & H' & _)])]);
             [contradiction | discriminate | discriminate].
        -- apply truthy_str_Some in Hc. destruct Hc as (c & Hc & Hne).
           rewrite Hc. simpl.
           destruct (Py.contains (Py.lower g) (Py.lower c)) eqn:Hin; simpl.
           ++ rewrite Hvalid. apply contains_spec in Hin. split.
              ** intros (H1 & H2). repeat split; auto. right. split; [reflexivity |].
                 right. exists g, c. auto.
              ** intros (_ & _ & H1 & H2 & _). auto.
           ++ split; [discriminate |].
              intros (_ & _ & _ & _ & [H' | (_ & [H' | (g' & c' & Hg' & Hc' & Ho)])]).
              ** contradiction.
              ** discriminate.
              ** injection Hg' as <-. injection Hc' as <-.
                 apply contains_spec in Ho. congruence.
      * rewrite Hvalid. split.
        -- intros (H1 & H2). repeat split; auto.
        -- intros (_ & _ & H1 & H2 & _). auto.
    + split; [discriminate |].
      intros (_ & _ & _ & _ & [H' | (H' & _)]); [contradiction | discriminate].
Qed.

(** X17. The decision fails (AttributeError) only when the reward is not
    global, has a city, and the resolved user geo is a truthy value that is
    not a string; with a geo preference that is absent, None or a string it
    never fails. *)
Theorem should_send_notification_raises_iff :
  should_send_notification now user prefs experience = Raises <->
  truthy (get prefs "priceless_notifications_enabled" (VBool true)) = true
  /\ truthy (get prefs "notifications_enabled" (VBool true)) = true
  /\ geo_scope experience <> "global"
  /\ Py.truthy_str (geo_city experience) = true
  /\ user_geo = VBool true.
Proof.
  unfold should_send_notification. fold user_geo.
  destruct (truthy (get prefs "priceless_notifications_enabled" (VBool true)));
    simpl; [| split; [discriminate | intros (H & _); discriminate]].
  destruct (truthy (get prefs "notifications_enabled" (VBool true)));
    simpl; [| split; [discriminate | intros (_ & H & _); discriminate]].
  assert (forall o : outcome,
             o = (if (now <? start_date experience)%Z
                     || match end_date experience with
                        | Some e => (e <? now)%Z
                        | None => false
                        end
                  then Returns false else Returns true) -> o <> Raises) as Hvalid.
  { intros o ->. destruct (_ || _); discriminate. }
  destruct (String.eqb_spec (geo_scope experience) "global") as [Hg | Hg]; simpl.
  - split; [intros H; exfalso; exact (Hvalid _ eq_refl H) |].
    intros (_ & _ & H & _). contradiction.
  - destruct (truthy user_geo) eqn:Hu; simpl.
    + destruct (Py.truthy_str (geo_city experience)) eqn:Hc.
      * destruct user_geo as [| [|] | g] eqn:Hug; try discriminate Hu.
        -- split; [intros _; repeat split; auto | reflexivity].
        -- split; [| intros (_ & _ & _ & _ & H); discriminate].
           destruct (negb _); [discriminate |].
           intros H. exfalso. exact (Hvalid _ eq_refl H).
      * split; [intros H; exfalso; exact (Hvalid _ eq_refl H) |].
        intros (_ & _ & _ & H & _). discriminate.
    + split; [discriminate |]. intros (_ & _ & _ & _ & H).
      rewrite H in Hu. discriminate.
Qed.

End Notification.

Lemma get_insert_same (prefs : gmap string AiInsightsService.PyVal)
    (key : string) (v default : AiInsightsService.PyVal) :
  AiInsightsService.get (<[ key := v ]> prefs) key default = v.
Proof. unfold AiInsightsService.get. rewrite lookup_insert_eq. reflexivity. Qed.

Lemma get_insert_other (prefs : gmap string AiInsightsService.PyVal)
    (key key' : string) (v default : AiInsightsService.PyVal) :
  key <> key' ->
  AiInsightsService.get (<[ key := v ]> prefs) key' default
  = AiInsightsService.get prefs key' default.
Proof.
  intros H. unfold AiInsightsService.get. rewrite lookup_insert_ne by exact H.
  reflexivity.
Qed.

(** X18. A toggle that is missing from the preferences dict counts as
    enabled: adding "notifications_enabled": True or
    "priceless_notifications_enabled": True to a dict that lacks the key does
    not change the decision. *)
Theorem should_send_notification_missing_toggle_enabled
    (now : Z) (user : User) (prefs : gmap string AiInsightsService.PyVal)
    (experience : Reward) (key : string) :
  key = "notifications_enabled" \/ key = "priceless_notifications_enabled" ->
  prefs !! key = None ->
  AiInsightsService.should_send_notification now user
    (<[ key := AiInsightsService.VBool true ]> prefs) experience
  = AiInsightsService.should_send_notification now user prefs experience.
Proof.
  intros Hkey Hnone. unfold AiInsightsService.should_send_notification.
  assert (AiInsightsService.get prefs key (AiInsightsService.VBool true)
          = AiInsightsService.VBool true) as Hget
    by (unfold AiInsightsService.get; rewrite Hnone; reflexivity).
  destruct Hkey as [-> | ->].
  - rewrite get_insert_same, Hget.
    rewrite !get_insert_other by discriminate. reflexivity.
  - rewrite get_insert_same, Hget.
    rewrite !get_insert_other by discriminate. reflexivity.
Qed.

Lemma should_send_notification_missing_toggle_enabled_witness :
  AiInsightsService.should_send_notification 30 Examples.user_without_geo
    (<[ "notifications_enabled" := AiInsightsService.VBool true ]>
       Examples.preferences_dict) Examples.experience_without_city
  = AiInsightsService.should_send_notification 30 Examples.user_without_geo
      Examples.preferences_dict Examples.experience_without_city.
Proof.
  apply should_send_notification_missing_toggle_enabled.
  - left. reflexivity.
  - reflexivity.
Defined.

(** ** Recommendations *)

Lemma count_up_lookup (key key' : string) (counts : gmap string nat) :
  Recommendations.count_up key counts !! key'
  = if decide (key = key')
    then Some (match counts !! key with Some n => n | None => 0 end + 1)%nat
    else counts !! key'.
Proof.
  unfold Recommendations.count_up. rewrite lookup_insert.
  destruct (decide (key = key')); reflexivity.
Qed.

Lemma times_seen_snoc (field : Transaction -> option string) (key : string)
    (ts : list Transaction) (t : Transaction) :
  SpecX.times_seen field key (ts ++ [t])%list
  = (SpecX.times_seen field key ts
     + if Py.truthy_str (field t) && String.eqb (Py.or_empty (field t)) key
       then 1 else 0)%nat.
Proof.
  unfold SpecX.times_seen. rewrite List.filter_app, List.length_app. simpl.
  destruct (_ && _); reflexivity.
Qed.

Lemma count_entry_step (n : nat) :
  Some (match SpecX.count_entry n with Some m => m | None => 0 end + 1)%nat
  = SpecX.count_entry (n + 1).
Proof. destruct n; simpl; reflexivity. Qed.

(** One field's dict after the counting loop. *)
Lemma count_step_lookup (field : Transaction -> option string)
    (counts : gmap string nat) (ts : list Transaction) (t : Transaction) :
  (forall key, counts !! key = SpecX.count_entry (SpecX.times_seen field key ts)) ->
  forall key,
    (if Py.truthy_str (field t)
     then Recommendations.count_up (Py.or_empty (field t)) counts
     else counts) !! key
    = SpecX.count_entry (SpecX.times_seen field key (ts ++ [t])%list).
Proof.
  intros Hc key. rewrite times_seen_snoc.
  destruct (Py.truthy_str (field t)); simpl.
  - rewrite count_up_lookup.
    destruct (decide (Py.or_empty (field t) = key)) as [He | Hne].
    + rewrite He, String.eqb_refl, Hc. apply count_entry_step.
    + apply String.eqb_neq in Hne. rewrite Hne, Nat.add_0_r. apply Hc.
  - rewrite Nat.add_0_r. apply Hc.
Qed.

Lemma count_patterns_lookup (ts : list Transaction) :
  forall key,
    fst (Recommendations.count_patterns ts) !! key
    = SpecX.count_entry (SpecX.times_seen merchant_normalized key ts)
    /\ snd (Recommendations.count_patterns ts) !! key
       = SpecX.count_entry (SpecX.times_seen category key ts).
Proof.
  unfold Recommendations.count_patterns.
  induction ts as [| t ts IH] using rev_ind.
  - intros key. simpl. rewrite !lookup_empty. split; reflexivity.
  - intros key. rewrite fold_left_app. simpl.
    destruct (fold_left _ ts (∅, ∅)) as [mc cc]. simpl in *. split.
    + apply (count_step_lookup merchant_normalized). intros k. apply IH.
    + apply (count_step_lookup category). intros k. apply IH.
Qed.

(** X19. After the counting loop of [generate_reward_recommendations] each
    dict holds, for every key, the number of recent transactions whose
    merchant (or category) is that non-empty string, and no entry for a string
    that no transaction holds. *)
Theorem count_patterns_counts (ts : list Transaction) (key : string) :
  fst (Recommendations.count_patterns ts) !! key
  = SpecX.count_entry (SpecX.times_seen merchant_normalized key ts)
  /\ snd (Recommendations.count_patterns ts) !! key
     = SpecX.count_entry (SpecX.times_seen category key ts).
Proof. apply count_patterns_lookup. Qed.

Lemma times_seen_pos (field : Transaction -> option string) (key : string)
    (ts : list Transaction) :
  SpecX.times_seen field key ts <> 0 <->
  exists t, In t ts /\ field t = Some key /\ key <> "".
Proof.
  unfold SpecX.times_seen. split.
  - intros H. destruct (List.filter _ ts) as [| t l] eqn:E; [contradiction |].
    assert (In t (List.filter
                    (fun t => Py.truthy_str (field t)
                              && String.eqb (Py.or_empty (field t)) key) ts)) as Hin
      by (rewrite E; left; reflexivity).
    apply filter_In in Hin. destruct Hin as (Hin & Hc).
    apply andb_true_iff in Hc. destruct Hc as (Ht & He).
    apply truthy_str_Some in Ht. destruct Ht as (s & Hs & Hne).
    rewrite Hs in He. simpl in He. apply String.eqb_eq in He. subst s.
    exists t. auto.
  - intros (t & Hin & Hf & Hne) Hz.
    assert (In t (List.filter
                    (fun t => Py.truthy_str (field t)
                              && String.eqb (Py.or_empty (field t)) key) ts)) as Hin'.
    { apply filter_In. split; [exact Hin |]. rewrite Hf. simpl.
      rewrite String.eqb_refl. destruct key; [contradiction | reflexivity]. }
    destruct (List.filter _ ts); [destruct Hin' | discriminate Hz].
Qed.

Lemma key_in_seen (field : Transaction -> option string) (counts : gmap string nat)
    (ts : list Transaction) (key : option string) :
  (forall k, counts !! k = SpecX.count_entry (SpecX.times_seen field k ts)) ->
  Recommendations.key_in key counts = true <->
  exists k t, key = Some k /\ In t ts /\ field t = Some k /\ k <> "".
Proof.
  intros Hc. unfold Recommendations.key_in. destruct key as [k |].
  - rewrite Hc. split.
    + intros H.
      assert (SpecX.times_seen field k ts <> 0) as Hpos
        by (destruct (SpecX.times_seen field k ts); [discriminate | lia]).
      apply times_seen_pos in Hpos. destruct Hpos as (t & Ht). exists k, t. tauto.
    + intros (k' & t & Hk & Ht). injection Hk as <-.
      assert (SpecX.times_seen field k ts <> 0) as Hpos
        by (apply times_seen_pos; eauto).
      destruct (SpecX.times_seen field k ts); [contradiction | reflexivity].
  - split; [discriminate | intros (k & t & H & _); discriminate].
Qed.

Lemma firstn_In {A : Type} (n : nat) (l : list A) (x : A) :
  In x (firstn n l) -> In x l.
Proof.
  revert n. induction l as [| a l IH]; intros [| n]; simpl; try tauto.
  intros [-> | H]; [left; reflexivity | right; eapply IH; exact H].
Qed.

Lemma match_priceless_In (user_geo : AiInsightsService.PyVal)
    (l found : list Reward) (r : Reward) :
  Recommendations.match_priceless user_geo l = Some found ->
  In r found <-> In r l /\ Recommendations.geo_accepts user_geo r = Some true.
Proof.
  revert found. induction l as [| x l IH]; simpl; intros found.
  - intros H. injection H as <-. simpl. tauto.
  - destruct (Recommendations.geo_accepts user_geo x) as [acc |] eqn:Ex;
      [| discriminate].
    destruct (Recommendations.match_priceless user_geo l) as [more |];
      [| discriminate].
    intros H. injection H as <-. specialize (IH more eq_refl).
    destruct acc; simpl; rewrite IH; split.
    + intros [<- | (Hin & Ha)]; auto.
    + intros ([<- | Hin] & Ha); auto.
    + intros (Hin & Ha). auto.
    + intros ([<- | Hin] & Ha); [congruence | auto].
Qed.

Lemma match_priceless_sublist (user_geo : AiInsightsService.PyVal)
    (l found : list Reward) :
  Recommendations.match_priceless user_geo l = Some found -> sublist found l.
Proof.
  revert found. induction l as [| x l IH]; simpl; intros found.
  - intros H. injection H as <-. constructor.
  - destruct (Recommendations.geo_accepts user_geo x) as [acc |]; [| discriminate].
    destruct (Recommendations.match_priceless user_geo l) as [more |];
      [| discriminate].
    intros H. injection H as <-. specialize (IH more eq_refl).
    destruct acc; [apply sublist_skip | apply sublist_cons]; exact IH.
Qed.

Lemma match_priceless_none (user_geo : AiInsightsService.PyVal) (l : list Reward) :
  Recommendations.match_priceless user_geo l = None <->
  exists r, In r l /\ Recommendations.geo_accepts user_geo r = None.
Proof.
  induction l as [| x l IH]; simpl.
  - split; [discriminate | intros (r & [] & _)].
  - destruct (Recommendations.geo_accepts user_geo x) as [acc |] eqn:Ex.
    + destruct (Recommendations.match_priceless user_geo l) as [more |].
      * split; [discriminate |]. intros (r & [<- | Hin] & Hr); [congruence |].
        assert (Some more = None) as Hn by (apply IH; eauto).
        discriminate Hn.
      * split; [intros _ | reflexivity].
        destruct (proj1 IH eq_refl) as (r & Hin & Hr). eauto.
    + split; [intros _; eauto | reflexivity].
Qed.

Lemma geo_accepts_true (user_geo : AiInsightsService.PyVal) (r : Reward) :
  Recommendations.geo_accepts user_geo r = Some true <->
  geo_scope r = "global"
  \/ exists g c,
      user_geo = AiInsightsService.VStr g /\ g <> ""
      /\ geo_city r = Some c /\ c <> ""
      /\ Spec.occurs (Py.lower g) (Py.lower c).
Proof.
  unfold Recommendations.geo_accepts.
  destruct (String.eqb_spec (geo_scope r) "global") as [Hg | Hg];
    [split; auto |].
  destruct (AiInsightsService.truthy user_geo) eqn:Hu; simpl.
  - destruct (Py.truthy_str (geo_city r)) eqn:Hc; simpl.
    + apply truthy_str_Some in Hc. destruct Hc as (c & Hc & Hne).
      destruct user_geo as [| b | g]; try discriminate Hu.
      * split; [discriminate |].
        intros [H | (g & c' & H & _)]; [contradiction | discriminate].
      * rewrite Hc. simpl. split.
        -- intros H. injection H as H. apply contains_spec in H. right.
           exists g, c. repeat split; auto.
           simpl in Hu. destruct g; [discriminate | discriminate].
        -- intros [H | (g' & c' & Hg' & _ & Hc' & _ & Ho)]; [contradiction |].
           injection Hg' as <-. injection Hc' as <-.
           apply contains_spec in Ho. rewrite Ho. reflexivity.
    + split; [discriminate |].
      intros [H | (g & c & _ & _ & Hc' & Hne & _)]; [contradiction |].
      rewrite Hc' in Hc. destruct c; [contradiction | discriminate].
  - split; [discriminate |].
    intros [H | (g & c & Hg' & Hne & _)]; [contradiction |].
    rewrite Hg' in Hu. destruct g; [contradiction | discriminate].
Qed.

Lemma geo_accepts_none (user_geo : AiInsightsService.PyVal) (r : Reward) :
  Recommendations.geo_accepts user_geo r = None <->
  geo_scope r <> "global" /\ Py.truthy_str (geo_city r) = true
  /\ user_geo = AiInsightsService.VBool true.
Proof.
  unfold Recommendations.geo_accepts.
  destruct (String.eqb_spec (geo_scope r) "global") as [Hg | Hg];
    [split; [discriminate | intros (H & _); contradiction] |].
  destruct user_geo as [| [|] | g]; simpl;
    destruct (Py.truthy_str (geo_city r)); simpl;
    try (destruct g; simpl);
    split; try discriminate; auto;
    try (intros (_ & H & _); discriminate);
    try (intros (_ & _ & H); discriminate).
Qed.

Lemma firstn_length_le {A : Type} (n : nat) (l : list A) : length (firstn n l) <= n.
Proof. rewrite List.length_firstn. lia. Qed.

(** The two lists before they are cut to five, when the call returns. *)
Lemma generate_reward_recommendations_Some (user : User)
    (ts : list Transaction) (available : list Reward)
    (prefs : option (gmap string AiInsightsService.PyVal)) (chat : option string)
    (rec : Recommendations.Recommended) :
  Recommendations.generate_reward_recommendations user ts available prefs chat
  = Some rec ->
  exists priceless,
    Recommendations.match_priceless (Recommendations.resolve_geo user prefs)
      (List.filter (fun r => String.eqb (reward_type r) "experience") available)
    = Some priceless
    /\ Recommendations.recommended_priceless rec = firstn 5 priceless
    /\ Recommendations.recommended_auto_apply rec
       = firstn 5
           (Recommendations.match_auto_apply
              (fst (Recommendations.count_patterns ts))
              (snd (Recommendations.count_patterns ts))
              (List.filter Spec.auto_applicable available)).
Proof.
  unfold Recommendations.generate_reward_recommendations.
  destruct (Recommendations.count_patterns ts) as [mc cc]. simpl.
  destruct (Recommendations.match_priceless _ _) as [priceless |]; [| discriminate].
  intros H. exists priceless. split; [reflexivity |].
  destruct chat; injection H as <-; split; reflexivity.
Qed.

(** X20. The auto-apply recommendations are at most five rewards of the
    available ones, in their order; each can be applied without opt-in, and
    its category equals the non-empty category of some recent transaction or
    its merchant_name equals (exactly, case included) the non-empty merchant
    of some recent transaction.  The outcome of the chat call plays no
    part. *)
Theorem recommended_auto_apply_sound (user : User)
    (ts : list Transaction) (available : list Reward)
    (prefs : option (gmap string AiInsightsService.PyVal)) (chat : option string)
    (rec : Recommendations.Recommended) :
  Recommendations.generate_reward_recommendations user ts available prefs chat
  = Some rec ->
  length (Recommendations.recommended_auto_apply rec) <= 5
  /\ sublist (Recommendations.recommended_auto_apply rec) available
  /\ (forall r,
         In r (Recommendations.recommended_auto_apply rec) ->
         Spec.auto_applicable r = true
         /\ ((exists c t, reward_category r = Some c /\ In t ts
                          /\ category t = Some c /\ c <> "")
             \/ (exists t, In t ts /\ merchant_normalized t = Some (merchant_name r)
                           /\ merchant_name r <> "")))
  /\ (forall chat',
         Recommendations.generate_reward_recommendations user ts available prefs chat'
         = Some rec).
Proof.
  intros H.
  destruct (generate_reward_recommendations_Some _ _ _ _ _ _ H)
    as (priceless & Hp & Hrp & Hra).
  rewrite Hra. split; [apply firstn_length_le |]. split; [| split].
  - etransitivity; [apply firstn_sublist |].
    etransitivity; apply List_filter_sublist.
  - intros r Hin. apply firstn_In in Hin.
    unfold Recommendations.match_auto_apply in Hin.
    apply filter_In in Hin. destruct Hin as (Hin & Hseen).
    apply filter_In in Hin. destruct Hin as (_ & Hauto).
    split; [exact Hauto |].
    apply orb_true_iff in Hseen. destruct Hseen as [Hc | Hm].
    + left. apply (key_in_seen category _ ts) in Hc;
        [| intros k; apply count_patterns_lookup].
      destruct Hc as (c & t & Hc & Ht). exists c, t. tauto.
    + right. apply (key_in_seen merchant_normalized _ ts) in Hm;
        [| intros k; apply count_patterns_lookup].
      destruct Hm as (k & t & Hk & Ht). injection Hk as <-. exists t. tauto.
  - intros chat'. revert H.
    unfold Recommendations.generate_reward_recommendations.
    destruct (Recommendations.count_patterns ts) as [mc cc].
    destruct (Recommendations.match_priceless _ _); [| discriminate].
    destruct chat, chat'; auto.
Qed.

(** X21. The Priceless recommendations are at most five rewards of the
    available ones, in their order; each has reward_type experience and is
    global or has a non-empty city in which the user's non-empty geo (the
    preference, else the primary location) occurs, ignoring case; so with an
    unknown geo only global experiences are recommended. *)
Theorem recommended_priceless_sound (user : User)
    (ts : list Transaction) (available : list Reward)
    (prefs : option (gmap string AiInsightsService.PyVal)) (chat : option string)
    (rec : Recommendations.Recommended) :
  Recommendations.generate_reward_recommendations user ts available prefs chat
  = Some rec ->
  length (Recommendations.recommended_priceless rec) <= 5
  /\ sublist (Recommendations.recommended_priceless rec) available
  /\ (forall r,
         In r (Recommendations.recommended_priceless rec) ->
         reward_type r = "experience"
         /\ (geo_scope r = "global"
             \/ exists g c,
                 Recommendations.resolve_geo user prefs = AiInsightsService.VStr g
                 /\ g <> "" /\ geo_city r = Some c /\ c <> ""
                 /\ Spec.occurs (Py.lower g) (Py.lower c)))
  /\ (AiInsightsService.truthy (Recommendations.resolve_geo user prefs) = false ->
      forall r, In r (Recommendations.recommended_priceless rec) ->
                geo_scope r = "global").
Proof.
  intros H.
  destruct (generate_reward_recommendations_Some _ _ _ _ _ _ H)
    as (priceless & Hp & Hrp & _).
  rewrite Hrp.
  assert (forall r, In r (firstn 5 priceless) ->
                    reward_type r = "experience"
                    /\ (geo_scope r = "global"
                        \/ exists g c,
                            Recommendations.resolve_geo user prefs
                            = AiInsightsService.VStr g
                            /\ g <> "" /\ geo_city r = Some c /\ c <> ""
                            /\ Spec.occurs (Py.lower g) (Py.lower c))) as Hsound.
  { intros r Hin. apply firstn_In in Hin.
    apply (match_priceless_In _ _ _ r Hp) in Hin. destruct Hin as (Hin & Ha).
    apply filter_In in Hin. destruct Hin as (_ & Ht).
    apply String.eqb_eq in Ht. split; [exact Ht |].
    apply geo_accepts_true in Ha. exact Ha. }
  split; [apply firstn_length_le |]. split; [| split; [exact Hsound |]].
  - etransitivity; [apply firstn_sublist |].
    etransitivity; [apply (match_priceless_sublist _ _ _ Hp) |].
    apply List_filter_sublist.
  - intros Hu r Hin. destruct (Hsound r Hin) as (_ & [Hg | (g & c & Hg & Hne & _)]);
      [exact Hg |].
    rewrite Hg in Hu. destruct g; [contradiction | discriminate].
Qed.

(** X22. [generate_reward_recommendations] fails (AttributeError, raised
    before the guarded chat call) exactly when the resolved user geo is a
    truthy value that is not a string and some available experience is not
    global and has a city; with a geo that is absent or a string it always
    returns. *)
Theorem generate_reward_recommendations_fails_iff (user : User)
    (ts : list Transaction) (available : list Reward)
    (prefs : option (gmap string AiInsightsService.PyVal)) (chat : option string) :
  Recommendations.generate_reward_recommendations user ts available prefs chat = None
  <->
  Recommendations.resolve_geo user prefs = AiInsightsService.VBool true
  /\ exists r,
      In r available /\ reward_type r = "experience"
      /\ geo_scope r <> "global" /\ Py.truthy_str (geo_city r) = true.
Proof.
  unfold Recommendations.generate_reward_recommendations.
  destruct (Recommendations.count_patterns ts) as [mc cc].
  destruct (Recommendations.match_priceless _ _) as [priceless |] eqn:E.
  - split; [destruct chat; discriminate |].
    intros (Hg & r & Hin & Ht & Hs & Hc).
    assert (Recommendations.match_priceless (Recommendations.resolve_geo user prefs)
              (List.filter (fun r => String.eqb (reward_type r) "experience") available)
            = None) as Hn.
    { apply match_priceless_none. exists r. split.
      - apply filter_In. split; [exact Hin | apply String.eqb_eq; exact Ht].
      - apply geo_accepts_none. auto. }
    congruence.
  - split; [intros _ | reflexivity].
    apply match_priceless_none in E. destruct E as (r & Hin & Hr).
    apply filter_In in Hin. destruct Hin as (Hin & Ht).
    apply String.eqb_eq in Ht. apply geo_accepts_none in Hr.
    destruct Hr as (Hs & Hc & Hg). split; [exact Hg |]. exists r. auto.
Qed.

(** ** SavingsCalculationService *)

Import SavingsCalculationService.

Lemma and2_true (a b : Sql.sql_bool) :
  and2 a b = Some true <-> a = Some true /\ b = Some true.
Proof. destruct a as [[|] |], b as [[|] |]; simpl; split; intuition congruence. Qed.

Lemma recent_spec (at_ : option Z) (cutoff : Z) :
  Sql.ge at_ (Some cutoff) = Some true <-> exists ts, at_ = Some ts /\ (cutoff <= ts)%Z.
Proof.
  unfold Sql.ge, Sql.le. destruct at_ as [ts |].
  - split.
    + intros H. injection H as H. apply Z.leb_le in H. eauto.
    + intros (ts' & H & Hle). injection H as <-. f_equal. apply Z.leb_le. exact Hle.
  - split; [discriminate | intros (ts & H & _); discriminate].
Qed.

Lemma eq_int_true (a b : Z) : eq_int a b = Some true <-> a = b.
Proof.
  unfold eq_int. split.
  - intros H. injection H as H. apply Z.eqb_eq. exact H.
  - intros ->. rewrite Z.eqb_refl. reflexivity.
Qed.

Lemma eq_flag_true (a b : bool) : eq_flag a b = Some true <-> a = b.
Proof. unfold eq_flag. destruct a, b; split; (reflexivity || discriminate). Qed.

Lemma is_not_null_true {A : Type} (a : option A) :
  is_not_null a = Some true <-> a <> None.
Proof. destruct a; simpl; split; congruence. Qed.

Lemma auto_apply_transactions_In (uid cutoff : Z) (db : list TransactionRow)
    (row : TransactionRow) :
  In row (auto_apply_transactions uid cutoff db) <->
  In row db /\ user_id row = uid
  /\ reward_applied (fields row) = true
  /\ notification_triggered (fields row) = false
  /\ reward_savings_amount (fields row) <> None
  /\ exists ts, transaction_at (fields row) = Some ts /\ (cutoff <= ts)%Z.
Proof.
  unfold auto_apply_transactions.
  rewrite where_In, !and2_true, eq_int_true, !eq_flag_true, is_not_null_true,
    recent_spec.
  reflexivity.
Qed.

Lemma notification_transactions_In (uid cutoff : Z) (db : list TransactionRow)
    (row : TransactionRow) :
  In row (notification_transactions uid cutoff db) <->
  In row db /\ user_id row = uid
  /\ notification_triggered (fields row) = true
  /\ reward_savings_amount (fields row) <> None
  /\ exists ts, transaction_at (fields row) = Some ts /\ (cutoff <= ts)%Z.
Proof.
  unfold notification_transactions.
  rewrite where_In, !and2_true, eq_int_true, !eq_flag_true, is_not_null_true,
    recent_spec.
  reflexivity.
Qed.

Lemma rewarded_transactions_In (uid cutoff : Z) (db : list TransactionRow)
    (row : TransactionRow) :
  In row (rewarded_transactions uid cutoff db) <->
  In row db /\ user_id row = uid
  /\ reward_applied (fields row) = true
  /\ reward_savings_amount (fields row) <> None
  /\ exists ts, transaction_at (fields row) = Some ts /\ (cutoff <= ts)%Z.
Proof.
  unfold rewarded_transactions.
  rewrite where_In, !and2_true, eq_int_true, !eq_flag_true, is_not_null_true,
    recent_spec.
  reflexivity.
Qed.

(** X23. No transaction is counted twice: a row selected for
    saved_via_auto_apply is never selected for saved_via_notifications; and
    the rows of the per-category breakdown are exactly the auto-apply rows
    together with the notification rows whose reward is applied. *)
Theorem savings_selections_partition (uid cutoff : Z) (db : list TransactionRow)
    (row : TransactionRow) :
  ~ (In row (auto_apply_transactions uid cutoff db)
     /\ In row (notification_transactions uid cutoff db))
  /\ (In row (rewarded_transactions uid cutoff db) <->
      In row (auto_apply_transactions uid cutoff db)
      \/ (In row (notification_transactions uid cutoff db)
          /\ reward_applied (fields row) = true)).
Proof.
  rewrite auto_apply_transactions_In, notification_transactions_In,
    rewarded_transactions_In.
  split.
  - intros ((_ & _ & _ & Hf & _) & (_ & _ & Ht & _)). congruence.
  - destruct (notification_triggered (fields row)); intuition congruence.
Qed.

Lemma where_app {Row : Type} (cond : Row -> Sql.sql_bool) (l1 l2 : list Row) :
  Sql.where_ cond (l1 ++ l2)%list = (Sql.where_ cond l1 ++ Sql.where_ cond l2)%list.
Proof. apply List.filter_app. Qed.

Lemma truthy_savings_app (l1 l2 : list TransactionRow) :
  truthy_savings (l1 ++ l2)%list = (truthy_savings l1 ++ truthy_savings l2)%list.
Proof.
  induction l1 as [| t l1 IH]; [reflexivity |]. simpl.
  destruct (Dec.when_truthy _); rewrite IH; reflexivity.
Qed.

Lemma truthy_savings_where_skip (cond : TransactionRow -> Sql.sql_bool)
    (row : TransactionRow) :
  cond row <> Some true \/ Dec.when_truthy (reward_savings_amount (fields row)) = None ->
  truthy_savings (Sql.where_ cond [row]) = [].
Proof.
  intros H. unfold Sql.where_. simpl.
  destruct (cond row) as [[|] |]; try reflexivity.
  destruct H as [H | H]; [contradiction |]. simpl. rewrite H. reflexivity.
Qed.

(** X24. A row of another user, a row without timestamp or older than the
    cutoff, and a row whose savings are absent or zero have no effect on the
    totals: removing such a row from the table leaves [calculate_savings]
    unchanged. *)
Theorem calculate_savings_ignores_row (now uid days : Z)
    (db1 db2 : list TransactionRow) (row : TransactionRow) :
  user_id row <> uid
  \/ transaction_at (fields row) = None
  \/ (exists ts, transaction_at (fields row) = Some ts
                 /\ (ts < now - timedelta_days days)%Z)
  \/ Dec.when_truthy (reward_savings_amount (fields row)) = None ->
  calculate_savings now uid (db1 ++ row :: db2)%list days
  = calculate_savings now uid (db1 ++ db2)%list days.
Proof.
  intros H. unfold calculate_savings.
  set (cutoff := (now - timedelta_days days)%Z) in *.
  assert (forall sel : Z -> Z -> list TransactionRow -> list TransactionRow,
             (forall l1 l2, sel uid cutoff (l1 ++ l2)%list
                            = (sel uid cutoff l1 ++ sel uid cutoff l2)%list) ->
             truthy_savings (sel uid cutoff [row]) = [] ->
             truthy_savings (sel uid cutoff (db1 ++ row :: db2)%list)
             = truthy_savings (sel uid cutoff (db1 ++ db2)%list)) as Hsel.
  { intros sel Happ Hskip.
    change (row :: db2) with ([row] ++ db2)%list.
    rewrite !Happ, !truthy_savings_app, Hskip. reflexivity. }
  assert (forall b : Sql.sql_bool,
             (b = Some true ->
              user_id row = uid
              /\ exists ts, transaction_at (fields row) = Some ts /\ (cutoff <= ts)%Z) ->
             b <> Some true
             \/ Dec.when_truthy (reward_savings_amount (fields row)) = None) as Hcond.
  { intros b Hc.
    destruct H as [Hu | [Hn | [(ts & Hts & Hold) | Hz]]]; [left | left | left | right; exact Hz];
      intros Ht; destruct (Hc Ht) as (Hu' & ts' & Hts' & Hle); try congruence.
    rewrite Hts in Hts'. injection Hts' as <-. lia. }
  f_equal; f_equal.
  - apply (Hsel auto_apply_transactions).
    + intros l1 l2. apply where_app.
    + apply truthy_savings_where_skip. apply Hcond. intros Ht.
      rewrite !and2_true, eq_int_true, recent_spec in Ht. tauto.
  - apply (Hsel notification_transactions).
    + intros l1 l2. apply where_app.
    + apply truthy_savings_where_skip. apply Hcond. intros Ht.
      rewrite !and2_true, eq_int_true, recent_spec in Ht. tauto.
Qed.

(** ** Savings by category *)

Lemma entry_of_add (c c' : string) (a : Decimal)
    (totals : list (string * CategoryTotal)) :
  SpecX.entry_of c' (add_to_category c a totals)
  = if String.eqb c c' then
      Some (match SpecX.entry_of c totals with
            | Some d => {| total_savings := DecSum.add (total_savings d) a;
                           count := count d + 1 |}
            | None => {| total_savings := DecSum.add (mkDecimal false 0 (-2)) a;
                         count := 1 |}
            end)
    else SpecX.entry_of c' totals.
Proof.
  induction totals as [| [k d] totals IH]; simpl.
  - destruct (String.eqb c c'); reflexivity.
  - destruct (String.eqb_spec k c) as [-> | Hkc]; simpl.
    + destruct (String.eqb c c'); reflexivity.
    + rewrite IH. destruct (String.eqb_spec c c') as [<- | Hcc].
      * apply String.eqb_neq in Hkc. rewrite Hkc. reflexivity.
      * reflexivity.
Qed.

Lemma keys_add (c : string) (a : Decimal) (totals : list (string * CategoryTotal)) :
  List.map fst (add_to_category c a totals)
  = match SpecX.entry_of c totals with
    | Some _ => List.map fst totals
    | None => (List.map fst totals ++ [c])%list
    end.
Proof.
  induction totals as [| [k d] totals IH]; simpl; [reflexivity |].
  destruct (String.eqb k c); simpl; [reflexivity |].
  rewrite IH. destruct (SpecX.entry_of c totals); reflexivity.
Qed.

Lemma entry_of_keys (c : string) (totals : list (string * CategoryTotal)) :
  SpecX.entry_of c totals <> None <-> In c (List.map fst totals).
Proof.
  induction totals as [| [k d] totals IH]; simpl; [tauto |].
  destruct (String.eqb_spec k c) as [-> | Hne].
  - split; [auto | discriminate].
  - rewrite IH. split; [auto | intros [H | H]; [contradiction | exact H]].
Qed.

Lemma entry_of_In (c : string) (d : CategoryTotal)
    (totals : list (string * CategoryTotal)) :
  List.NoDup (List.map fst totals) ->
  In (c, d) totals -> SpecX.entry_of c totals = Some d.
Proof.
  induction totals as [| [k e] totals IH]; simpl; [tauto |].
  intros Hnd. apply List.NoDup_cons_iff in Hnd. destruct Hnd as (Hk & Hnd).
  intros [H | H].
  - injection H as -> ->. rewrite String.eqb_refl. reflexivity.
  - destruct (String.eqb_spec k c) as [-> | Hne]; [| auto].
    exfalso. apply Hk. apply (in_map fst) in H. exact H.
Qed.

Lemma first_occurrences_In (l : list string) (x : string) :
  In x (SpecX.first_occurrences l) <-> In x l.
Proof.
  induction l as [| s l IH]; simpl; [tauto |].
  rewrite filter_In, IH. destruct (String.eqb_spec x s) as [-> | Hne]; simpl.
  - intuition.
  - intuition congruence.
Qed.

Lemma filter_app_one {A : Type} (f : A -> bool) (l : list A) (x : A) :
  List.filter f (l ++ [x])%list
  = (List.filter f l ++ if f x then [x] else [])%list.
Proof. rewrite List.filter_app. simpl. destruct (f x); reflexivity. Qed.

Lemma first_occurrences_snoc (l : list string) (x : string) :
  SpecX.first_occurrences (l ++ [x])%list
  = if existsb (String.eqb x) l then SpecX.first_occurrences l
    else (SpecX.first_occurrences l ++ [x])%list.
Proof.
  induction l as [| s l IH]; [reflexivity |].
  simpl. rewrite IH. destruct (String.eqb_spec x s) as [-> | Hne]; simpl.
  - destruct (existsb (String.eqb s) l); [reflexivity |].
    rewrite filter_app_one, String.eqb_refl. simpl. rewrite app_nil_r. reflexivity.
  - destruct (existsb (String.eqb x) l); [reflexivity |].
    rewrite filter_app_one. apply String.eqb_neq in Hne. rewrite Hne. reflexivity.
Qed.

Lemma first_occurrences_NoDup (l : list string) : List.NoDup (SpecX.first_occurrences l).
Proof.
  induction l as [| s l IH]; simpl; [constructor |].
  apply List.NoDup_cons_iff. split.
  - rewrite filter_In, String.eqb_refl. intros (_ & H). discriminate.
  - apply List.NoDup_filter. exact IH.
Qed.

Lemma existsb_eqb_In (x : string) (l : list string) :
  existsb (String.eqb x) l = true <-> In x l.
Proof.
  rewrite existsb_exists. split.
  - intros (y & Hy & He). apply String.eqb_eq in He. subst y. exact Hy.
  - intros H. exists x. split; [exact H | apply String.eqb_refl].
Qed.

(** The loop of [get_rewards_by_category] on the selected rows. *)
Lemma category_loop_snoc (rows : list TransactionRow) (t : TransactionRow) :
  fold_left
    (fun category_totals t =>
       add_to_category (category_or_other (fields t))
         (DecSum.or_zero (reward_savings_amount (fields t))) category_totals)
    (rows ++ [t])%list []
  = add_to_category (category_or_other (fields t)) (SpecX.amount_of t)
      (fold_left
         (fun category_totals t =>
            add_to_category (category_or_other (fields t))
              (DecSum.or_zero (reward_savings_amount (fields t))) category_totals)
         rows []).
Proof. rewrite fold_left_app. reflexivity. Qed.

Lemma category_loop_invariant (rows : list TransactionRow) :
  let totals :=
    fold_left
      (fun category_totals t =>
         add_to_category (category_or_other (fields t))
           (DecSum.or_zero (reward_savings_amount (fields t))) category_totals)
      rows [] in
  List.map fst totals
  = SpecX.first_occurrences (List.map (fun t => category_or_other (fields t)) rows)
  /\ forall cat,
      SpecX.entry_of cat totals
      = match SpecX.rows_of cat rows with
        | [] => None
        | l => Some {| total_savings :=
                         fold_left DecSum.add (List.map SpecX.amount_of l)
                           (mkDecimal false 0 (-2));
                       count := length l |}
        end.
Proof.
  induction rows as [| t rows IH] using rev_ind; [split; reflexivity |].
  cbv zeta in *. rewrite category_loop_snoc.
  set (totals := fold_left _ rows []) in *.
  destruct IH as (Hkeys & Hentries). split.
  - rewrite keys_add, List.map_app. cbn [List.map].
    rewrite first_occurrences_snoc, Hkeys.
    destruct (SpecX.entry_of (category_or_other (fields t)) totals) eqn:E.
    + assert (In (category_or_other (fields t)) (List.map fst totals)) as Hin
        by (apply entry_of_keys; congruence).
      rewrite Hkeys, first_occurrences_In in Hin.
      apply existsb_eqb_In in Hin. rewrite Hin. reflexivity.
    + destruct (existsb _ _) eqn:Ex; [| reflexivity].
      apply existsb_eqb_In, first_occurrences_In in Ex. rewrite <- Hkeys in Ex.
      apply entry_of_keys in Ex. contradiction.
  - intros cat. rewrite entry_of_add. unfold SpecX.rows_of in *.
    rewrite filter_app_one.
    destruct (String.eqb_spec (category_or_other (fields t)) cat) as [He | Hne].
    + rewrite He, Hentries.
      destruct (List.filter _ rows) as [| r l]; [reflexivity |].
      f_equal. f_equal.
      * match goal with
        | |- _ = fold_left _ (List.map _ ?x) _ =>
            change x with ((r :: l) ++ [t])%list
        end.
        rewrite List.map_app, fold_left_app. reflexivity.
      * match goal with
        | |- _ = length ?x => change x with ((r :: l) ++ [t])%list
        end.
        rewrite List.length_app. reflexivity.
    + rewrite Hentries, app_nil_r. reflexivity.
Qed.

Lemma counts_add (c : string) (a : Decimal) (totals : list (string * CategoryTotal)) :
  list_sum (List.map (fun e => count (snd e)) (add_to_category c a totals))
  = S (list_sum (List.map (fun e => count (snd e)) totals)).
Proof.
  induction totals as [| [k d] totals IH]; simpl; [reflexivity |].
  destruct (String.eqb k c); simpl; [lia |]. rewrite IH. lia.
Qed.

(** The grouping invariant of the category loop, on the selected rows. *)
Lemma get_rewards_by_category_groups_core (now uid days : Z) (db : list TransactionRow) :
  let rows := rewarded_transactions uid (now - timedelta_days days) db in
  let result := get_rewards_by_category now uid db days in
  List.map fst result
  = SpecX.first_occurrences (List.map (fun t => category_or_other (fields t)) rows)
  /\ List.NoDup (List.map fst result)
  /\ (forall cat data,
         In (cat, data) result ->
         count data = length (SpecX.rows_of cat rows)
         /\ 1 <= count data
         /\ total_savings data
            = fold_left DecSum.add
                (List.map SpecX.amount_of (SpecX.rows_of cat rows))
                (mkDecimal false 0 (-2)))
  /\ list_sum (List.map (fun e => count (snd e)) result) = length rows.
Proof.
  cbv zeta. unfold get_rewards_by_category.
  set (rows := rewarded_transactions uid (now - timedelta_days days) db).
  destruct (category_loop_invariant rows) as (Hkeys & Hentries). cbv zeta in *.
  set (result := fold_left _ rows []) in *.
  assert (List.NoDup (List.map fst result)) as Hnd
    by (rewrite Hkeys; apply first_occurrences_NoDup).
  split; [exact Hkeys |]. split; [exact Hnd |]. split.
  - intros cat data Hin. apply (entry_of_In _ _ _ Hnd) in Hin.
    rewrite Hentries in Hin.
    destruct (SpecX.rows_of cat rows) as [| r l]; [discriminate |].
    injection Hin as <-. simpl. repeat split. lia.
  - unfold result. clear. induction rows as [| t rows IH] using rev_ind;
      [reflexivity |].
    rewrite category_loop_snoc, counts_add, IH, List.length_app. simpl. lia.
Qed.

(** X25. [get_rewards_by_category] lists each category once, in the order
    in which the categories first occur among the selected transactions
    ("Other" for a transaction without category); an entry's count is the
    number of selected transactions of the category (at least one) and its
    total is their savings added from left to right to Decimal("0.00"); the
    counts add up to the number of selected transactions. *)
Theorem get_rewards_by_category_groups (now uid days : Z) (db : list TransactionRow) :
  let rows := rewarded_transactions uid (now - timedelta_days days) db in
  let result := get_rewards_by_category now uid db days in
  List.map fst result
  = SpecX.first_occurrences (List.map (fun t => category_or_other (fields t)) rows)
  /\ List.NoDup (List.map fst result)
  /\ (forall cat data,
         In (cat, data) result ->
         count data = length (SpecX.rows_of cat rows)
         /\ 1 <= count data
         /\ total_savings data
            = fold_left DecSum.add
                (List.map SpecX.amount_of (SpecX.rows_of cat rows))
                (mkDecimal false 0 (-2)))
  /\ list_sum (List.map (fun e => count (snd e)) result) = length rows.
Proof. apply get_rewards_by_category_groups_core. Qed.

(** ** Totals are not negative *)

Lemma add_positive_sign (x y : Decimal) :
  d_sign x = false -> d_sign y = false -> d_sign (DecSum.add x y) = false.
Proof.
  intros Hx Hy. unfold DecSum.add.
  destruct ((d_int x =? 0)%N && (d_int y =? 0)%N).
  { rewrite fix_sign. simpl. rewrite Hx. reflexivity. }
  destruct (d_int x =? 0)%N.
  { rewrite fix_sign. exact Hy. }
  destruct (d_int y =? 0)%N.
  { rewrite fix_sign. exact Hx. }
  rewrite Hx, Hy.
  destruct (d_exp x <? d_exp y)%Z;
    [destruct (DecSum.normalize y x) as [[int1 int2] e]
    | destruct (DecSum.normalize x y) as [[int1 int2] e]];
    simpl; rewrite fix_sign; reflexivity.
Qed.

Lemma fold_add_positive_sign (ds : list Decimal) (acc : Decimal) :
  d_sign acc = false -> SpecX.all_positive_sign ds ->
  d_sign (fold_left DecSum.add ds acc) = false.
Proof.
  intros Ha Hds. revert acc Ha.
  induction Hds as [| d ds Hd _ IH]; intros acc Ha; simpl; [exact Ha |].
  apply IH. apply add_positive_sign; assumption.
Qed.

Lemma sum_or_zero_positive_sign (ds : list Decimal) :
  SpecX.all_positive_sign ds -> d_sign (DecSum.sum_or_zero ds) = false.
Proof.
  intros Hds. unfold DecSum.sum_or_zero, DecSum.sum.
  destruct Hds as [| d ds Hd Hds]; [reflexivity |].
  destruct (Dec.truthy _); [| reflexivity].
  apply fold_add_positive_sign; [| exact Hds].
  apply add_positive_sign; [exact Hd | reflexivity].
Qed.

Lemma truthy_savings_In (rows : list TransactionRow) (d : Decimal) :
  In d (truthy_savings rows) ->
  exists row, In row rows /\ reward_savings_amount (fields row) = Some d.
Proof.
  induction rows as [| t rows IH]; simpl; [tauto |].
  destruct (Dec.when_truthy (reward_savings_amount (fields t))) as [a |] eqn:E.
  - intros [<- | H].
    + exists t. split; [left; reflexivity | apply when_truthy_inv; exact E].
    + destruct (IH H) as (row & Hin & Hr). eauto.
  - intros H. destruct (IH H) as (row & Hin & Hr). eauto.
Qed.

Lemma truthy_savings_positive_sign (sel db : list TransactionRow) :
  (forall row, In row sel -> In row db) ->
  (forall row d, In row db -> reward_savings_amount (fields row) = Some d ->
                 d_sign d = false) ->
  SpecX.all_positive_sign (truthy_savings sel).
Proof.
  intros Hsub Hdb. apply List.Forall_forall. intros d Hd.
  apply truthy_savings_In in Hd. destruct Hd as (row & Hin & Hr).
  exact (Hdb row d (Hsub row Hin) Hr).
Qed.

Lemma or_zero_positive_sign (o : option Decimal) :
  (forall d, o = Some d -> d_sign d = false) -> d_sign (DecSum.or_zero o) = false.
Proof.
  intros H. unfold DecSum.or_zero.
  destruct (Dec.when_truthy o) as [v |] eqn:E; [| reflexivity].
  apply H. apply when_truthy_inv. exact E.
Qed.

(** X26. When no recorded reward_savings_amount of the table is negative,
    neither total of [calculate_savings] is negative, and no category total
    of [get_rewards_by_category] is; a total over no qualifying transaction is
    exactly Decimal("0.00"). *)
Theorem savings_totals_not_negative (now uid days : Z) (db : list TransactionRow) :
  (forall row d, In row db -> reward_savings_amount (fields row) = Some d ->
                 d_sign d = false) ->
  let totals := calculate_savings now uid db days in
  (d_sign (saved_via_auto_apply totals) = false
   /\ (0 <= Dec.value (saved_via_auto_apply totals))%Q)
  /\ (d_sign (saved_via_notifications totals) = false
      /\ (0 <= Dec.value (saved_via_notifications totals))%Q)
  /\ (forall cat data,
         In (cat, data) (get_rewards_by_category now uid db days) ->
         d_sign (total_savings data) = false)
  /\ (truthy_savings (auto_apply_transactions uid (now - timedelta_days days) db) = [] ->
      saved_via_auto_apply totals = mkDecimal false 0 (-2)).
Proof.
  intros Hdb. cbv zeta. unfold calculate_savings. cbn [saved_via_auto_apply
    saved_via_notifications].
  set (cutoff := (now - timedelta_days days)%Z).
  assert (d_sign (DecSum.sum_or_zero
                    (truthy_savings (auto_apply_transactions uid cutoff db))) = false)
    as Ha.
  { apply sum_or_zero_positive_sign.
    apply (truthy_savings_positive_sign _ db); [| exact Hdb].
    intros row H. apply auto_apply_transactions_In in H. tauto. }
  assert (d_sign (DecSum.sum_or_zero
                    (truthy_savings (notification_transactions uid cutoff db))) = false)
    as Hn.
  { apply sum_or_zero_positive_sign.
    apply (truthy_savings_positive_sign _ db); [| exact Hdb].
    intros row H. apply notification_transactions_In in H. tauto. }
  split; [split; [exact Ha | apply value_nonneg_of_sign; exact Ha] |].
  split; [split; [exact Hn | apply value_nonneg_of_sign; exact Hn] |].
  split.
  - intros cat data Hin.
    destruct (get_rewards_by_category_groups_core now uid days db)
      as (_ & Hnd & Hentries & _).
    destruct (Hentries cat data Hin) as (_ & _ & ->).
    apply fold_add_positive_sign; [reflexivity |].
    apply List.Forall_forall. intros d Hd. apply in_map_iff in Hd.
    destruct Hd as (row & <- & Hrow). unfold SpecX.amount_of.
    apply or_zero_positive_sign. intros d Hd.
    unfold SpecX.rows_of in Hrow. apply filter_In in Hrow. destruct Hrow as (Hrow & _).
    apply rewarded_transactions_In in Hrow. apply (Hdb row d); tauto.
  - intros ->. reflexivity.
Qed.

(** ** Sums that are not rounded *)

Lemma pow10_split (a b : Z) :
  (0 <= a)%Z -> (0 <= b)%Z ->
  (10 ^ Z.to_N (a + b) = 10 ^ Z.to_N a * 10 ^ Z.to_N b)%N.
Proof. intros Ha Hb. rewrite Z2N.inj_add by assumption. apply N.pow_add_r. Qed.

Lemma pow10_nonzero (a : N) : (10 ^ a <> 0)%N.
Proof. apply N.pow_nonzero. discriminate. Qed.

Lemma digits_from_lower (fuel : nat) (n : N) :
  n <> 0%N -> (N.to_nat (N.log2 n) <= fuel)%nat ->
  (10 ^ Z.to_N (Dec.digits_from fuel n - 1) <= n)%N.
Proof.
  revert n. induction fuel as [| fuel IH]; intros n Hn Hf; simpl.
  - change (10 ^ Z.to_N (1 - 1))%N with 1%N. lia.
  - destruct (N.ltb_spec n 10) as [Hlt | Hge].
    + change (10 ^ Z.to_N (1 - 1))%N with 1%N. lia.
    + assert (n / 10 <> 0)%N as Hq.
      { apply N.neq_0_lt_0, N.div_str_pos. lia. }
      assert (N.to_nat (N.log2 (n / 10)) <= fuel)%nat as Hf'.
      { assert (N.log2 (n / 10) < N.log2 n)%N; [| lia].
        assert (0 < n / 10)%N as Hm by (apply N.div_str_pos; lia).
        assert (0 < n)%N as Hn' by lia.
        destruct (N.log2_spec _ Hm) as (Hlo & _).
        destruct (N.log2_spec _ Hn') as (_ & Hhi).
        pose proof (N.Div0.mul_div_le n 10) as Hdiv.
        assert (2 ^ N.succ (N.log2 (n / 10)) < 2 ^ N.succ (N.log2 n))%N as Hpow
          by (rewrite (N.pow_succ_r' 2 (N.log2 (n / 10))); lia).
        apply N.pow_lt_mono_r_iff in Hpow; lia. }
      specialize (IH _ Hq Hf').
      pose proof (digits_from_pos fuel (n / 10)) as Hpos.
      replace (Z.to_N (1 + Dec.digits_from fuel (n / 10) - 1))
        with (N.succ (Z.to_N (Dec.digits_from fuel (n / 10) - 1))) by lia.
      rewrite N.pow_succ_r'.
      pose proof (N.Div0.mul_div_le n 10). nia.
Qed.

Lemma num_digits_lower (n : N) :
  n <> 0%N -> (10 ^ Z.to_N (Dec.num_digits n - 1) <= n)%N.
Proof. intros Hn. apply digits_from_lower; [exact Hn | lia]. Qed.

Lemma normalize_exact (tmp other : Decimal) :
  (d_exp other <= d_exp tmp)%Z ->
  d_int tmp <> 0%N ->
  (d_int tmp * 10 ^ Z.to_N (d_exp tmp - d_exp other) < 10 ^ Z.to_N Dec.prec)%N ->
  DecSum.normalize tmp other
  = ((d_int tmp * 10 ^ Z.to_N (d_exp tmp - d_exp other))%N, d_int other, d_exp other).
Proof.
  intros He Hnz Hfit. unfold DecSum.normalize.
  pose proof (pow10_nonzero (Z.to_N (d_exp tmp - d_exp other))) as Hpow.
  assert (d_int tmp < 10 ^ Z.to_N Dec.prec)%N as Hlt by nia.
  pose proof (num_digits_bounds _ Hlt) as HL.
  pose proof (num_digits_lower _ Hnz) as Hlow.
  pose proof (digits_from_pos (N.to_nat (N.log2 (d_int other))) (d_int other)) as HOL.
  fold (Dec.num_digits (d_int other)) in HOL.
  set (L := Dec.num_digits (d_int tmp)) in *.
  set (OL := Dec.num_digits (d_int other)) in *.
  unfold Dec.prec in *.
  destruct (Z.ltb_spec (OL + d_exp other - 1) (d_exp tmp + Z.min (-1) (L - 28 - 2)))
    as [Hsmall | _]; [exfalso | reflexivity].
  assert (31 - L <= d_exp tmp - d_exp other)%Z as HD by lia.
  assert (10 ^ Z.to_N (31 - L) <= 10 ^ Z.to_N (d_exp tmp - d_exp other))%N as Hmono
    by (apply N.pow_le_mono_r; lia).
  assert (10 ^ Z.to_N 30 = 10 ^ Z.to_N (L - 1) * 10 ^ Z.to_N (31 - L))%N as H30.
  { rewrite <- pow10_split by lia. f_equal. f_equal. lia. }
  assert (10 ^ Z.to_N 30 <= d_int tmp * 10 ^ Z.to_N (d_exp tmp - d_exp other))%N as Hbig.
  { rewrite H30. apply N.mul_le_mono; assumption. }
  assert (10 ^ Z.to_N 28 < 10 ^ Z.to_N 30)%N as Hcmp by reflexivity.
  lia.
Qed.

Lemma scaled_rebase (e m : Z) (d : Decimal) :
  (e <= m)%Z -> (m <= d_exp d)%Z ->
  SpecX.scaled e d = (SpecX.scaled m d * 10 ^ Z.to_N (m - e))%N.
Proof.
  intros Hem Hmd. unfold SpecX.scaled.
  replace (d_exp d - e)%Z with ((d_exp d - m) + (m - e))%Z by lia.
  rewrite pow10_split by lia. lia.
Qed.

Lemma add_zero_left (x y : Decimal) :
  d_int x = 0%N -> d_int y <> 0%N ->
  DecSum.add x y
  = Dec.fix_ (DecSum.pad_to y (Z.max (Z.min (d_exp x) (d_exp y))
                                     (d_exp y - Dec.prec - 1))).
Proof.
  intros Hx Hy. apply N.eqb_eq in Hx. apply N.eqb_neq in Hy.
  unfold DecSum.add. rewrite Hx, Hy. reflexivity.
Qed.

Lemma add_zero_right (x y : Decimal) :
  d_int x <> 0%N -> d_int y = 0%N ->
  DecSum.add x y
  = Dec.fix_ (DecSum.pad_to x (Z.max (Z.min (d_exp x) (d_exp y))
                                     (d_exp x - Dec.prec - 1))).
Proof.
  intros Hx Hy. apply N.eqb_neq in Hx. apply N.eqb_eq in Hy.
  unfold DecSum.add. rewrite Hx, Hy. reflexivity.
Qed.

Lemma scaled_pad_to (m e1 : Z) (d : Decimal) :
  (m <= e1)%Z -> (e1 <= d_exp d)%Z ->
  SpecX.scaled m (DecSum.pad_to d e1) = SpecX.scaled m d.
Proof.
  intros H1 H2. unfold SpecX.scaled, DecSum.pad_to. cbn [d_int d_exp].
  rewrite <- N.mul_assoc, <- pow10_split by lia.
  f_equal. f_equal. f_equal. lia.
Qed.

Lemma scaled_ge (m : Z) (d : Decimal) : (d_int d <= SpecX.scaled m d)%N.
Proof.
  unfold SpecX.scaled.
  pose proof (pow10_nonzero (Z.to_N (d_exp d - m))) as Hp.
  rewrite <- (N.mul_1_r (d_int d)) at 1.
  apply N.mul_le_mono_l. lia.
Qed.

(** A padded operand that fits the precision is not rounded. *)
Lemma fix_pad_to (m e1 : Z) (d : Decimal) (bound : N) :
  (m <= e1)%Z -> (e1 <= d_exp d)%Z ->
  (SpecX.scaled m d <= bound)%N -> (bound < 10 ^ Z.to_N Dec.prec)%N ->
  Dec.fix_ (DecSum.pad_to d e1) = DecSum.pad_to d e1.
Proof.
  intros H1 H2 Hb Hfit. apply fix_within_prec.
  pose proof (scaled_ge m (DecSum.pad_to d e1)) as Hge.
  rewrite (scaled_pad_to m e1 d H1 H2) in Hge.
  eapply N.le_lt_trans; [exact Hge |].
  eapply N.le_lt_trans; [exact Hb | exact Hfit].
Qed.


Lemma scaled_self (d : Decimal) : SpecX.scaled (d_exp d) d = d_int d.
Proof.
  unfold SpecX.scaled. rewrite Z.sub_diag. change (10 ^ Z.to_N 0)%N with 1%N.
  apply N.mul_1_r.
Qed.

Lemma add_nonzero_lt (x y : Decimal) (t o : N) (e : Z) :
  d_int x <> 0%N -> d_int y <> 0%N ->
  d_sign x = false -> d_sign y = false ->
  (d_exp x < d_exp y)%Z ->
  DecSum.normalize y x = (t, o, e) ->
  DecSum.add x y = Dec.fix_ (mkDecimal false (o + t) e).
Proof.
  intros Hx Hy Hsx Hsy Hlt Hn.
  apply N.eqb_neq in Hx. apply N.eqb_neq in Hy. apply Z.ltb_lt in Hlt.
  unfold DecSum.add. rewrite Hx, Hy, Hlt, Hn, Hsx, Hsy. reflexivity.
Qed.

Lemma add_nonzero_ge (x y : Decimal) (t o : N) (e : Z) :
  d_int x <> 0%N -> d_int y <> 0%N ->
  d_sign x = false -> d_sign y = false ->
  (d_exp y <= d_exp x)%Z ->
  DecSum.normalize x y = (t, o, e) ->
  DecSum.add x y = Dec.fix_ (mkDecimal false (t + o) e).
Proof.
  intros Hx Hy Hsx Hsy Hge Hn.
  apply N.eqb_neq in Hx. apply N.eqb_neq in Hy. apply Z.ltb_ge in Hge.
  unfold DecSum.add. rewrite Hx, Hy, Hge, Hn, Hsx, Hsy. reflexivity.
Qed.

(** The sum of a larger-exponent operand [tmp] and a smaller-exponent one
    [other], both not zero, when the exact sum fits the precision. *)
Lemma normalize_sum_exact (tmp other : Decimal) :
  (d_exp other <= d_exp tmp)%Z -> d_int tmp <> 0%N ->
  (SpecX.scaled (d_exp other) other + SpecX.scaled (d_exp other) tmp
   < 10 ^ Z.to_N Dec.prec)%N ->
  DecSum.normalize tmp other
  = (SpecX.scaled (d_exp other) tmp, d_int other, d_exp other)
  /\ Dec.fix_ (mkDecimal false (d_int other + SpecX.scaled (d_exp other) tmp)
                 (d_exp other))
     = mkDecimal false (d_int other + SpecX.scaled (d_exp other) tmp) (d_exp other).
Proof.
  intros He Hnz Hfit. rewrite scaled_self in Hfit. split.
  - apply normalize_exact; [exact He | exact Hnz |].
    eapply N.le_lt_trans; [| exact Hfit]. apply N.le_add_l.
  - apply fix_within_prec. exact Hfit.
Qed.

(** Adding two non-negative decimals whose exact sum fits the precision:
    the result is that sum, at an exponent not below the smaller one. *)
Lemma add_exact (x y : Decimal) :
  d_sign x = false -> d_sign y = false ->
  let m := Z.min (d_exp x) (d_exp y) in
  (SpecX.scaled m x + SpecX.scaled m y < 10 ^ Z.to_N Dec.prec)%N ->
  d_sign (DecSum.add x y) = false
  /\ (m <= d_exp (DecSum.add x y))%Z
  /\ SpecX.scaled m (DecSum.add x y) = (SpecX.scaled m x + SpecX.scaled m y)%N.
Proof.
  intros Hx Hy m Hfit.
  split; [apply add_positive_sign; assumption |].
  destruct (N.eq_dec (d_int x) 0%N) as [Hzx | Hnx];
    destruct (N.eq_dec (d_int y) 0%N) as [Hzy | Hny].
  - assert (DecSum.add x y = mkDecimal false 0%N m) as ->.
    { apply N.eqb_eq in Hzx. apply N.eqb_eq in Hzy.
      unfold DecSum.add. rewrite Hzx, Hzy, Hx, Hy. reflexivity. }
    split; [apply Z.le_refl |].
    unfold SpecX.scaled. cbn [d_int d_exp]. rewrite Hzx, Hzy. reflexivity.
  - assert (m <= Z.max m (d_exp y - Dec.prec - 1))%Z as H1 by apply Z.le_max_l.
    assert (Z.max m (d_exp y - Dec.prec - 1) <= d_exp y)%Z as H2.
    { apply Z.max_lub; [apply Z.le_min_r |]. unfold Dec.prec. lia. }
    rewrite (add_zero_left x y Hzx Hny). fold m.
    rewrite (fix_pad_to m _ y (SpecX.scaled m x + SpecX.scaled m y) H1 H2);
      [| apply N.le_add_l | exact Hfit].
    split; [exact H1 |].
    rewrite (scaled_pad_to m _ y H1 H2).
    assert (SpecX.scaled m x = 0%N) as ->
      by (unfold SpecX.scaled; rewrite Hzx; reflexivity).
    reflexivity.
  - assert (m <= Z.max m (d_exp x - Dec.prec - 1))%Z as H1 by apply Z.le_max_l.
    assert (Z.max m (d_exp x - Dec.prec - 1) <= d_exp x)%Z as H2.
    { apply Z.max_lub; [apply Z.le_min_l |]. unfold Dec.prec. lia. }
    rewrite (add_zero_right x y Hnx Hzy). fold m.
    rewrite (fix_pad_to m _ x (SpecX.scaled m x + SpecX.scaled m y) H1 H2);
      [| apply N.le_add_r | exact Hfit].
    split; [exact H1 |].
    rewrite (scaled_pad_to m _ x H1 H2).
    assert (SpecX.scaled m y = 0%N) as ->
      by (unfold SpecX.scaled; rewrite Hzy; reflexivity).
    symmetry. apply N.add_0_r.
  - destruct (Z.lt_ge_cases (d_exp x) (d_exp y)) as [Hlt | Hge].
    + assert (m = d_exp x) as Hm by (apply Z.min_l; apply Z.lt_le_incl; exact Hlt).
      revert Hfit. rewrite Hm. intros Hfit.
      destruct (normalize_sum_exact y x (Z.lt_le_incl _ _ Hlt) Hny Hfit)
        as (Hn & Hf).
      rewrite (add_nonzero_lt x y _ _ _ Hnx Hny Hx Hy Hlt Hn), Hf.
      cbn [d_exp]. split; [apply Z.le_refl |].
      rewrite (scaled_self x).
      apply (scaled_self
               (mkDecimal false (d_int x + SpecX.scaled (d_exp x) y) (d_exp x))).
    + assert (m = d_exp y) as Hm by (apply Z.min_r; exact Hge).
      revert Hfit. rewrite Hm. intros Hfit.
      rewrite N.add_comm in Hfit.
      destruct (normalize_sum_exact x y Hge Hnx Hfit) as (Hn & Hf).
      rewrite (add_nonzero_ge x y _ _ _ Hnx Hny Hx Hy Hge Hn).
      rewrite (N.add_comm (SpecX.scaled (d_exp y) x)), Hf.
      cbn [d_exp]. split; [apply Z.le_refl |].
      rewrite (scaled_self y), (N.add_comm (SpecX.scaled (d_exp y) x)).
      apply (scaled_self
               (mkDecimal false (d_int y + SpecX.scaled (d_exp y) x) (d_exp y))).
Qed.

Lemma scaled_sum_app (e : Z) (xs ys : list Decimal) :
  SpecX.scaled_sum e (xs ++ ys)%list
  = (SpecX.scaled_sum e xs + SpecX.scaled_sum e ys)%N.
Proof. induction xs as [| x xs IH]; simpl; [reflexivity | rewrite IH; lia]. Qed.

Lemma add_exact_at (e : Z) (x y : Decimal) :
  d_sign x = false -> d_sign y = false ->
  (e <= d_exp x)%Z -> (e <= d_exp y)%Z ->
  (SpecX.scaled e x + SpecX.scaled e y < 10 ^ Z.to_N Dec.prec)%N ->
  d_sign (DecSum.add x y) = false
  /\ (e <= d_exp (DecSum.add x y))%Z
  /\ SpecX.scaled e (DecSum.add x y) = (SpecX.scaled e x + SpecX.scaled e y)%N.
Proof.
  intros Hx Hy Hex Hey Hfit.
  set (m := Z.min (d_exp x) (d_exp y)).
  assert (e <= m)%Z as Hem by (unfold m; lia).
  pose proof (pow10_nonzero (Z.to_N (m - e))) as Hp.
  rewrite (scaled_rebase e m x), (scaled_rebase e m y) in Hfit by (unfold m; lia).
  destruct (add_exact x y Hx Hy) as (Hs & Hm & Heq); [fold m; nia |].
  fold m in Hm, Heq.
  split; [exact Hs |]. split; [lia |].
  rewrite (scaled_rebase e m (DecSum.add x y)), (scaled_rebase e m x),
    (scaled_rebase e m y) by (unfold m; lia).
  rewrite Heq. lia.
Qed.

Lemma fold_add_exact (e : Z) (ds : list Decimal) (acc : Decimal) :
  d_sign acc = false -> (e <= d_exp acc)%Z ->
  SpecX.all_positive_sign ds ->
  Forall (fun d => (e <= d_exp d)%Z) ds ->
  (SpecX.scaled e acc + SpecX.scaled_sum e ds < 10 ^ Z.to_N Dec.prec)%N ->
  let total := fold_left DecSum.add ds acc in
  d_sign total = false
  /\ (e <= d_exp total)%Z
  /\ SpecX.scaled e total = (SpecX.scaled e acc + SpecX.scaled_sum e ds)%N.
Proof.
  intros Ha Hea Hsign Hexp. revert acc Ha Hea Hsign.
  induction Hexp as [| d ds Hd _ IH]; intros acc Ha Hea Hsign Hfit; cbv zeta.
  - simpl. split; [exact Ha |]. split; [exact Hea | lia].
  - apply List.Forall_cons_iff in Hsign. destruct Hsign as (Hsd & Hsign).
    cbn [SpecX.scaled_sum] in Hfit.
    destruct (add_exact_at e acc d Ha Hsd Hea Hd) as (Hs & He & Heq); [lia |].
    cbn [fold_left SpecX.scaled_sum].
    destruct (IH (DecSum.add acc d) Hs He Hsign) as (Hs' & He' & Heq');
      [rewrite Heq; lia |].
    split; [exact Hs' |]. split; [exact He' |]. rewrite Heq', Heq. lia.
Qed.

Lemma value_of_scaled (e : Z) (d : Decimal) :
  d_sign d = false -> (e <= d_exp d)%Z ->
  (Dec.value d == inject_Z (Z.of_N (SpecX.scaled e d)) * (10 # 1) ^ e)%Q.
Proof.
  intros Hs He. rewrite (value_scaled d e He).
  unfold SpecX.scaled, Dec.signed. rewrite Hs.
  rewrite N2Z.inj_mul, N2Z.inj_pow, Z2N.id by lia. reflexivity.
Qed.

Lemma value_sum_scaled (e : Z) (ds : list Decimal) :
  SpecX.all_positive_sign ds ->
  Forall (fun d => (e <= d_exp d)%Z) ds ->
  (SpecX.value_sum ds == inject_Z (Z.of_N (SpecX.scaled_sum e ds)) * (10 # 1) ^ e)%Q.
Proof.
  intros Hsign Hexp. induction Hexp as [| d ds Hd _ IH]; simpl.
  - rewrite Qmult_0_l. reflexivity.
  - apply List.Forall_cons_iff in Hsign. destruct Hsign as (Hsd & Hsign).
    rewrite (IH Hsign), (value_of_scaled e d Hsd Hd).
    rewrite N2Z.inj_add, inject_Z_plus. ring.
Qed.

(** The builtin sum of non-negative decimals whose exact total has no more
    digits than the precision is that total, not a rounding of it. *)
Lemma sum_or_zero_exact (e : Z) (ds : list Decimal) :
  (e <= 0)%Z ->
  SpecX.all_positive_sign ds ->
  Forall (fun d => (e <= d_exp d)%Z) ds ->
  (SpecX.scaled_sum e ds < 10 ^ Z.to_N Dec.prec)%N ->
  (Dec.value (DecSum.sum_or_zero ds) == SpecX.value_sum ds)%Q.
Proof.
  intros He Hsign Hexp Hfit.
  rewrite (value_sum_scaled e ds Hsign Hexp).
  unfold DecSum.sum_or_zero, DecSum.sum.
  destruct ds as [| d ds]; [simpl; rewrite Qmult_0_l; reflexivity |].
  apply List.Forall_cons_iff in Hsign. destruct Hsign as (Hsd & Hsign).
  apply List.Forall_cons_iff in Hexp. destruct Hexp as (Hd & Hexp).
  cbn [SpecX.scaled_sum] in Hfit |- *.
  assert (SpecX.scaled e (Dec.of_nonneg_int 0) = 0%N) as Hzero by reflexivity.
  destruct (add_exact_at e d (Dec.of_nonneg_int 0) Hsd eq_refl Hd He)
    as (Hs & Hexp0 & Heq); [rewrite Hzero; lia |].
  rewrite Hzero, N.add_0_r in Heq.
  destruct (fold_add_exact e ds _ Hs Hexp0 Hsign Hexp) as (Hs' & He' & Heq');
    [rewrite Heq; lia |].
  rewrite Heq in Heq'.
  set (total := fold_left DecSum.add ds (DecSum.add d (Dec.of_nonneg_int 0))) in *.
  destruct (Dec.truthy total) eqn:Ht.
  - rewrite (value_of_scaled e total Hs' He'), Heq'. reflexivity.
  - rewrite <- Heq'. unfold Dec.truthy in Ht.
    apply Bool.negb_false_iff, N.eqb_eq in Ht.
    unfold SpecX.scaled. rewrite Ht. simpl. rewrite Qmult_0_l. reflexivity.
Qed.

(** X27. When every recorded reward_savings_amount of the table is
    non-negative with an exponent of at least [e] (e.g. -2: whole cents), and
    the exact totals of the two selections, counted in units of [10 ** e],
    have at most 28 digits, both totals of [calculate_savings] are the exact
    sums of the amounts selected: the rounding of the decimal context never
    sets in. *)
Theorem calculate_savings_totals_exact (now uid days : Z) (db : list TransactionRow)
    (e : Z) :
  (e <= 0)%Z ->
  (forall row d, In row db -> reward_savings_amount (fields row) = Some d ->
                 d_sign d = false /\ (e <= d_exp d)%Z) ->
  let cutoff := (now - timedelta_days days)%Z in
  let auto := truthy_savings (auto_apply_transactions uid cutoff db) in
  let notified := truthy_savings (notification_transactions uid cutoff db) in
  (SpecX.scaled_sum e auto < 10 ^ Z.to_N Dec.prec)%N ->
  (SpecX.scaled_sum e notified < 10 ^ Z.to_N Dec.prec)%N ->
  (Dec.value (saved_via_auto_apply (calculate_savings now uid db days))
   == SpecX.value_sum auto)%Q
  /\ (Dec.value (saved_via_notifications (calculate_savings now uid db days))
      == SpecX.value_sum notified)%Q.
Proof.
  intros He Hdb cutoff auto notified Hauto Hnotified.
  unfold calculate_savings. cbn [saved_via_auto_apply saved_via_notifications].
  fold cutoff. fold auto. fold notified.
  assert (forall sel,
             (forall row, In row sel -> In row db) ->
             SpecX.all_positive_sign (truthy_savings sel)
             /\ Forall (fun d => (e <= d_exp d)%Z) (truthy_savings sel)) as Hsel.
  { intros sel Hsub. split; apply List.Forall_forall; intros d Hd;
      apply truthy_savings_In in Hd; destruct Hd as (row & Hin & Hr);
      apply (Hdb row d (Hsub row Hin) Hr). }
  split.
  - destruct (Hsel (auto_apply_transactions uid cutoff db)) as (Hs & Hx).
    { intros row H. apply auto_apply_transactions_In in H. tauto. }
    apply (sum_or_zero_exact e); assumption.
  - destruct (Hsel (notification_transactions uid cutoff db)) as (Hs & Hx).
    { intros row H. apply notification_transactions_In in H. tauto. }
    apply (sum_or_zero_exact e); assumption.
Qed.

Lemma calculate_savings_totals_exact_witness :
  (Dec.value (saved_via_auto_apply (calculate_savings 40 1 Ledger.rows 30))
   == SpecX.value_sum [Examples.fifty_00; mkDecimal false 125 (-2)])%Q
  /\ (Dec.value (saved_via_notifications (calculate_savings 40 1 Ledger.rows 30))
      == SpecX.value_sum [mkDecimal false 24 (-1)])%Q.
Proof.
  apply (calculate_savings_totals_exact 40 1 30 Ledger.rows (-2)).
  - lia.
  - intros row d Hin Hd. simpl in Hin.
    destruct Hin as [<- | [<- | [<- | [<- | []]]]];
      injection Hd as <-; split; simpl; lia || reflexivity.
  - reflexivity.
  - reflexivity.
Defined.

(** ** Concrete instances *)

Lemma recommended_auto_apply_sound_witness :
  exists rec,
    Recommendations.generate_reward_recommendations Examples.user_without_geo
      Ledger.recent Examples.catalog (Some Ledger.preferences_dict_in_sf) None
    = Some rec
    /\ length (Recommendations.recommended_auto_apply rec) <= 5
    /\ sublist (Recommendations.recommended_auto_apply rec) Examples.catalog.
Proof.
  destruct (Recommendations.generate_reward_recommendations Examples.user_without_geo
              Ledger.recent Examples.catalog (Some Ledger.preferences_dict_in_sf) None)
    as [rec |] eqn:E; [| vm_compute in E; discriminate E].
  exists rec. split; [reflexivity |].
  destruct (recommended_auto_apply_sound _ _ _ _ _ _ E) as (Hlen & Hsub & _).
  split; assumption.
Defined.

Lemma recommended_priceless_sound_witness :
  exists rec,
    Recommendations.generate_reward_recommendations Examples.user_without_geo
      Ledger.recent Examples.catalog (Some Ledger.preferences_dict_in_sf) None
    = Some rec
    /\ length (Recommendations.recommended_priceless rec) <= 5
    /\ sublist (Recommendations.recommended_priceless rec) Examples.catalog.
Proof.
  destruct (Recommendations.generate_reward_recommendations Examples.user_without_geo
              Ledger.recent Examples.catalog (Some Ledger.preferences_dict_in_sf) None)
    as [rec |] eqn:E; [| vm_compute in E; discriminate E].
  exists rec. split; [reflexivity |].
  destruct (recommended_priceless_sound _ _ _ _ _ _ E) as (Hlen & Hsub & _).
  split; assumption.
Defined.

Lemma calculate_savings_ignores_row_witness :
  calculate_savings 40 1 Ledger.rows 30
  = calculate_savings 40 1
      [ {| user_id := 1; fields := Ledger.coffee |};
        {| user_id := 1; fields := Ledger.cinema |};
        {| user_id := 1; fields := Ledger.second_coffee |} ] 30.
Proof.
  apply (calculate_savings_ignores_row 40 1 30
           [ {| user_id := 1; fields := Ledger.coffee |} ]
           [ {| user_id := 1; fields := Ledger.cinema |};
             {| user_id := 1; fields := Ledger.second_coffee |} ]
           {| user_id := 2; fields := Ledger.coffee |}).
  left. simpl. lia.
Defined.

Lemma savings_totals_not_negative_witness :
  d_sign (saved_via_auto_apply (calculate_savings 40 1 Ledger.rows 30)) = false
  /\ (0 <= Dec.value (saved_via_auto_apply (calculate_savings 40 1 Ledger.rows 30)))%Q.
Proof.
  destruct (savings_totals_not_negative 40 1 30 Ledger.rows) as (Hauto & _);
    [| exact Hauto].
  intros row d Hin Hd. simpl in Hin.
  destruct Hin as [<- | [<- | [<- | [<- | []]]]]; injection Hd as <-; reflexivity.
Defined.
